(** * The staking lifecycle engine of btc-staker

    A shallow embedding of [staker/stakerapp.go] (the [StakerApp] start-up
    reconciler, its event loop, the public request operations and their helper
    tasks) and of the service client's [Unbond] wrapper.

    Conventions of the embedding:
    - Go fixed-width integers are [Z] with the wrap-around written out
      ([wrap32], [wrap16], [wrap64]); [btcutil.Amount] is a signed 64-bit [Z].
    - A Go function returning [(v, err)] returns [res A]; a function returning
      only [error] returns [option error] ([None] is Go's [nil]).
    - External collaborators (wallet, chain notifier, coordinator client, fee
      estimator, script library) are oracles of an [Env]; a [World] gives the
      [Env] at every instant, the instant at which the quit channel is closed
      and the pseudo-random choice of [select].
    - Code of the daemon runs in the monad [Prog]: it threads the clock and the
      tracked-transaction store, accumulates the observable [Action]s and may
      stop with [Fatal] ([logger.Fatalf]), [Panic] (a Go run-time panic) or
      [Blocked] (a goroutine parked forever).
    - Time is discrete, in nanoseconds.  Calls take no time; the clock advances
      only while a [select] is parked, up to the instant its first case fires.
    - Debug and info log records are not actions; the evaluation of their
      fields (a nil dereference, an index out of range) is kept.
    - Loops that may run forever take a [fuel] bound. *)

From Stdlib Require Import ZArith Lia.
From stdpp Require Import gmap strings list fin_maps.

Local Open Scope Z_scope.

(** ** Machine integers and durations *)

Definition wrap16 (z : Z) : Z := z mod 2 ^ 16.
Definition wrap32 (z : Z) : Z := z mod 2 ^ 32.
Definition wrap64 (z : Z) : Z := z mod 2 ^ 64.

Definition is_uint16 (z : Z) : Prop := 0 <= z < 2 ^ 16.
Definition is_uint32 (z : Z) : Prop := 0 <= z < 2 ^ 32.
Definition is_int64 (z : Z) : Prop := - 2 ^ 63 <= z < 2 ^ 63.

(** [time.Duration] and instants, both in nanoseconds. *)
Definition Time := Z.
Definition Second : Z := 1000000000.
Definition Hour : Z := 3600 * Second.

(** ** Constants of [stakerapp.go] *)

Definition minSlashingFee : Z := 1000.
Definition maxNumPendingDelegations : Z := 100.
Definition SpendStakeTxConfirmations : Z := 3.
Definition timeoutWaitingForSpendConfirmation : Z := 2 * Hour.
Definition defaultWalletUnlockTimeout : Z := 15.
Definition slashingPathSpendTxVSize : Z := 180.
Definition unbondingSendRetryTimeout : Z := 30 * Second.
Definition UnbondingTxConfirmations : Z := 6.

(** Modelled from the spec: [txrules.DefaultRelayFeePerKb] of btcwallet is not
    part of the repository; the specification fixes the floor at 1000 sat/kb
    (1 sat/byte). *)
Definition DefaultRelayFeePerKb : Z := 1000.
Definition MinFeePerKb : Z := DefaultRelayFeePerKb.

(** ** Data model *)

Definition Bytes := list Byte.byte.
Definition Hash := N.
Definition PrivateKey := N.
Definition PublicKey := N.
Definition Address := string.

Inductive error : Type :=
| ErrDelegationNotFound                       (* cl.ErrDelegationNotFound *)
| ErrExternal (code : N)                      (* an error of a collaborator *)
| Errorf (fmt : string) (args : list Z)       (* fmt.Errorf / errors.New *)
| ErrorfW (fmt : string) (inner : error).     (* fmt.Errorf("...: %w", err) *)

(** [errors.Is] follows the chain of wrapped errors. *)
Fixpoint errors_Is (e : error) (target : error) : bool :=
  match e, target with
  | ErrDelegationNotFound, ErrDelegationNotFound => true
  | ErrExternal a, ErrExternal b => bool_decide (a = b)
  | ErrorfW _ inner, _ => errors_Is inner target
  | _, _ => false
  end.

Inductive res (A : Type) : Type :=
| Ok (a : A)
| Err (e : error).
Arguments Ok {A} a.
Arguments Err {A} e.

Record TxOut := mkTxOut { Value : Z; PkScript : Bytes }.

(** [wire.MsgTx], reduced to what the engine reads: the transaction id, the
    outputs and the witness of its first input. *)
Record MsgTx := mkMsgTx {
  TxHash : Hash;
  TxOuts : list TxOut;
  Witness0 : option Bytes
}.

(** [proto.TransactionState] is an int32 enumeration; [UNKNOWN_STATE] stands
    for the tags outside the seven declared ones. *)
Inductive TransactionState : Type :=
| SENT_TO_BTC
| CONFIRMED_ON_BTC
| SENT_TO_BABYLON
| UNBONDING_STARTED
| UNBONDING_SIGNATURES_RECEIVED
| UNBONDING_CONFIRMED_ON_BTC
| SPENT_ON_BTC
| UNKNOWN_STATE (tag : Z).

Record BabylonPop := mkPop { BabylonSig : Bytes; BtcSig : Bytes }.

Record UnbondingStoreData := mkUnbondingStoreData {
  UnbondingTx : MsgTx;
  UnbondingTxScript : Bytes;
  UnbondingSignatures : option (Bytes * Bytes);
  UnbondingInclusion : option (Hash * Z)
}.

Record StoredTransaction := mkStoredTransaction {
  StakingTx : MsgTx;
  StakingOutputIndex : Z;
  TxScript : Bytes;
  Pop : option BabylonPop;
  StakerAddress : string;
  State : TransactionState;
  Watched : bool;
  BtcInclusion : option (Hash * Z);
  UnbondingTxData : option UnbondingStoreData
}.

Record StakingParams := mkStakingParams {
  JuryPk : PublicKey;
  SlashingAddress : Address;
  MinSlashingTxFeeSat : Z;           (* btcutil.Amount *)
  ConfirmationTimeBlocks : Z;        (* uint32 *)
  FinalizationTimeoutBlocks : Z      (* uint32 *)
}.

Definition wf_params (p : StakingParams) : Prop :=
  is_int64 (MinSlashingTxFeeSat p) /\
  is_uint32 (ConfirmationTimeBlocks p) /\
  is_uint32 (FinalizationTimeoutBlocks p).

(** ** Pure helpers of the application *)

(** [getSlashingFee] (the debug log is not observable). *)
Definition getSlashingFee (p : StakingParams) : Z :=
  let feeFromBabylon := MinSlashingTxFeeSat p in
  if feeFromBabylon <? minSlashingFee then minSlashingFee else feeFromBabylon.

(** [GetMinStakingTime]: uint32 arithmetic. *)
Definition GetMinStakingTime (p : StakingParams) : Z :=
  wrap32 (wrap32 (2 * FinalizationTimeoutBlocks p) + ConfirmationTimeBlocks p).

(** ** Notifications, requests and events *)

Inductive TxStatus : Type := TxNotFound | TxInMemPool | TxInChain.

(** [notifier.TxConfirmation]. *)
Record TxConfirmation := mkTxConfirmation {
  BlockHash : Hash;
  BlockHeight : Z;                   (* uint32 *)
  TxIndex : Z;                       (* uint32 *)
  ConfTx : MsgTx;
  Block : option Bytes
}.

(** [notifier.ConfirmationEvent]: [ConfirmedAt] is the instant at which the
    notifier delivers on the [Confirmed] channel, if it ever does.  The
    [Updates] channel only feeds debug logs and is left out. *)
Record ConfirmationEvent := mkConfirmationEvent {
  EvId : N;
  ConfirmedAt : option Time;
  Confirmation : TxConfirmation
}.

Record stakingTxBtcConfirmation := mkStakingTxBtcConfirmation {
  sc_txHash : Hash;
  sc_txIndex : Z;
  sc_blockDepth : Z;
  sc_blockHash : Hash;
  sc_blockHeight : Z;
  sc_tx : MsgTx;
  sc_inlusionBlock : option Bytes
}.

Record unbondingTxBtcConfirmation := mkUnbondingTxBtcConfirmation {
  uc_stakingTxHash : Hash;
  uc_blockHash : Hash;
  uc_blockHeight : Z
}.

Record sendDelegationRequest := mkSendDelegationRequest {
  sd_txHash : Hash;
  sd_txIndex : Z;
  sd_inclusionBlock : option Bytes;
  sd_requiredInclusionBlockDepth : Z  (* uint64 *)
}.

Record sendDelegationResponse := mkSendDelegationResponse {
  sr_txHash : Hash;
  sr_err : option error
}.

(** A channel is named by a number; per-request reply channels are one-slot
    mailboxes kept in the state. *)
Definition ChanId := N.

Record watchTxData := mkWatchTxData {
  slashingTx : MsgTx;
  slashingTxSig : Bytes;
  stakerBabylonPubKey : PublicKey
}.

Record stakingRequest := mkStakingRequest {
  rq_stakerAddress : Address;
  rq_stakingTx : MsgTx;
  rq_stakingOutputIdx : Z;
  rq_stakingOutputPkScript : Bytes;
  rq_stakingTxScript : Bytes;
  rq_requiredDepthOnBtcChain : Z;
  rq_pop : option BabylonPop;
  rq_watchTxData : option watchTxData;
  rq_errChan : ChanId;
  rq_successChan : ChanId
}.

(** Modelled from the spec: [stakingRequest.isWatched] is declared outside the
    given sources; a request is watched when it carries the externally
    supplied slashing transaction and signature. *)
Definition isWatched (req : stakingRequest) : bool :=
  match rq_watchTxData req with Some _ => true | None => false end.

Record UndelegationData := mkUndelegationData {
  UnbondingTransaction : MsgTx;
  UnbondingTransactionScript : Bytes;
  SignatureUnbonding : Bytes
}.

Record unbondingRequest := mkUnbondingRequest {
  ur_stakingTxHash : Hash;
  ur_unbondingData : UndelegationData;
  ur_errChan : ChanId;
  ur_successChan : ChanId
}.

Record unbondingRequestConfirm := mkUnbondingRequestConfirm {
  urc_stakingTxHash : Hash;
  urc_unbondingTransaction : MsgTx;
  urc_unbondingTransactionScript : Bytes;
  urc_successChan : ChanId
}.

Record unbondingSignaturesConfirmed := mkUnbondingSignaturesConfirmed {
  usc_stakingTxHash : Hash;
  usc_validatorUnbondingSignature : Bytes;
  usc_juryUnbondingSignature : Bytes
}.

(** What arrives on the inbound channels of the event loop. *)
Inductive Event : Type :=
| EvStakingRequest (req : stakingRequest)                       (* stakingRequestChan *)
| EvConfirmation (c : stakingTxBtcConfirmation)                 (* confirmationEventChan *)
| EvSendDelegationResponse (r : sendDelegationResponse)         (* sendDelegationResponseChan *)
| EvSpendTxConfirmation (stakingTxHash : Hash)                  (* spendTxConfirmationChan *)
| EvUnbondingRequestConfirm (c : unbondingRequestConfirm)       (* sendUnbondingRequestConfirmChan *)
| EvUnbondingSignaturesConfirmed (c : unbondingSignaturesConfirmed)
| EvUnbondingConfirmedOnBtc (c : unbondingTxBtcConfirmation).   (* unbondingConfirmedOnBtcChan *)

(** Goroutines started with [go]. *)
Inductive Task : Type :=
| TaskWaitForStakingTxConfirmation (txHash : Hash) (depth : Z) (ev : ConfirmationEvent)
| TaskSendUnbondingTxToBtcAndWaitForConfirmation
    (stakingTxHash : Hash) (stakerAddress : Address)
    (storedTx : StoredTransaction) (unbondingData : option UnbondingStoreData)
| TaskWaitForUnbondingTxConfirmationWithWg
    (ev : ConfirmationEvent) (unbondingData : option UnbondingStoreData) (stakingTxHash : Hash)
| TaskCheckForUnbondingTxSignaturesOnBabylon (stakingTxHash : Hash)
| TaskWaitForSpendConfirmation (stakingTxHash : Hash) (ev : ConfirmationEvent).

(** Observable actions of the daemon, in program order. *)
Inductive Action : Type :=
| LogError (msg : string) (h : Hash)
| WcUnlockWallet (timeout : Z)
| WcDumpPrivateKey (a : Address)
| WcSendRawTransaction (tx : MsgTx)
| WcCreateAndSignTx (outs : list TxOut) (feeRate : Z) (a : Address)
| NtfnRegisterConfirmations (txid : Hash) (script : Bytes) (numConfs heightHint : Z)
| NtfnCancel (ev : N)
| BbnUndelegate (d : UndelegationData)
| CallSendDelegationWithTxToBabylon (req : sendDelegationRequest)
| Go (t : Task)
| Push (e : Event)
| ChanWriteErr (c : ChanId) (e : error)
| ChanWriteHash (c : ChanId) (h : Hash)
| StoreWrite (h : Hash) (s : TransactionState)
| StoreAdd (h : Hash) (watched : bool)
| Sleep (d : Z).

Record DelegationInfo := mkDelegationInfo {
  UndelegationInfo : option (MsgTx * Bytes)
}.

Record StakingScriptData := mkStakingScriptData {
  StakerKey : PublicKey;
  ValidatorKey : PublicKey;
  JuryKey : PublicKey;
  StakingTime : Z
}.

Record spendStakeTxInfo := mkSpendStakeTxInfo {
  spendStakeTx : MsgTx;
  fundingOutput : TxOut;
  fundingOutputScript : Bytes;
  calculatedFee : Z
}.

(** ** The environment *)

(** The external collaborators, and the functions of the repository that lie
    outside the given sources, as oracles. *)
Record Env := mkEnv {
  (* coordinator client *)
  bc_Params : res StakingParams;
  bc_IsTxAlreadyPartOfDelegation : Hash -> res bool;
  bc_QueryDelegationInfo : Hash -> res DelegationInfo;
  bc_Sign : Bytes -> res Bytes;
  bc_Undelegate : UndelegationData -> option error;
  app_validatorExists : PublicKey -> option error;
  (* wallet *)
  wc_UnlockWallet : Z -> option error;
  wc_DumpPrivateKey : Address -> res PrivateKey;
  wc_SendRawTransaction : MsgTx -> res Hash;
  wc_CreateAndSignTx : list TxOut -> Z -> Address -> res MsgTx;
  wc_TxDetails : Hash -> Bytes -> res (option TxConfirmation * TxStatus);
  (* chain notifier, fee estimator, best tip *)
  ntfn_RegisterConfirmationsNtfn : Hash -> Bytes -> Z -> Z -> res ConfirmationEvent;
  fe_EstimateFeePerKb : Z;
  currentBestBlockHeight : Z;
  (* addresses, keys and scripts *)
  btcutil_DecodeAddress : string -> res Address;
  txscript_PayToAddrScript : Address -> res Bytes;
  privKey_PubKey : PrivateKey -> PublicKey;
  schnorr_SerializePubKey : PublicKey -> Bytes;
  tmhash_Sum : Bytes -> Bytes;
  schnorr_Sign : PrivateKey -> Bytes -> res Bytes;
  cl_NewBabylonPop : Bytes -> Bytes -> res BabylonPop;
  staking_BuildStakingOutput :
    PublicKey -> PublicKey -> PublicKey -> Z -> Z -> res (TxOut * Bytes);
  staking_BuildWitnessToSpendStakingOutput :
    MsgTx -> TxOut -> Bytes -> PrivateKey -> res Bytes;
  staking_ParseStakingTransactionScript : Bytes -> res StakingScriptData;
  createSpendStakeTxFromStoredTx : StoredTransaction -> Bytes -> Z -> res spendStakeTxInfo;
  createUndelegationData :
    StoredTransaction -> PrivateKey -> PublicKey -> Address -> Z -> Z -> Z ->
    StakingScriptData -> res UndelegationData;
  createWitnessToSendUnbondingTx :
    PrivateKey -> StoredTransaction -> option UnbondingStoreData -> res Bytes;
  parseWatchStakingRequest :
    MsgTx -> Bytes -> MsgTx -> Bytes -> PublicKey -> Address -> option BabylonPop ->
    StakingParams -> res (stakingRequest * StakingScriptData)
}.

(** The world the daemon runs in: the collaborators at every instant, the
    instant at which [quit] is closed, the choice [select] makes among several
    ready cases, and whether the event loop still serves a request that is sent
    after [quit] was closed. *)
Record World := mkWorld {
  envAt : Time -> Env;
  quitAt : option Time;
  pick : Time -> nat;
  lateServe : Time -> bool
}.

(** ** The program monad *)

Inductive ChanVal : Type :=
| CErr (e : error)
| CHash (h : Hash).

Record AppState := mkAppState {
  now : Time;
  txTracker : gmap N StoredTransaction;
  chans : gmap N ChanVal;
  nextChan : N
}.

Inductive Result (A : Type) : Type :=
| Done (a : A)
| Fatal (msg : string)        (* logger.Fatalf: the process exits *)
| Panic (msg : string)        (* run-time panic *)
| Blocked                     (* parked forever *)
| OutOfFuel.                  (* the bound of the model was reached *)
Arguments Done {A} a.
Arguments Fatal {A} msg.
Arguments Panic {A} msg.
Arguments Blocked {A}.
Arguments OutOfFuel {A}.

Definition Prog (A : Type) : Type := AppState -> list Action * Result (A * AppState).

Definition ret {A} (a : A) : Prog A := fun s => ([], Done (a, s)).

Definition bind {A B} (m : Prog A) (f : A -> Prog B) : Prog B :=
  fun s =>
    match m s with
    | (t, Done (a, s')) => let '(t', r) := f a s' in (t ++ t', r)
    | (t, Fatal msg) => (t, Fatal msg)
    | (t, Panic msg) => (t, Panic msg)
    | (t, Blocked) => (t, Blocked)
    | (t, OutOfFuel) => (t, OutOfFuel)
    end.

Notation "'let*' x ':=' m 'in' k" := (bind m (fun x => k))
  (at level 10, x pattern, m at level 100, k at level 200).
Notation "m ';;;' k" := (bind m (fun _ => k))
  (at level 100, k at level 200, right associativity).

Definition emit (a : Action) : Prog unit := fun s => ([a], Done (tt, s)).
Definition getState : Prog AppState := fun s => ([], Done (s, s)).
Definition fatal {A} (msg : string) : Prog A := fun _ => ([], Fatal msg).
Definition panic {A} (msg : string) : Prog A := fun _ => ([], Panic msg).
Definition blocked {A} : Prog A := fun _ => ([], Blocked).
Definition outOfFuel {A} : Prog A := fun _ => ([], OutOfFuel).

Definition trace {A} (r : list Action * Result (A * AppState)) : list Action := fst r.
Definition outcome {A} (r : list Action * Result (A * AppState)) : Result (A * AppState) := snd r.

(** The value a run returned, if it returned. *)
Definition returned {A} (r : list Action * Result (A * AppState)) : option A :=
  match snd r with Done (a, _) => Some a | _ => None end.

(** The state a run ended in, if it returned. *)
Definition final {A} (r : list Action * Result (A * AppState)) : option AppState :=
  match snd r with Done (_, s) => Some s | _ => None end.

Definition setNow (t : Time) (s : AppState) : AppState :=
  mkAppState t (txTracker s) (chans s) (nextChan s).
Definition setTracker (m : gmap N StoredTransaction) (s : AppState) : AppState :=
  mkAppState (now s) m (chans s) (nextChan s).
Definition setChans (c : gmap N ChanVal) (s : AppState) : AppState :=
  mkAppState (now s) (txTracker s) c (nextChan s).

(** ** The tracked-transaction store *)

Definition withState (st : TransactionState) (tx : StoredTransaction) : StoredTransaction :=
  mkStoredTransaction (StakingTx tx) (StakingOutputIndex tx) (TxScript tx) (Pop tx)
    (StakerAddress tx) st (Watched tx) (BtcInclusion tx) (UnbondingTxData tx).
Definition withInclusion (i : Hash * Z) (tx : StoredTransaction) : StoredTransaction :=
  mkStoredTransaction (StakingTx tx) (StakingOutputIndex tx) (TxScript tx) (Pop tx)
    (StakerAddress tx) (State tx) (Watched tx) (Some i) (UnbondingTxData tx).
Definition withUnbonding (u : UnbondingStoreData) (tx : StoredTransaction) : StoredTransaction :=
  mkStoredTransaction (StakingTx tx) (StakingOutputIndex tx) (TxScript tx) (Pop tx)
    (StakerAddress tx) (State tx) (Watched tx) (BtcInclusion tx) (Some u).

Definition ErrTransactionNotFound : error := Errorf "transaction not found" [].
Definition ErrTransactionAlreadyExists : error := Errorf "transaction already exists" [].
Definition ErrInvalidStateTransition : error := Errorf "invalid state transition" [].

Global Instance TransactionState_eq_dec : EqDecision TransactionState.
Proof. solve_decision. Defined.

Module Store.

(** Modelled from the spec: the store ([stakerdb.TrackedTransactionStore]) is
    not part of the given sources.  Section 4.1: [Add] is an atomic insert
    that fails on a duplicate key and starts a record in [SentToBtc]; [Get]
    fails when the key is absent; every transition validates the current
    state and fails with [InvalidStateTransition] otherwise. *)
Definition add (watched : bool) (tx : MsgTx) (idx : Z) (script : Bytes)
    (pop : option BabylonPop) (addr : Address)
    (m : gmap N StoredTransaction) : res (gmap N StoredTransaction) :=
  match m !! TxHash tx with
  | Some _ => Err ErrTransactionAlreadyExists
  | None =>
      Ok (<[TxHash tx :=
             mkStoredTransaction tx idx script pop addr SENT_TO_BTC watched None None]> m)
  end.

Definition get (h : Hash) (m : gmap N StoredTransaction) : res StoredTransaction :=
  match m !! h with
  | Some tx => Ok tx
  | None => Err ErrTransactionNotFound
  end.

(** Modelled from the spec: a typed transition from one of the states [from]
    to [to], applying [upd] to the record. *)
Definition transition (from : list TransactionState) (to : TransactionState)
    (upd : StoredTransaction -> StoredTransaction) (h : Hash)
    (m : gmap N StoredTransaction) : res (gmap N StoredTransaction) :=
  match m !! h with
  | None => Err ErrTransactionNotFound
  | Some tx =>
      if bool_decide (State tx ∈ from)
      then Ok (<[h := withState to (upd tx)]> m)
      else Err ErrInvalidStateTransition
  end.

Definition setConfirmed (h blockHash : Hash) (blockHeight : Z) :=
  transition [SENT_TO_BTC] CONFIRMED_ON_BTC (withInclusion (blockHash, blockHeight)) h.
Definition setSentToBabylon (h : Hash) :=
  transition [CONFIRMED_ON_BTC] SENT_TO_BABYLON id h.
Definition setUnbondingStarted (h : Hash) (tx : MsgTx) (script : Bytes) :=
  transition [SENT_TO_BABYLON] UNBONDING_STARTED
    (withUnbonding (mkUnbondingStoreData tx script None None)) h.
Definition setUnbondingSignaturesReceived (h : Hash) (validatorSig jurySig : Bytes) :=
  transition [UNBONDING_STARTED] UNBONDING_SIGNATURES_RECEIVED
    (fun r => match UnbondingTxData r with
              | Some u => withUnbonding
                  (mkUnbondingStoreData (UnbondingTx u) (UnbondingTxScript u)
                     (Some (validatorSig, jurySig)) (UnbondingInclusion u)) r
              | None => r
              end) h.
Definition setUnbondingConfirmedOnBtc (h blockHash : Hash) (blockHeight : Z) :=
  transition [UNBONDING_SIGNATURES_RECEIVED] UNBONDING_CONFIRMED_ON_BTC
    (fun r => match UnbondingTxData r with
              | Some u => withUnbonding
                  (mkUnbondingStoreData (UnbondingTx u) (UnbondingTxScript u)
                     (UnbondingSignatures u) (Some (blockHash, blockHeight))) r
              | None => r
              end) h.
Definition setSpentOnBtc (h : Hash) :=
  transition [SENT_TO_BABYLON; UNBONDING_CONFIRMED_ON_BTC] SPENT_ON_BTC id h.

(** Modelled from the spec: [Scan] visits every record once. *)
Definition scan (m : gmap N StoredTransaction) : list StoredTransaction :=
  (map_to_list m).*2.

End Store.

(** ** [select] *)

(** The instant at which a case of a [select] entered at [n] fires: a case
    that is ready since [t <= n] fires at [n]. *)
Definition fireTime (n : Time) (c : option Time) : option Time :=
  match c with
  | Some t => Some (Z.max t n)
  | None => None
  end.

Definition earlier (a b : option Time) : option Time :=
  match a, b with
  | Some x, Some y => Some (Z.min x y)
  | Some x, None => Some x
  | None, b => b
  end.

Definition earliest (ts : list (option Time)) : option Time :=
  foldr earlier None ts.

Section Daemon.

Variable W : World.

Definition askEnv : Prog Env := fun s => ([], Done (envAt W (now s), s)).

Definition firedBy (t : Time) : bool :=
  match quitAt W with
  | Some q => q <=? t
  | None => false
  end.

(** [select { case <-app.quit: ...  default: }]. *)
Definition quitFired : Prog bool := fun s => ([], Done (firedBy (now s), s)).

(** A blocking [select] without [default]: every case comes with the instant
    from which it is ready ([None]: never).  The select parks until the first
    case fires and chooses among the cases that fire at that instant. *)
Definition select {B} (cases : list (option Time * B)) : Prog B :=
  fun s =>
    match earliest (map (fun c => fireTime (now s) (fst c)) cases) with
    | None => ([], Blocked)
    | Some m =>
        let ready := filter (fun c => fireTime (now s) (fst c) = Some m) cases in
        match ready !! (pick W m mod length ready)%nat with
        | Some c => ([], Done (snd c, setNow m s))
        | None => ([], Blocked)
        end
    end.

(** ** Channels *)

Definition newChan : Prog ChanId :=
  fun s => ([], Done (nextChan s,
                      mkAppState (now s) (txTracker s) (chans s) (N.succ (nextChan s)))).

(** A send on a one-slot reply channel. *)
Definition chanSend (c : ChanId) (v : ChanVal) : Prog unit :=
  fun s =>
    match chans s !! c with
    | Some _ => ([], Blocked)
    | None =>
        ([match v with CErr e => ChanWriteErr c e | CHash h => ChanWriteHash c h end],
         Done (tt, setChans (<[c := v]> (chans s)) s))
    end.

Definition chanReady (s : AppState) (c : ChanId) : option Time :=
  match chans s !! c with
  | Some _ => Some (now s)
  | None => None
  end.

Definition chanRecv (c : ChanId) : Prog ChanVal :=
  fun s =>
    match chans s !! c with
    | Some v => ([], Done (v, setChans (delete c (chans s)) s))
    | None => ([], Blocked)
    end.

(** A blocking send on one of the unbuffered inbound channels of the event
    loop: nobody receives once the loop has returned on [quit]. *)
Definition pushEvent (e : Event) : Prog unit :=
  fun s =>
    if firedBy (now s) && negb (lateServe W (now s))
    then ([], Blocked)
    else ([Push e], Done (tt, s)).

(** [PushOrQuit]: the send, or the quit signal. *)
Definition PushOrQuit (e : Event) : Prog unit :=
  fun s =>
    if firedBy (now s) && negb (lateServe W (now s))
    then ([], Done (tt, s))
    else ([Push e], Done (tt, s)).

(** ** Calls to the collaborators *)

Definition Params : Prog (res StakingParams) :=
  let* e := askEnv in ret (bc_Params e).
Definition IsTxAlreadyPartOfDelegation (h : Hash) : Prog (res bool) :=
  let* e := askEnv in ret (bc_IsTxAlreadyPartOfDelegation e h).
Definition QueryDelegationInfo (h : Hash) : Prog (res DelegationInfo) :=
  let* e := askEnv in ret (bc_QueryDelegationInfo e h).
Definition validatorExists (pk : PublicKey) : Prog (option error) :=
  let* e := askEnv in ret (app_validatorExists e pk).
Definition TxDetails (h : Hash) (script : Bytes)
    : Prog (res (option TxConfirmation * TxStatus)) :=
  let* e := askEnv in ret (wc_TxDetails e h script).
Definition UnlockWallet (timeout : Z) : Prog (option error) :=
  emit (WcUnlockWallet timeout) ;;;
  let* e := askEnv in ret (wc_UnlockWallet e timeout).
Definition DumpPrivateKey (a : Address) : Prog (res PrivateKey) :=
  emit (WcDumpPrivateKey a) ;;;
  let* e := askEnv in ret (wc_DumpPrivateKey e a).
Definition SendRawTransaction (tx : MsgTx) : Prog (res Hash) :=
  emit (WcSendRawTransaction tx) ;;;
  let* e := askEnv in ret (wc_SendRawTransaction e tx).
Definition CreateAndSignTx (outs : list TxOut) (feeRate : Z) (a : Address)
    : Prog (res MsgTx) :=
  emit (WcCreateAndSignTx outs feeRate a) ;;;
  let* e := askEnv in ret (wc_CreateAndSignTx e outs feeRate a).
Definition RegisterConfirmationsNtfn (h : Hash) (script : Bytes) (numConfs heightHint : Z)
    : Prog (res ConfirmationEvent) :=
  emit (NtfnRegisterConfirmations h script numConfs heightHint) ;;;
  let* e := askEnv in ret (ntfn_RegisterConfirmationsNtfn e h script numConfs heightHint).
Definition Cancel (ev : ConfirmationEvent) : Prog unit := emit (NtfnCancel (EvId ev)).
Definition bestBlockHeight : Prog Z :=
  let* e := askEnv in ret (currentBestBlockHeight e).

(** [tx.TxOut[i].PkScript]; an index out of range panics. *)
Definition txOutPkScript (tx : MsgTx) (i : Z) : Prog Bytes :=
  match TxOuts tx !! Z.to_nat i with
  | Some o => if 0 <=? i then ret (PkScript o) else panic "index out of range"
  | None => panic "index out of range"
  end.

(** Dereferencing a pointer that may be nil. *)
Definition deref {A} (p : option A) : Prog A :=
  match p with
  | Some a => ret a
  | None => panic "nil pointer dereference"
  end.

(** The store, seen from the daemon. *)
Definition GetTransaction (h : Hash) : Prog (res StoredTransaction) :=
  fun s => ([], Done (Store.get h (txTracker s), s)).

Definition storeUpdate (a : Action)
    (f : gmap N StoredTransaction -> res (gmap N StoredTransaction)) : Prog (option error) :=
  fun s =>
    match f (txTracker s) with
    | Ok m => ([a], Done (None, setTracker m s))
    | Err e => ([], Done (Some e, s))
    end.

Definition AddTransaction tx idx script pop addr : Prog (option error) :=
  storeUpdate (StoreAdd (TxHash tx) false) (Store.add false tx idx script pop addr).
(** The externally supplied slashing data of a watched record is kept by the
    store and is not read by the code modelled here. *)
Definition AddWatchedTransaction tx idx script pop addr
    (slashingTx : MsgTx) (slashingTxSig : Bytes) (stakerBabylonPk : PublicKey)
    : Prog (option error) :=
  storeUpdate (StoreAdd (TxHash tx) true) (Store.add true tx idx script pop addr).
Definition SetTxConfirmed h blockHash blockHeight : Prog (option error) :=
  storeUpdate (StoreWrite h CONFIRMED_ON_BTC) (Store.setConfirmed h blockHash blockHeight).
Definition SetTxSentToBabylon h : Prog (option error) :=
  storeUpdate (StoreWrite h SENT_TO_BABYLON) (Store.setSentToBabylon h).
Definition SetTxUnbondingStarted h tx script : Prog (option error) :=
  storeUpdate (StoreWrite h UNBONDING_STARTED) (Store.setUnbondingStarted h tx script).
Definition SetTxUnbondingSignaturesReceived h vsig jsig : Prog (option error) :=
  storeUpdate (StoreWrite h UNBONDING_SIGNATURES_RECEIVED)
    (Store.setUnbondingSignaturesReceived h vsig jsig).
Definition SetTxUnbondingConfirmedOnBtc h blockHash blockHeight : Prog (option error) :=
  storeUpdate (StoreWrite h UNBONDING_CONFIRMED_ON_BTC)
    (Store.setUnbondingConfirmedOnBtc h blockHash blockHeight).
Definition SetTxSpentOnBtc h : Prog (option error) :=
  storeUpdate (StoreWrite h SPENT_ON_BTC) (Store.setSpentOnBtc h).

(** ** Start-up reconciliation *)

(** [waitForStakingTransactionConfirmation]. *)
Definition waitForStakingTransactionConfirmation
    (stakingTxHash : Hash) (stakingTxPkScript : Bytes)
    (requiredBlockDepth currentBestBlockHeight : Z) : Prog (option error) :=
  let* r := RegisterConfirmationsNtfn stakingTxHash stakingTxPkScript
              (wrap32 (requiredBlockDepth + 1)) currentBestBlockHeight in
  match r with
  | Err err => ret (Some err)
  | Ok confEvent =>
      emit (Go (TaskWaitForStakingTxConfirmation stakingTxHash requiredBlockDepth confEvent)) ;;;
      ret None
  end.

(** [handleBtcTxInfo]. *)
Definition handleBtcTxInfo (stakingTxHash : Hash) (txInfo : StoredTransaction)
    (params : StakingParams) (currentBestBlockHeight : Z)
    (txStatus : TxStatus) (btcTxInfo : option TxConfirmation) : Prog (option error) :=
  match txStatus with
  | TxNotFound =>
      emit (LogError "Transaction from database not found in BTC mempool or chain"
              stakingTxHash) ;;;
      ret None
  | TxInMemPool =>
      let* script := txOutPkScript (StakingTx txInfo) (StakingOutputIndex txInfo) in
      let* err := waitForStakingTransactionConfirmation stakingTxHash script
                    (ConfirmationTimeBlocks params) currentBestBlockHeight in
      match err with
      | Some err => ret (Some err)
      | None => ret None
      end
  | TxInChain =>
      let* info := deref btcTxInfo in
      if currentBestBlockHeight <? BlockHeight info then
        emit (LogError "Current best block height is lower than block height of transaction"
                stakingTxHash) ;;;
        ret None
      else
        let blockDepth := wrap32 (currentBestBlockHeight - BlockHeight info) in
        if ConfirmationTimeBlocks params <=? blockDepth then
          pushEvent (EvConfirmation
            (mkStakingTxBtcConfirmation stakingTxHash (TxIndex info)
               (ConfirmationTimeBlocks params) (BlockHash info) (BlockHeight info)
               (StakingTx txInfo) (Block info))) ;;;
          ret None
        else
          let* script := txOutPkScript (StakingTx txInfo) (StakingOutputIndex txInfo) in
          let* err := waitForStakingTransactionConfirmation stakingTxHash script
                        (ConfirmationTimeBlocks params) currentBestBlockHeight in
          match err with
          | Some err => ret (Some err)
          | None => ret None
          end
  end.

(** [mustGetTransactionAndStakerAddress]. *)
Definition mustGetTransactionAndStakerAddress (txHash : Hash)
    : Prog (StoredTransaction * Address) :=
  let* r := GetTransaction txHash in
  match r with
  | Err _ => fatal "Error getting transaction state for tx"
  | Ok ts =>
      let* e := askEnv in
      match btcutil_DecodeAddress e (StakerAddress ts) with
      | Err _ => fatal "Error decoding staker address"
      | Ok stakerAddress => ret (ts, stakerAddress)
      end
  end.

(** Modelled from the spec: [sendDelegationWithTxToBabylon] is declared
    outside the given sources; it enqueues a coordinator-submit task
    ([SubmitDelegation] with a Merkle inclusion proof built from the block). *)
Definition sendDelegationWithTxToBabylon (req : sendDelegationRequest) : Prog unit :=
  emit (CallSendDelegationWithTxToBabylon req).

(** What the body of a [for ... range] loop does next: fall through to the
    next element ([continue] included), or leave the enclosing function. *)
Inductive LoopCtl : Type :=
| Next
| Return (e : option error).

Fixpoint forRange {A} (body : A -> Prog LoopCtl) (l : list A) : Prog LoopCtl :=
  match l with
  | [] => ret Next
  | x :: l' =>
      let* c := body x in
      match c with
      | Next => forRange body l'
      | Return e => ret (Return e)
      end
  end.

Record stakingDbInfo := mkStakingDbInfo {
  stakingTxHash : Hash;
  stakingTxState : TransactionState
}.

Record scanned := mkScanned {
  transactionsSentToBtc : list Hash;
  transactionConfirmedOnBtc : list Hash;
  transactionsOnBabylon : list stakingDbInfo
}.

(** The callback handed to [ScanTrackedTransactions]. *)
Definition scanVisit (acc : scanned) (tx : StoredTransaction) : res scanned :=
  let stakingTxHash := TxHash (StakingTx tx) in
  let onBabylon :=
    Ok (mkScanned (transactionsSentToBtc acc) (transactionConfirmedOnBtc acc)
          (transactionsOnBabylon acc ++ [mkStakingDbInfo stakingTxHash (State tx)])) in
  match State tx with
  | SENT_TO_BTC =>
      Ok (mkScanned (transactionsSentToBtc acc ++ [stakingTxHash])
            (transactionConfirmedOnBtc acc) (transactionsOnBabylon acc))
  | CONFIRMED_ON_BTC =>
      Ok (mkScanned (transactionsSentToBtc acc)
            (transactionConfirmedOnBtc acc ++ [stakingTxHash]) (transactionsOnBabylon acc))
  | SENT_TO_BABYLON => onBabylon
  | UNBONDING_STARTED => onBabylon
  | UNBONDING_SIGNATURES_RECEIVED => onBabylon
  | UNBONDING_CONFIRMED_ON_BTC => Ok acc
  | SPENT_ON_BTC => Ok acc
  | UNKNOWN_STATE tag => Err (Errorf "unknown transaction state: %d" [tag])
  end.

Fixpoint scanFold (acc : scanned) (txs : list StoredTransaction) : res scanned :=
  match txs with
  | [] => Ok acc
  | tx :: txs' =>
      match scanVisit acc tx with
      | Ok acc' => scanFold acc' txs'
      | Err e => Err e
      end
  end.

Definition ScanTrackedTransactions : Prog (res scanned) :=
  let* s := getState in
  ret (scanFold (mkScanned [] [] []) (Store.scan (txTracker s))).

(** Body of the loop over [transactionsSentToBtc] (lines 544-559). *)
Definition checkSentToBtc (stakingParams : StakingParams) (stakingTxHash : Hash)
    : Prog LoopCtl :=
  let* (tx, _) := mustGetTransactionAndStakerAddress stakingTxHash in
  let* script := txOutPkScript (StakingTx tx) (StakingOutputIndex tx) in
  let* r := TxDetails stakingTxHash script in
  match r with
  | Err err => ret (Return (Some err))
  | Ok (details, status) =>
      let* best := bestBlockHeight in
      let* err := handleBtcTxInfo stakingTxHash tx stakingParams best status details in
      match err with
      | Some err => ret (Return (Some err))
      | None => ret Next
      end
  end.

(** Body of the loop over [transactionConfirmedOnBtc] (lines 561-616). *)
Definition checkConfirmedOnBtc (stakingParams : StakingParams) (stakingTxHash : Hash)
    : Prog LoopCtl :=
  let* r := IsTxAlreadyPartOfDelegation stakingTxHash in
  match r with
  | Err err => ret (Return (Some err))
  | Ok alreadyOnBabylon =>
      if alreadyOnBabylon then
        pushEvent (EvSendDelegationResponse (mkSendDelegationResponse stakingTxHash None)) ;;;
        ret Next
      else
        let* (tx, _) := mustGetTransactionAndStakerAddress stakingTxHash in
        let* script := txOutPkScript (StakingTx tx) (StakingOutputIndex tx) in
        let* r := TxDetails stakingTxHash script in
        match r with
        | Err err => ret (Return (Some err))
        | Ok (details, status) =>
            match status with
            | TxInChain =>
                let* details := deref details in
                let req := mkSendDelegationRequest stakingTxHash (TxIndex details)
                             (Block details)
                             (ConfirmationTimeBlocks stakingParams) in
                sendDelegationWithTxToBabylon req ;;;
                ret (Return None)
            | _ =>
                emit (LogError "Already confirmed transaction not found on btc chain."
                        stakingTxHash) ;;;
                ret (Return None)
            end
        end
  end.

(** Body of the loop over [transactionsOnBabylon] (lines 618-753). *)
Definition checkOnBabylon (localInfo : stakingDbInfo) : Prog LoopCtl :=
  match stakingTxState localInfo with
  | UNBONDING_SIGNATURES_RECEIVED =>
      let* (stored, address) :=
        mustGetTransactionAndStakerAddress (stakingTxHash localInfo) in
      let* unbondingData := deref (UnbondingTxData stored) in
      let unbondingTxHash := TxHash (UnbondingTx unbondingData) in
      let* unbondingPkScript := txOutPkScript (UnbondingTx unbondingData) 0 in
      let* r := TxDetails unbondingTxHash unbondingPkScript in
      match r with
      | Err err =>
          ret (Return (Some
            (ErrorfW "failed to get unbonding btc transaction details: %w" err)))
      | Ok (details, status) =>
          match status with
          | TxNotFound =>
              emit (Go (TaskSendUnbondingTxToBtcAndWaitForConfirmation
                          (stakingTxHash localInfo) address stored
                          (UnbondingTxData stored))) ;;;
              ret Next
          | _ =>
              (* both branches read [details.BlockHeight] for their log record *)
              let* d := deref details in
              let* best := bestBlockHeight in
              let txHeightHint :=
                match status with
                | TxInChain => BlockHeight d
                | _ => best
                end in
              let* r := RegisterConfirmationsNtfn unbondingTxHash unbondingPkScript
                          UnbondingTxConfirmations txHeightHint in
              match r with
              | Err err =>
                  ret (Return (Some
                    (ErrorfW "failed to register unbonding tx confirmation event: %w" err)))
              | Ok waitEv =>
                  emit (Go (TaskWaitForUnbondingTxConfirmationWithWg waitEv
                              (UnbondingTxData stored) (stakingTxHash localInfo))) ;;;
                  ret Next
              end
          end
      end
  | UNBONDING_STARTED =>
      emit (Go (TaskCheckForUnbondingTxSignaturesOnBabylon (stakingTxHash localInfo))) ;;;
      ret Next
  | SENT_TO_BABYLON =>
      let* r := QueryDelegationInfo (stakingTxHash localInfo) in
      match r with
      | Err err =>
          if errors_Is err ErrDelegationNotFound then
            emit (LogError "Delegation not found on babylon, but found in local db"
                    (stakingTxHash localInfo)) ;;;
            ret Next
          else ret (Return (Some err))
      | Ok babylonInfo =>
          match UndelegationInfo babylonInfo with
          | None => ret Next
          | Some (unbondingTransaction, unbondingTransactionScript) =>
              let* successChan := newChan in
              let confirmation :=
                mkUnbondingRequestConfirm (stakingTxHash localInfo)
                  unbondingTransaction unbondingTransactionScript successChan in
              PushOrQuit (EvUnbondingRequestConfirm confirmation) ;;;
              ret Next
          end
      end
  | _ => ret (Return (Some (Errorf "unexpected local transaction state: %d" [])))
  end.

(** [checkTransactionsStatus]. *)
Definition checkTransactionsStatus : Prog (option error) :=
  let* r := Params in
  match r with
  | Err err => ret (Some err)
  | Ok stakingParams =>
      let* r := ScanTrackedTransactions in
      match r with
      | Err err => ret (Some err)
      | Ok lists =>
          let* c := forRange (checkSentToBtc stakingParams) (transactionsSentToBtc lists) in
          match c with
          | Return e => ret e
          | Next =>
              let* c := forRange (checkConfirmedOnBtc stakingParams)
                          (transactionConfirmedOnBtc lists) in
              match c with
              | Return e => ret e
              | Next =>
                  let* c := forRange checkOnBabylon (transactionsOnBabylon lists) in
                  match c with
                  | Return e => ret e
                  | Next => ret None
                  end
              end
          end
      end
  end.

(** ** Wallet keys and the unbonding broadcast *)

(** [stakerPrivateKey]. *)
Definition stakerPrivateKey (stakerAddress : Address) : Prog (res PrivateKey) :=
  let* err := UnlockWallet defaultWalletUnlockTimeout in
  match err with
  | Some err => ret (Err err)
  | None =>
      let* r := DumpPrivateKey stakerAddress in
      match r with
      | Err err => ret (Err err)
      | Ok privkey => ret (Ok privkey)
      end
  end.

(** [sendUnbondingTxToBtcWithWitness]. *)
Definition sendUnbondingTxToBtcWithWitness (stakingTxHash : Hash)
    (stakerAddress : Address) (storedTx : StoredTransaction)
    (unbondingData : option UnbondingStoreData) : Prog (option error) :=
  let* r := stakerPrivateKey stakerAddress in
  match r with
  | Err err =>
      emit (LogError
        "Failed to retrieve btc wallet private key send unbonding tx to btc"
        stakingTxHash) ;;;
      ret (Some err)
  | Ok privkey =>
      let* e := askEnv in
      match createWitnessToSendUnbondingTx e privkey storedTx unbondingData with
      | Err _ => fatal "Failed to create witness to send unbonding tx to btc"
      | Ok witness =>
          let* data := deref unbondingData in
          let unbondingTx :=
            mkMsgTx (TxHash (UnbondingTx data)) (TxOuts (UnbondingTx data)) (Some witness) in
          let* r := SendRawTransaction unbondingTx in
          match r with
          | Err err => ret (Some err)
          | Ok _ => ret None
          end
      end
  end.

Inductive RetrySel : Type := SelTimer | SelQuit.

(** [select { case <-time.After(unbondingSendRetryTimeout):  case <-app.quit: }]. *)
Definition retryOrQuit : Prog RetrySel :=
  let* s := getState in
  select [(Some (now s + unbondingSendRetryTimeout), SelTimer); (quitAt W, SelQuit)].

(** First loop of [sendUnbondingTxToBtc]: [true] when the loop is left by
    [break], [false] when the function returns nil. *)
Fixpoint sendUnbondingTxToBtc_send (fuel : nat) (stakingTxHash : Hash)
    (stakerAddress : Address) (storedTx : StoredTransaction)
    (unbondingData : option UnbondingStoreData) : Prog bool :=
  match fuel with
  | O => outOfFuel
  | S fuel' =>
      let* err := sendUnbondingTxToBtcWithWitness stakingTxHash stakerAddress
                    storedTx unbondingData in
      match err with
      | None => ret true
      | Some _ =>
          let* _ := deref unbondingData in
          emit (LogError "Failed to send unbodning tx to btc. Retrying..." stakingTxHash) ;;;
          let* sel := retryOrQuit in
          match sel with
          | SelTimer =>
              sendUnbondingTxToBtc_send fuel' stakingTxHash stakerAddress
                storedTx unbondingData
          | SelQuit => ret false
          end
      end
  end.

(** Second loop of [sendUnbondingTxToBtc]. *)
Fixpoint sendUnbondingTxToBtc_register (fuel : nat) (unbondingTxHash : Hash)
    (pkScript : Bytes) : Prog (option ConfirmationEvent) :=
  match fuel with
  | O => outOfFuel
  | S fuel' =>
      let* best := bestBlockHeight in
      let* r := RegisterConfirmationsNtfn unbondingTxHash pkScript
                  UnbondingTxConfirmations best in
      match r with
      | Ok notificationEv => ret (Some notificationEv)
      | Err _ =>
          let* sel := retryOrQuit in
          match sel with
          | SelTimer => sendUnbondingTxToBtc_register fuel' unbondingTxHash pkScript
          | SelQuit => ret None
          end
      end
  end.

(** [sendUnbondingTxToBtc]; [fuel] bounds the number of attempts of each of
    the two loops. *)
Definition sendUnbondingTxToBtc (fuel : nat) (stakingTxHash : Hash)
    (stakerAddress : Address) (storedTx : StoredTransaction)
    (unbondingData : option UnbondingStoreData) : Prog (option ConfirmationEvent) :=
  let* sent := sendUnbondingTxToBtc_send fuel stakingTxHash stakerAddress
                 storedTx unbondingData in
  if sent then
    let* data := deref unbondingData in
    let unbondingTxHash := TxHash (UnbondingTx data) in
    let* pkScript := txOutPkScript (UnbondingTx data) 0 in
    sendUnbondingTxToBtc_register fuel unbondingTxHash pkScript
  else ret None.

Inductive ConfSel : Type := SelConfirmed | SelDeadline | SelQuitting.

(** [waitForUnbondingTxConfirmation]; [waitEv.Cancel] is deferred, so it runs
    on every way out, also while the panic of a nil [unbondingData] unwinds. *)
Definition waitForUnbondingTxConfirmation (waitEv : ConfirmationEvent)
    (unbondingData : option UnbondingStoreData) (stakingTxHash : Hash) : Prog unit :=
  match unbondingData with
  | None => Cancel waitEv ;;; panic "nil pointer dereference"
  | Some _ =>
      let* sel := select [(ConfirmedAt waitEv, SelConfirmed); (quitAt W, SelQuitting)] in
      match sel with
      | SelConfirmed =>
          let conf := Confirmation waitEv in
          PushOrQuit (EvUnbondingConfirmedOnBtc
            (mkUnbondingTxBtcConfirmation stakingTxHash (BlockHash conf)
               (BlockHeight conf))) ;;;
          Cancel waitEv
      | _ => Cancel waitEv
      end
  end.

(** [sendUnbondingTxToBtcAndWaitForConfirmation]. *)
Definition sendUnbondingTxToBtcAndWaitForConfirmation (fuel : nat)
    (stakingTxHash : Hash) (stakerAddress : Address) (storedTx : StoredTransaction)
    (unbondingData : option UnbondingStoreData) : Prog unit :=
  let* q := quitFired in
  if q then ret tt
  else
    let* waitEv := sendUnbondingTxToBtc fuel stakingTxHash stakerAddress
                     storedTx unbondingData in
    match waitEv with
    | None => ret tt
    | Some waitEv => waitForUnbondingTxConfirmation waitEv unbondingData stakingTxHash
    end.

(** ** The event loop *)

(** One iteration of the loop of [handleStaking], for the event its [select]
    received. *)
Definition handleStakingEvent (ev : Event) : Prog unit :=
  match ev with
  | EvStakingRequest req =>
      let txHash := TxHash (rq_stakingTx req) in
      let* bestBlockHeight := bestBlockHeight in
      let* added :=
        if isWatched req then
          let* w := deref (rq_watchTxData req) in
          AddWatchedTransaction (rq_stakingTx req) (rq_stakingOutputIdx req)
            (rq_stakingTxScript req) (rq_pop req) (rq_stakerAddress req)
            (slashingTx w) (slashingTxSig w) (stakerBabylonPubKey w)
        else
          let* r := SendRawTransaction (rq_stakingTx req) in
          match r with
          | Err err => ret (Some err)
          | Ok _ =>
              AddTransaction (rq_stakingTx req) (rq_stakingOutputIdx req)
                (rq_stakingTxScript req) (rq_pop req) (rq_stakerAddress req)
          end in
      match added with
      | Some err => chanSend (rq_errChan req) (CErr err)
      | None =>
          let* err := waitForStakingTransactionConfirmation txHash
                        (rq_stakingOutputPkScript req) (rq_requiredDepthOnBtcChain req)
                        (wrap32 bestBlockHeight) in
          match err with
          | Some err => chanSend (rq_errChan req) (CErr err)
          | None => chanSend (rq_successChan req) (CHash txHash)
          end
      end
  | EvConfirmation confEvent =>
      let* err := SetTxConfirmed (sc_txHash confEvent) (sc_blockHash confEvent)
                    (sc_blockHeight confEvent) in
      match err with
      | Some _ => fatal "Error setting state for tx"
      | None =>
          sendDelegationWithTxToBabylon
            (mkSendDelegationRequest (sc_txHash confEvent) (sc_txIndex confEvent)
               (sc_inlusionBlock confEvent) (sc_blockDepth confEvent))
      end
  | EvSendDelegationResponse sendToBabylonConf =>
      match sr_err sendToBabylonConf with
      | Some _ => fatal "Error sending delegation to babylon"
      | None =>
          let* err := SetTxSentToBabylon (sr_txHash sendToBabylonConf) in
          match err with
          | Some _ => fatal "Error setting state for tx"
          | None => ret tt
          end
      end
  | EvSpendTxConfirmation stakingTxHash =>
      let* err := SetTxSpentOnBtc stakingTxHash in
      match err with
      | Some _ => fatal "Error setting state for tx"
      | None => ret tt
      end
  | EvUnbondingRequestConfirm confirmation =>
      let* err := SetTxUnbondingStarted (urc_stakingTxHash confirmation)
                    (urc_unbondingTransaction confirmation)
                    (urc_unbondingTransactionScript confirmation) in
      match err with
      | Some _ => fatal "Error setting state for tx"
      | None =>
          emit (Go (TaskCheckForUnbondingTxSignaturesOnBabylon
                      (urc_stakingTxHash confirmation))) ;;;
          chanSend (urc_successChan confirmation)
            (CHash (TxHash (urc_unbondingTransaction confirmation)))
      end
  | EvUnbondingSignaturesConfirmed unbondingSignaturesConf =>
      let* err := SetTxUnbondingSignaturesReceived
                    (usc_stakingTxHash unbondingSignaturesConf)
                    (usc_validatorUnbondingSignature unbondingSignaturesConf)
                    (usc_juryUnbondingSignature unbondingSignaturesConf) in
      match err with
      | Some _ => fatal "Error setting state for tx"
      | None =>
          let* (storedTx, stakerAddress) :=
            mustGetTransactionAndStakerAddress (usc_stakingTxHash unbondingSignaturesConf) in
          emit (Go (TaskSendUnbondingTxToBtcAndWaitForConfirmation
                      (usc_stakingTxHash unbondingSignaturesConf) stakerAddress
                      storedTx (UnbondingTxData storedTx)))
      end
  | EvUnbondingConfirmedOnBtc confOnBtc =>
      let* err := SetTxUnbondingConfirmedOnBtc (uc_stakingTxHash confOnBtc)
                    (uc_blockHash confOnBtc) (uc_blockHeight confOnBtc) in
      match err with
      | Some _ => fatal "Error setting state for tx"
      | None => ret tt
      end
  end.

(** [handleStaking] on the sequence of events its [select] receives before
    it receives [quit]. *)
Fixpoint handleStaking (inbound : list Event) : Prog unit :=
  match inbound with
  | [] => ret tt
  | ev :: inbound' => handleStakingEvent ev ;;; handleStaking inbound'
  end.

(** ** Public request operations *)

Record externalDelegationData := mkExternalDelegationData {
  ed_stakerPrivKey : PrivateKey;
  ed_slashingAddress : Address;
  ed_slashingFee : Z
}.

(** [retrieveExternalDelegationData]. *)
Definition retrieveExternalDelegationData (stakerAddress : Address)
    : Prog (res externalDelegationData) :=
  let* r := Params in
  match r with
  | Err err => ret (Err err)
  | Ok params =>
      let* r := stakerPrivateKey stakerAddress in
      match r with
      | Err err => ret (Err err)
      | Ok stakerPrivKey =>
          let slashingFee := getSlashingFee params in
          ret (Ok (mkExternalDelegationData stakerPrivKey (SlashingAddress params)
                     slashingFee))
      end
  end.

(** [generatePop]. *)
Definition generatePop (stakerPrivKey : PrivateKey) : Prog (res BabylonPop) :=
  let* e := askEnv in
  let stakerKey := privKey_PubKey e stakerPrivKey in
  let encodedPubKey := schnorr_SerializePubKey e stakerKey in
  match bc_Sign e encodedPubKey with
  | Err err => ret (Err err)
  | Ok babylonSig =>
      let babylonSigHash := tmhash_Sum e babylonSig in
      match schnorr_Sign e stakerPrivKey babylonSigHash with
      | Err err => ret (Err err)
      | Ok btcSig =>
          match cl_NewBabylonPop e babylonSig btcSig with
          | Err err => ret (Err (ErrorfW "failed to generate pop: %w" err))
          | Ok pop => ret (Ok pop)
          end
      end
  end.

(** Modelled from the spec: [newOwnedStakingRequest] is declared outside the
    given sources; each request carries its own one-shot success channel and
    one-shot error channel. *)
Definition newOwnedStakingRequest (stakerAddress : Address) (stakingTx : MsgTx)
    (stakingOutputIdx : Z) (stakingOutputPkScript stakingTxScript : Bytes)
    (confirmationTimeBlocks : Z) (pop : BabylonPop) : Prog stakingRequest :=
  let* errChan := newChan in
  let* successChan := newChan in
  ret (mkStakingRequest stakerAddress stakingTx stakingOutputIdx stakingOutputPkScript
         stakingTxScript confirmationTimeBlocks (Some pop) None errChan successChan).

(** Modelled from the spec: [newUnbondingRequest], likewise. *)
Definition newUnbondingRequest (stakingTxHash : Hash) (d : UndelegationData)
    : Prog unbondingRequest :=
  let* errChan := newChan in
  let* successChan := newChan in
  ret (mkUnbondingRequest stakingTxHash d errChan successChan).

(** The reply channels of a watched request are allocated when
    [parseWatchStakingRequest] builds it. *)
Definition withFreshChans (req : stakingRequest) : Prog stakingRequest :=
  let* errChan := newChan in
  let* successChan := newChan in
  ret (mkStakingRequest (rq_stakerAddress req) (rq_stakingTx req)
         (rq_stakingOutputIdx req) (rq_stakingOutputPkScript req)
         (rq_stakingTxScript req) (rq_requiredDepthOnBtcChain req) (rq_pop req)
         (rq_watchTxData req) errChan successChan).

(** [app.stakingRequestChan <- req]: an unbuffered send, which completes when
    the event loop receives the request; the loop then runs its case. *)
Definition sendStakingRequest (req : stakingRequest) : Prog unit :=
  let* s := getState in
  if firedBy (now s) && negb (lateServe W (now s)) then blocked
  else handleStakingEvent (EvStakingRequest req).

(** Modelled from the spec: the receiver of [sendUnbondingRequestChan] is
    declared outside the given sources.  Section 4.6: invoke
    [SubmitUndelegation]; on success push the confirmation onto
    [unbonding_started_ack], whose case of the event loop acknowledges the
    caller with the unbonding txid; an error goes to the error channel. *)
Definition sendUnbondingRequest (req : unbondingRequest) : Prog unit :=
  let* s := getState in
  if firedBy (now s) && negb (lateServe W (now s)) then blocked
  else
    emit (BbnUndelegate (ur_unbondingData req)) ;;;
    let* e := askEnv in
    match bc_Undelegate e (ur_unbondingData req) with
    | Some err => chanSend (ur_errChan req) (CErr err)
    | None =>
        handleStakingEvent (EvUnbondingRequestConfirm
          (mkUnbondingRequestConfirm (ur_stakingTxHash req)
             (UnbondingTransaction (ur_unbondingData req))
             (UnbondingTransactionScript (ur_unbondingData req))
             (ur_successChan req)))
    end.

Inductive ReplySel : Type := SelErrChan | SelSuccessChan | SelQuitChan.

(** The [select] that ends [WatchStaking], [StakeFunds] and [UnbondStaking]:
    the error channel, the success channel, or [quit]. *)
Definition selectReply (errChan successChan : ChanId)
    : Prog (option Hash * option error) :=
  let* s := getState in
  let* sel := select [(chanReady s errChan, SelErrChan);
                      (chanReady s successChan, SelSuccessChan);
                      (quitAt W, SelQuitChan)] in
  match sel with
  | SelErrChan =>
      let* v := chanRecv errChan in
      match v with
      | CErr reqErr => ret (None, Some reqErr)
      | CHash _ => panic "error channel holds a hash"
      end
  | SelSuccessChan =>
      let* v := chanRecv successChan in
      match v with
      | CHash hash => ret (Some hash, None)
      | CErr _ => panic "success channel holds an error"
      end
  | SelQuitChan => ret (None, None)
  end.

(** [WatchStaking]. *)
Definition WatchStaking (stakingTx : MsgTx) (stakingscript : Bytes)
    (slashingTx : MsgTx) (slashingTxSig : Bytes) (stakerBabylonPk : PublicKey)
    (stakerAddress : Address) (pop : option BabylonPop)
    : Prog (option Hash * option error) :=
  let* r := Params in
  match r with
  | Err err =>
      ret (None, Some (ErrorfW "failed to watch staking tx. Failed to get params: %w" err))
  | Ok currentParams =>
      let* e := askEnv in
      match parseWatchStakingRequest e stakingTx stakingscript slashingTx slashingTxSig
              stakerBabylonPk stakerAddress pop currentParams with
      | Err err =>
          ret (None, Some (ErrorfW "failed to watch staking tx. Invalid request: %w" err))
      | Ok (parsed, scriptData) =>
          let* watchedRequest := withFreshChans parsed in
          let* err := validatorExists (ValidatorKey scriptData) in
          match err with
          | Some err => ret (None, Some err)
          | None =>
              let* _ := txOutPkScript (rq_stakingTx watchedRequest)
                          (rq_stakingOutputIdx watchedRequest) in
              sendStakingRequest watchedRequest ;;;
              selectReply (rq_errChan watchedRequest) (rq_successChan watchedRequest)
          end
      end
  end.

(** [StakeFunds]; [stakingTimeBlocks] is a uint16. *)
Definition StakeFunds (stakerAddress : Address) (stakingAmount : Z)
    (validatorPk : PublicKey) (stakingTimeBlocks : Z)
    : Prog (option Hash * option error) :=
  let* q := quitFired in
  if q then ret (None, None)
  else
    let* err := validatorExists validatorPk in
    match err with
    | Some err => ret (None, Some err)
    | None =>
    let* r := Params in
    match r with
    | Err err => ret (None, Some err)
    | Ok params =>
    let slashingFee := getSlashingFee params in
    if stakingAmount <=? slashingFee then
      ret (None, Some (Errorf "staking amount %d is less than minimum slashing fee %d"
                         [stakingAmount; slashingFee]))
    else
    let minStakingTime := GetMinStakingTime params in
    if stakingTimeBlocks <? minStakingTime then
      ret (None, Some (Errorf "staking time %d is less than minimum staking time %d"
                         [stakingTimeBlocks; minStakingTime]))
    else
    let* err := UnlockWallet defaultWalletUnlockTimeout in
    match err with
    | Some err => ret (None, Some err)
    | None =>
    let* r := DumpPrivateKey stakerAddress in
    match r with
    | Err err => ret (None, Some err)
    | Ok stakerPrivKey =>
    let* r := generatePop stakerPrivKey in
    match r with
    | Err err => ret (None, Some err)
    | Ok pop =>
    let* e := askEnv in
    match staking_BuildStakingOutput e (privKey_PubKey e stakerPrivKey) validatorPk
            (JuryPk params) stakingTimeBlocks stakingAmount with
    | Err err => ret (None, Some err)
    | Ok (output, script) =>
    let feeRate := fe_EstimateFeePerKb e in
    let* r := CreateAndSignTx [output] feeRate stakerAddress in
    match r with
    | Err err => ret (None, Some err)
    | Ok tx =>
    let* req := newOwnedStakingRequest stakerAddress tx 0 (PkScript output) script
                  (ConfirmationTimeBlocks params) pop in
    sendStakingRequest req ;;;
    selectReply (rq_errChan req) (rq_successChan req)
    end end end end end end end.

(** [waitForSpendConfirmation]: every case of the [select] inside the [for]
    returns, so the loop body runs once. *)
Definition waitForSpendConfirmation (stakingTxHash : Hash) (ev : ConfirmationEvent)
    : Prog unit :=
  let* q := quitFired in
  if q then Cancel ev
  else
    let* s := getState in
    let deadline := now s + timeoutWaitingForSpendConfirmation in
    let* sel := select [(ConfirmedAt ev, SelConfirmed);
                        (Some deadline, SelDeadline);
                        (quitAt W, SelQuitting)] in
    match sel with
    | SelConfirmed =>
        pushEvent (EvSpendTxConfirmation stakingTxHash) ;;;
        Cancel ev
    | SelDeadline => ret tt
    | SelQuitting => Cancel ev
    end.

(** [SpendStake]. *)
Definition SpendStake (stakingTxHash : Hash)
    : Prog (option Hash * option Z * option error) :=
  let* q := quitFired in
  if q then ret (None, None, None)
  else
    let* r := GetTransaction stakingTxHash in
    match r with
    | Err err => ret (None, None, Some err)
    | Ok tx =>
    if Watched tx then
      ret (None, None,
           Some (Errorf "cannot spend staking which which is in watch only mode" []))
    else
    let* e := askEnv in
    match btcutil_DecodeAddress e (StakerAddress tx) with
    | Err err =>
        ret (None, None,
             Some (ErrorfW "cannot spend staking output. Error decoding staker address: %w"
                     err))
    | Ok destAddress =>
    match txscript_PayToAddrScript e destAddress with
    | Err err =>
        ret (None, None,
             Some (ErrorfW "cannot spend staking output. Cannot built destination script: %w"
                     err))
    | Ok destAddressScript =>
    let currentFeeRate := fe_EstimateFeePerKb e in
    match createSpendStakeTxFromStoredTx e tx destAddressScript currentFeeRate with
    | Err err => ret (None, None, Some err)
    | Ok spendStakeTxInfo =>
    let* r := stakerPrivateKey destAddress in
    match r with
    | Err err =>
        ret (None, None,
             Some (ErrorfW "cannot spend staking output. Error getting private key: %w" err))
    | Ok privKey =>
    let* e := askEnv in
    match staking_BuildWitnessToSpendStakingOutput e (spendStakeTx spendStakeTxInfo)
            (fundingOutput spendStakeTxInfo) (fundingOutputScript spendStakeTxInfo)
            privKey with
    | Err err =>
        ret (None, None,
             Some (ErrorfW "cannot spend staking output. Error building witness: %w" err))
    | Ok witness =>
    let spendTx := mkMsgTx (TxHash (spendStakeTx spendStakeTxInfo))
                     (TxOuts (spendStakeTx spendStakeTxInfo)) (Some witness) in
    let* r := SendRawTransaction spendTx in
    match r with
    | Err err =>
        ret (None, None,
             Some (ErrorfW "cannot spend staking output. Error sending tx: %w" err))
    | Ok spendTxHash =>
    match TxOuts spendTx !! 0%nat with
    | None => panic "index out of range"
    | Some out0 =>
    let spendTxValue := Value out0 in
    let* best := bestBlockHeight in
    let* r := RegisterConfirmationsNtfn spendTxHash (PkScript out0)
                SpendStakeTxConfirmations best in
    match r with
    | Err err =>
        ret (None, None,
             Some (ErrorfW "spend tx sent. Error registering confirmation notifcation: %w"
                     err))
    | Ok confEvent =>
        emit (Go (TaskWaitForSpendConfirmation stakingTxHash confEvent)) ;;;
        ret (Some spendTxHash, Some spendTxValue, None)
    end end end end end end end end end.

(** [mustParseScript]. *)
Definition mustParseScript (script : Bytes) : Prog StakingScriptData :=
  let* e := askEnv in
  match staking_ParseStakingTransactionScript e script with
  | Err _ => fatal "error parsing staking transaction script from db"
  | Ok parsedScript => ret parsedScript
  end.

(** [UnbondStaking]; [feeRate] is a pointer that may be nil. *)
Definition UnbondStaking (stakingTxHash : Hash) (feeRate : option Z)
    : Prog (option Hash * option error) :=
  let* q := quitFired in
  if q then ret (None, None)
  else
    let* e := askEnv in
    let unbondingTxFeeRatePerKb :=
      match feeRate with
      | None => fe_EstimateFeePerKb e
      | Some f => f
      end in
    let* r := GetTransaction stakingTxHash in
    match r with
    | Err err => ret (None, Some (ErrorfW "cannont unbond: %w" err))
    | Ok tx =>
    if Watched tx then
      ret (None, Some (Errorf "cannot unbond watched transaction" []))
    else
    if negb (bool_decide (State tx = SENT_TO_BABYLON)) then
      ret (None, Some (Errorf "cannot unbond transaction which is not sent to babylon" []))
    else
    if unbondingTxFeeRatePerKb <? MinFeePerKb then
      ret (None, Some (Errorf "minimum fee rate is %d sat/kb" [MinFeePerKb]))
    else
    let* r := Params in
    match r with
    | Err err => ret (None, Some (ErrorfW "cannot unbond: %w" err))
    | Ok currentParams =>
    let* e := askEnv in
    match btcutil_DecodeAddress e (StakerAddress tx) with
    | Err err =>
        ret (None, Some (ErrorfW "cannot unbond: failed decode staker address.: %w" err))
    | Ok stakerAddress =>
    let* r := stakerPrivateKey stakerAddress in
    match r with
    | Err err =>
        ret (None, Some (ErrorfW "cannot unbond: failed to retrieve private key.: %w" err))
    | Ok stakerPrivKey =>
    let* stakingScriptData := mustParseScript (TxScript tx) in
    let* e := askEnv in
    match createUndelegationData e tx stakerPrivKey (JuryPk currentParams)
            (SlashingAddress currentParams) unbondingTxFeeRatePerKb
            (wrap16 (FinalizationTimeoutBlocks currentParams))
            (getSlashingFee currentParams) stakingScriptData with
    | Err err => ret (None, Some err)
    | Ok undelegationData =>
    let* req := newUnbondingRequest stakingTxHash undelegationData in
    sendUnbondingRequest req ;;;
    selectReply (ur_errChan req) (ur_successChan req)
    end end end end end.

End Daemon.

(** ** The service client *)

Module Service.

(** What the JSON-RPC client of the daemon is asked to do. *)
Inductive RpcCall : Type :=
| RpcUnbondStaking (stakingTransactionHash : string) (feeRate : option Z).

Record UnbondingResponse := mkUnbondingResponse { UnbondingTxHashHex : string }.

(** The daemon as seen through the client: whether a client can be built for
    the address, and what the daemon answers to an unbonding call. *)
Record Daemon := mkDaemon {
  NewStakerServiceJsonRpcClient : string -> option error;
  rpc_UnbondStaking : string -> option Z -> res UnbondingResponse
}.

(** [Unbond]: the calls issued, and the result. *)
Definition Unbond (d : Daemon) (daemonAddress stakingTransactionHash : string)
    (feeRate : Z) : list RpcCall * res UnbondingResponse :=
  match NewStakerServiceJsonRpcClient d daemonAddress with
  | Some err => ([], Err err)
  | None =>
      if feeRate <? 0 then ([], Err (Errorf "fee rate must be non-negative" []))
      else
        let fr := if 0 <? feeRate then Some feeRate else None in
        match rpc_UnbondStaking d stakingTransactionHash fr with
        | Err err => ([RpcUnbondStaking stakingTransactionHash fr], Err err)
        | Ok result => ([RpcUnbondStaking stakingTransactionHash fr], Ok result)
        end
  end.

End Service.

(** ** Concrete worlds *)

Module Sample.

Definition tx (h : Hash) : MsgTx := mkMsgTx h [mkTxOut 100000 []] None.
Definition conf (h : Hash) : TxConfirmation := mkTxConfirmation 77%N 100 0 (tx h) None.
Definition event (h : Hash) (at_ : option Time) : ConfirmationEvent :=
  mkConfirmationEvent h at_ (conf h).

Definition params : StakingParams := mkStakingParams 9%N "slashing-address" 500 6 100.

(** A coordinator whose finalization timeout is 2^31 blocks. *)
Definition hugeParams : StakingParams :=
  mkStakingParams 9%N "slashing-address" 500 0 (2 ^ 31).

(** Collaborators that succeed unless said otherwise; the coordinator answers
    [p] to the parameter query, knows the delegations [onBabylon] and reports
    [undelegation] for them; the wallet reports [details]; the notifier
    confirms at [confirmedAt]. *)
Definition env (p : res StakingParams) (onBabylon : Hash -> bool)
    (undelegation : Hash -> res DelegationInfo)
    (details : Hash -> res (option TxConfirmation * TxStatus))
    (confirmedAt : option Time) : Env :=
  {| bc_Params := p;
     bc_IsTxAlreadyPartOfDelegation := fun h => Ok (onBabylon h);
     bc_QueryDelegationInfo := undelegation;
     bc_Sign := fun b => Ok b;
     bc_Undelegate := fun _ => None;
     app_validatorExists := fun _ => None;
     wc_UnlockWallet := fun _ => None;
     wc_DumpPrivateKey := fun _ => Ok 5%N;
     wc_SendRawTransaction := fun t => Ok (TxHash t);
     wc_CreateAndSignTx := fun outs _ _ => Ok (mkMsgTx 42%N outs None);
     wc_TxDetails := fun h _ => details h;
     ntfn_RegisterConfirmationsNtfn := fun h _ _ _ => Ok (event h confirmedAt);
     fe_EstimateFeePerKb := 2000;
     currentBestBlockHeight := 110;
     btcutil_DecodeAddress := fun a => Ok a;
     txscript_PayToAddrScript := fun _ => Ok [];
     privKey_PubKey := fun k => k;
     schnorr_SerializePubKey := fun _ => [];
     tmhash_Sum := fun b => b;
     schnorr_Sign := fun _ b => Ok b;
     cl_NewBabylonPop := fun a b => Ok (mkPop a b);
     staking_BuildStakingOutput := fun _ _ _ _ amount => Ok (mkTxOut amount [], []);
     staking_BuildWitnessToSpendStakingOutput := fun _ _ _ _ => Ok [];
     staking_ParseStakingTransactionScript := fun _ => Ok (mkStakingScriptData 5%N 7%N 9%N 1000);
     createSpendStakeTxFromStoredTx := fun t _ _ =>
       Ok (mkSpendStakeTxInfo (mkMsgTx 43%N [mkTxOut 99000 []] None)
             (mkTxOut 100000 []) [] 1000);
     createUndelegationData := fun _ _ _ _ _ _ _ _ =>
       Ok (mkUndelegationData (mkMsgTx 44%N [mkTxOut 98000 []] None) [] []);
     createWitnessToSendUnbondingTx := fun _ _ _ => Ok [];
     parseWatchStakingRequest := fun stakingTx script slTx slSig pk addr pop p =>
       Ok (mkStakingRequest addr stakingTx 0 [] script (ConfirmationTimeBlocks p) pop
             (Some (mkWatchTxData slTx slSig pk)) 0%N 0%N,
           mkStakingScriptData 5%N 7%N 9%N 1000) |}.

Definition inChain (h : Hash) : res (option TxConfirmation * TxStatus) :=
  Ok (Some (conf h), TxInChain).
Definition notFound (h : Hash) : res (option TxConfirmation * TxStatus) :=
  Ok (None, TxNotFound).
Definition noUndelegation (h : Hash) : res DelegationInfo := Ok (mkDelegationInfo None).
Definition undelegated (h : Hash) : res DelegationInfo :=
  Ok (mkDelegationInfo (Some (mkMsgTx 44%N [mkTxOut 98000 []] None, []))).

(** A world whose collaborators do not change over time. *)
Definition still (e : Env) (quit : option Time) : World :=
  {| envAt := fun _ => e; quitAt := quit; pick := fun _ => 0%nat;
     lateServe := fun _ => false |}.

Definition record (h : Hash) (st : TransactionState) (watched : bool)
    (u : option UnbondingStoreData) : StoredTransaction :=
  mkStoredTransaction (tx h) 0 [] None "staker-address" st watched None u.

Definition state (t : Time) (records : list StoredTransaction) : AppState :=
  {| now := t;
     txTracker := list_to_map (map (fun r => (TxHash (StakingTx r), r)) records);
     chans := ∅;
     nextChan := 0%N |}.

(** The wallet refuses every broadcast. *)
Definition failBroadcast (e : Env) : Env :=
  {| bc_Params := bc_Params e;
     bc_IsTxAlreadyPartOfDelegation := bc_IsTxAlreadyPartOfDelegation e;
     bc_QueryDelegationInfo := bc_QueryDelegationInfo e;
     bc_Sign := bc_Sign e;
     bc_Undelegate := bc_Undelegate e;
     app_validatorExists := app_validatorExists e;
     wc_UnlockWallet := wc_UnlockWallet e;
     wc_DumpPrivateKey := wc_DumpPrivateKey e;
     wc_SendRawTransaction := fun _ => Err (ErrExternal 2);
     wc_CreateAndSignTx := wc_CreateAndSignTx e;
     wc_TxDetails := wc_TxDetails e;
     ntfn_RegisterConfirmationsNtfn := ntfn_RegisterConfirmationsNtfn e;
     fe_EstimateFeePerKb := fe_EstimateFeePerKb e;
     currentBestBlockHeight := currentBestBlockHeight e;
     btcutil_DecodeAddress := btcutil_DecodeAddress e;
     txscript_PayToAddrScript := txscript_PayToAddrScript e;
     privKey_PubKey := privKey_PubKey e;
     schnorr_SerializePubKey := schnorr_SerializePubKey e;
     tmhash_Sum := tmhash_Sum e;
     schnorr_Sign := schnorr_Sign e;
     cl_NewBabylonPop := cl_NewBabylonPop e;
     staking_BuildStakingOutput := staking_BuildStakingOutput e;
     staking_BuildWitnessToSpendStakingOutput := staking_BuildWitnessToSpendStakingOutput e;
     staking_ParseStakingTransactionScript := staking_ParseStakingTransactionScript e;
     createSpendStakeTxFromStoredTx := createSpendStakeTxFromStoredTx e;
     createUndelegationData := createUndelegationData e;
     createWitnessToSendUnbondingTx := createWitnessToSendUnbondingTx e;
     parseWatchStakingRequest := parseWatchStakingRequest e |}.

(** The notifier refuses every registration. *)
Definition failRegister (e : Env) : Env :=
  {| bc_Params := bc_Params e;
     bc_IsTxAlreadyPartOfDelegation := bc_IsTxAlreadyPartOfDelegation e;
     bc_QueryDelegationInfo := bc_QueryDelegationInfo e;
     bc_Sign := bc_Sign e;
     bc_Undelegate := bc_Undelegate e;
     app_validatorExists := app_validatorExists e;
     wc_UnlockWallet := wc_UnlockWallet e;
     wc_DumpPrivateKey := wc_DumpPrivateKey e;
     wc_SendRawTransaction := wc_SendRawTransaction e;
     wc_CreateAndSignTx := wc_CreateAndSignTx e;
     wc_TxDetails := wc_TxDetails e;
     ntfn_RegisterConfirmationsNtfn := fun _ _ _ _ => Err (ErrExternal 3);
     fe_EstimateFeePerKb := fe_EstimateFeePerKb e;
     currentBestBlockHeight := currentBestBlockHeight e;
     btcutil_DecodeAddress := btcutil_DecodeAddress e;
     txscript_PayToAddrScript := txscript_PayToAddrScript e;
     privKey_PubKey := privKey_PubKey e;
     schnorr_SerializePubKey := schnorr_SerializePubKey e;
     tmhash_Sum := tmhash_Sum e;
     schnorr_Sign := schnorr_Sign e;
     cl_NewBabylonPop := cl_NewBabylonPop e;
     staking_BuildStakingOutput := staking_BuildStakingOutput e;
     staking_BuildWitnessToSpendStakingOutput := staking_BuildWitnessToSpendStakingOutput e;
     staking_ParseStakingTransactionScript := staking_ParseStakingTransactionScript e;
     createSpendStakeTxFromStoredTx := createSpendStakeTxFromStoredTx e;
     createUndelegationData := createUndelegationData e;
     createWitnessToSendUnbondingTx := createWitnessToSendUnbondingTx e;
     parseWatchStakingRequest := parseWatchStakingRequest e |}.

Definition goodEnv : Env := env (Ok params) (fun _ => true) noUndelegation notFound None.

(** The broadcast fails during the first minute and the registration of the
    watch during the first minute and a half; [quit] is never closed. *)
Definition flaky : World :=
  {| envAt := fun t =>
       if t <? 60 * Second then failBroadcast goodEnv
       else if t <? 90 * Second then failRegister goodEnv
       else goodEnv;
     quitAt := None;
     pick := fun _ => 0%nat;
     lateServe := fun _ => false |}.

(** The broadcast always fails and [quit] is closed after 45 seconds. *)
Definition failingThenQuit : World :=
  still (failBroadcast goodEnv) (Some (45 * Second)).

Definition unbonding : UnbondingStoreData :=
  mkUnbondingStoreData (mkMsgTx 44%N [mkTxOut 98000 []] None) [] (Some ([], [])) None.

Definition unbondingRecord : StoredTransaction :=
  record 3%N UNBONDING_SIGNATURES_RECEIVED false (Some unbonding).

(** A running daemon with well-behaved collaborators. *)
Definition calm : World :=
  still (env (Ok params) (fun _ => false) noUndelegation inChain None) None.

(** The same, with the coordinator reporting [hugeParams]. *)
Definition calmHuge : World :=
  still (env (Ok hugeParams) (fun _ => false) noUndelegation inChain None) None.

(** The daemon is shutting down: [quit] was closed at instant 0. *)
Definition stopping : World :=
  still (env (Ok params) (fun _ => false) noUndelegation inChain None) (Some 0).

(** The same, with a coordinator that fails the parameter query. *)
Definition stoppingNoParams : World :=
  still (env (Err (ErrExternal 1)) (fun _ => false) noUndelegation inChain None) (Some 0).

(** At restart the wallet reports every transaction in chain and the
    coordinator knows no delegation yet. *)
Definition restart : World :=
  still (env (Ok params) (fun _ => false) noUndelegation inChain None) None.

(** At restart the wallet has lost the transactions. *)
Definition restartLost : World :=
  still (env (Ok params) (fun _ => false) noUndelegation notFound None) None.

(** At restart the coordinator reports an undelegation for the delegations it
    knows, and the unbonding transaction is not on Bitcoin yet. *)
Definition restartUndelegated : World :=
  still (env (Ok params) (fun _ => true) undelegated notFound None) None.

(** The store holds a record confirmed on Bitcoin and a record whose
    unbonding has started. *)
Definition twoRecords : AppState :=
  state 0 [record 1%N CONFIRMED_ON_BTC false None;
           record 2%N UNBONDING_STARTED false None].

(** The store holds one watched record, sent to the coordinator. *)
Definition watchedRecord : AppState :=
  state 0 [record 3%N SENT_TO_BABYLON true None].

(** The daemon has been running for 10 ns. *)
Definition later : AppState := state 10 [].

Definition empty : AppState := state 0 [].

Definition daemon : Service.Daemon :=
  {| Service.NewStakerServiceJsonRpcClient := fun _ => None;
     Service.rpc_UnbondStaking := fun h _ => Ok (Service.mkUnbondingResponse h) |}.

End Sample.

(** ** Notions used in the statements *)

(** The run of an operation: the actions it performed and how it ended. *)
Definition Run (A : Type) : Type := (list Action * Result (A * AppState))%type.

(** The operation returned the error [e] for its caller without having
    performed any action and without having changed the state. *)
Definition rejectsWith {R} (mk : option error -> R) (r : Run R) (e : error)
    (s : AppState) : Prop :=
  r = ([], Done (mk (Some e), s)).

Definition hashErr (e : option error) : option Hash * option error := (None, e).
Definition spendErr (e : option error) : option Hash * option Z * option error :=
  (None, None, e).

(** The first action of the run is the unlocking of the wallet. *)
Definition reachesWallet {A} (r : Run A) : Prop :=
  exists rest, trace r = WcUnlockWallet defaultWalletUnlockTimeout :: rest.

(** The daemon is running, the validator is known to the coordinator and the
    coordinator reports the parameters [p]: the checks of [StakeFunds] are
    reached. *)
Definition checksReached (W : World) (validatorPk : PublicKey) (s : AppState)
    (p : StakingParams) : Prop :=
  firedBy W (now s) = false /\
  app_validatorExists (envAt W (now s)) validatorPk = None /\
  bc_Params (envAt W (now s)) = Ok p.

Definition errAmountTooLow (amount fee : Z) : error :=
  Errorf "staking amount %d is less than minimum slashing fee %d" [amount; fee].
Definition errStakingTimeTooLow (t m : Z) : error :=
  Errorf "staking time %d is less than minimum staking time %d" [t; m].

(** The fee rate [UnbondStaking] works with. *)
Definition effectiveFeeRate (W : World) (s : AppState) (feeRate : option Z) : Z :=
  match feeRate with
  | None => fe_EstimateFeePerKb (envAt W (now s))
  | Some f => f
  end.

(** The preconditions of unbonding. *)
Definition unbondPreconditions (s : AppState) (h : Hash) (fee : Z) : Prop :=
  exists tx, txTracker s !! h = Some tx /\ Watched tx = false /\
             State tx = SENT_TO_BABYLON /\ MinFeePerKb <= fee.

(** The events a run pushed onto the inbound channels of the event loop. *)
Fixpoint pushes (tr : list Action) : list Event :=
  match tr with
  | [] => []
  | Push e :: tr' => e :: pushes tr'
  | _ :: tr' => pushes tr'
  end.

(** Accesses to the wallet's key material and broadcasts. *)
Definition isKeyOrBroadcast (a : Action) : bool :=
  match a with
  | WcUnlockWallet _ | WcDumpPrivateKey _ | WcSendRawTransaction _ => true
  | _ => false
  end.

(** Writes on per-request reply channels. *)
Definition isReply (a : Action) : bool :=
  match a with
  | ChanWriteErr _ _ | ChanWriteHash _ _ => true
  | _ => false
  end.

Definition count (f : Action -> bool) (tr : list Action) : nat := length (filter f tr).

(** The quit channel was closed strictly before [t]. *)
Definition quitFiredBefore (W : World) (t : Time) : Prop :=
  exists q, quitAt W = Some q /\ q < t.

(** The instants of the retry schedule that starts at [t0]: one every
    [unbondingSendRetryTimeout]. *)
Definition retryInstant (t0 : Time) (k : nat) : Time :=
  t0 + Z.of_nat k * unbondingSendRetryTimeout.

(** What a broadcast attempt of the unbonding transaction made at instant [t]
    returns. *)
Definition broadcastAt (W : World) (h : Hash) (addr : Address)
    (stored : StoredTransaction) (data : option UnbondingStoreData)
    (s : AppState) (t : Time) : option (option error) :=
  returned (sendUnbondingTxToBtcWithWitness W h addr stored data (setNow t s)).

(** What the registration of the confirmation watch made at instant [t]
    returns. *)
Definition registerAt (W : World) (data : UnbondingStoreData) (t : Time)
    : option (res ConfirmationEvent) :=
  match TxOuts (UnbondingTx data) !! 0%nat with
  | Some o =>
      Some (ntfn_RegisterConfirmationsNtfn (envAt W t) (TxHash (UnbondingTx data))
              (PkScript o) UnbondingTxConfirmations
              (currentBestBlockHeight (envAt W t)))
  | None => None
  end.

Definition isErr {A} (r : res A) : Prop := exists e, r = Err e.

Definition broadcastFailsAt (W : World) (h : Hash) (addr : Address)
    (stored : StoredTransaction) (data : option UnbondingStoreData)
    (s : AppState) (t : Time) : Prop :=
  exists e, broadcastAt W h addr stored data s t = Some (Some e).

Definition broadcastSucceedsAt (W : World) (h : Hash) (addr : Address)
    (stored : StoredTransaction) (data : option UnbondingStoreData)
    (s : AppState) (t : Time) : Prop :=
  broadcastAt W h addr stored data s t = Some None.

Definition registerFailsAt (W : World) (d : UnbondingStoreData) (t : Time) : Prop :=
  exists x, registerAt W d t = Some x /\ isErr x.

Definition registerSucceedsAt (W : World) (d : UnbondingStoreData) (t : Time)
    (ev : ConfirmationEvent) : Prop :=
  registerAt W d t = Some (Ok ev).

(** The broadcast fails at the first [a] instants of the schedule and succeeds
    at the next one; from that instant on the registration fails at [b]
    instants and succeeds, with the event [ev], at the next one. *)
Definition succeedsAfter (W : World) (h : Hash) (addr : Address)
    (stored : StoredTransaction) (d : UnbondingStoreData) (s : AppState)
    (a b : nat) (ev : ConfirmationEvent) : Prop :=
  (forall i, (i < a)%nat ->
     broadcastFailsAt W h addr stored (Some d) s (retryInstant (now s) i)) /\
  broadcastSucceedsAt W h addr stored (Some d) s (retryInstant (now s) a) /\
  (forall j, (j < b)%nat -> registerFailsAt W d (retryInstant (now s) (a + j))) /\
  registerSucceedsAt W d (retryInstant (now s) (a + b)) ev.

(** The actions of [n] attempts, the attempt number [i] performing [f i]. *)
Definition attempts (n : nat) (f : nat -> list Action) : list Action :=
  concat (map f (seq 0 n)).

(** The actions of a broadcast attempt of the unbonding transaction made at
    instant [t]. *)
Definition broadcastTrace (W : World) (h : Hash) (addr : Address)
    (stored : StoredTransaction) (data : option UnbondingStoreData)
    (s : AppState) (t : Time) : list Action :=
  trace (sendUnbondingTxToBtcWithWitness W h addr stored data (setNow t s)).

(** The error log that follows a failed broadcast attempt. *)
Definition retryLog (h : Hash) : Action :=
  LogError "Failed to send unbodning tx to btc. Retrying..." h.

(** The actions of the first [n] broadcast attempts of the schedule when all
    of them fail. *)
Definition failedBroadcasts (W : World) (h : Hash) (addr : Address)
    (stored : StoredTransaction) (data : option UnbondingStoreData)
    (s : AppState) (n : nat) : list Action :=
  attempts n (fun i =>
    broadcastTrace W h addr stored data s (retryInstant (now s) i) ++ [retryLog h]).

(** The call that registers the confirmation watch of the unbonding
    transaction at instant [t]. *)
Definition registerAction (W : World) (d : UnbondingStoreData) (t : Time) : list Action :=
  match TxOuts (UnbondingTx d) !! 0%nat with
  | Some o =>
      [NtfnRegisterConfirmations (TxHash (UnbondingTx d)) (PkScript o)
         UnbondingTxConfirmations (currentBestBlockHeight (envAt W t))]
  | None => []
  end.

(** The registrations made at the instants number [a] to [a + b] of the
    schedule. *)
Definition registrations (W : World) (d : UnbondingStoreData) (s : AppState)
    (a b : nat) : list Action :=
  attempts (S b) (fun j => registerAction W d (retryInstant (now s) (a + j))).

(** The timer of the retry wait that ends at [t] fires: [quit] is not closed
    before [t].  When [quit] is closed at [t] itself either case of the
    [select] may be chosen; with [sure], [quit] is not closed at [t] either. *)
Definition timerFires (sure : bool) (W : World) (t : Time) : Prop :=
  ~ quitFiredBefore W (if sure then t + 1 else t).

(** The retry wait that would end at [t] is left by [quit], closed at [q]:
    at [t] at the latest, and with [sure] before [t]. *)
Definition quitFires (sure : bool) (W : World) (t q : Time) : Prop :=
  quitAt W = Some q /\ if sure then q < t else q <= t.

(** The ways [sendUnbondingTxToBtc], entered in the state [s], returns: after
    [a] failed broadcasts and [b] failed registrations, with its trace, its
    result and its final state. *)
Inductive RetryOutcome (sure : bool) (W : World) (h : Hash) (addr : Address)
    (stored : StoredTransaction) (data : option UnbondingStoreData) (s : AppState)
    : nat -> nat -> list Action -> option ConfirmationEvent -> AppState -> Prop :=
| Registered d a b ev :
    data = Some d ->
    succeedsAfter W h addr stored d s a b ev ->
    (forall i, (i < a + b)%nat -> timerFires sure W (retryInstant (now s) (S i))) ->
    RetryOutcome sure W h addr stored data s a b
      (failedBroadcasts W h addr stored data s a ++
       broadcastTrace W h addr stored data s (retryInstant (now s) a) ++
       registrations W d s a b)
      (Some ev) (setNow (retryInstant (now s) (a + b)) s)
| QuitWhileBroadcasting d a q :
    data = Some d ->
    (forall i, (i <= a)%nat ->
       broadcastFailsAt W h addr stored data s (retryInstant (now s) i)) ->
    (forall i, (i < a)%nat -> timerFires sure W (retryInstant (now s) (S i))) ->
    quitFires sure W (retryInstant (now s) (S a)) q ->
    RetryOutcome sure W h addr stored data s a 0
      (failedBroadcasts W h addr stored data s (S a))
      None (setNow (Z.max q (retryInstant (now s) a)) s)
| QuitWhileRegistering d a b q :
    data = Some d ->
    (forall i, (i < a)%nat ->
       broadcastFailsAt W h addr stored data s (retryInstant (now s) i)) ->
    broadcastSucceedsAt W h addr stored data s (retryInstant (now s) a) ->
    (forall j, (j <= b)%nat -> registerFailsAt W d (retryInstant (now s) (a + j))) ->
    (forall i, (i < a + b)%nat -> timerFires sure W (retryInstant (now s) (S i))) ->
    quitFires sure W (retryInstant (now s) (S (a + b))) q ->
    RetryOutcome sure W h addr stored data s a b
      (failedBroadcasts W h addr stored data s a ++
       broadcastTrace W h addr stored data s (retryInstant (now s) a) ++
       registrations W d s a b)
      None (setNow (Z.max q (retryInstant (now s) (a + b))) s).


(** The computation does not write the store. *)
Definition keepsStore {A} (m : Prog A) : Prop :=
  forall s tr a s', m s = (tr, Done (a, s')) -> txTracker s' = txTracker s.

(** Every write of the computation to the store is within [R]. *)
Definition storeRel (R : relation (gmap N StoredTransaction)) {A} (m : Prog A) : Prop :=
  forall s tr a s', m s = (tr, Done (a, s')) -> R (txTracker s) (txTracker s').

(** A record in [SPENT_ON_BTC] after a step of the event loop on the event [ev]
    was in that state before, unless [ev] is the confirmation of the spend. *)
Definition spentOnlyBy (ev : Event) (m m' : gmap N StoredTransaction) : Prop :=
  forall h tx', m' !! h = Some tx' -> State tx' = SPENT_ON_BTC ->
    ev = EvSpendTxConfirmation h \/
    exists tx, m !! h = Some tx /\ State tx = SPENT_ON_BTC.

(** Every action the computation performs satisfies [P], however it ends. *)
Definition traceAll (P : Action -> Prop) {A} (m : Prog A) : Prop :=
  forall s, Forall P (trace (m s)).

(** The computation performs at most [n] actions selected by [f]. *)
Definition traceBound (f : Action -> bool) (n : nat) {A} (m : Prog A) : Prop :=
  forall s, (count f (trace (m s)) <= n)%nat.


Definition noKeyNoBroadcast (a : Action) : Prop := isKeyOrBroadcast a = false.
Definition noReply (a : Action) : Prop := isReply a = false.

(** Running a task of the given sources. *)
Definition runTask (W : World) (fuel : nat) (t : Task) : Prog unit :=
  match t with
  | TaskSendUnbondingTxToBtcAndWaitForConfirmation h addr stored data =>
      sendUnbondingTxToBtcAndWaitForConfirmation W fuel h addr stored data
  | TaskWaitForUnbondingTxConfirmationWithWg ev data h =>
      waitForUnbondingTxConfirmation W ev data h
  | TaskWaitForSpendConfirmation h ev => waitForSpendConfirmation W h ev
  | _ => ret tt
  end.

(** The goroutines a run started. *)
Fixpoint spawned (tr : list Action) : list Task :=
  match tr with
  | [] => []
  | Go t :: tr' => t :: spawned tr'
  | _ :: tr' => spawned tr'
  end.

(** A restart followed by the arrival of the unbonding signatures: the
    reconciler runs; the event loop handles what the reconciler pushed and
    then the signatures the polling task delivers; the tasks the event loop
    started run.  The actions performed, in order. *)
Definition restartThenSignatures (W : World) (fuel : nat)
    (sigs : unbondingSignaturesConfirmed) (s : AppState) : list Action :=
  let r1 := checkTransactionsStatus W s in
  match final r1 with
  | None => trace r1
  | Some s1 =>
      let r2 := handleStaking W
                  (pushes (trace r1) ++ [EvUnbondingSignaturesConfirmed sigs]) s1 in
      match final r2 with
      | None => trace r1 ++ trace r2
      | Some s2 =>
          trace r1 ++ trace r2 ++
          concat (map (fun t => trace (runTask W fuel t s2)) (spawned (trace r2)))
      end
  end.

(** ** Waiting for the confirmation of a staking transaction *)

Section Tasks.

Variable W : World.

(** [waitForStakingTxConfirmation]: the [Updates] case of the [select] only
    logs, so the loop body runs once; [txHash] is only logged. *)
Definition waitForStakingTxConfirmation (txHash : Hash) (depthOnBtcChain : Z)
    (ev : ConfirmationEvent) : Prog unit :=
  let* q := quitFired W in
  if q then Cancel ev
  else
    let* sel := select W [(ConfirmedAt ev, SelConfirmed); (quitAt W, SelQuitting)] in
    match sel with
    | SelConfirmed =>
        let conf := Confirmation ev in
        pushEvent W (EvConfirmation
          (mkStakingTxBtcConfirmation (TxHash (ConfTx conf)) (TxIndex conf)
             depthOnBtcChain (BlockHash conf) (BlockHeight conf) (ConfTx conf)
             (Block conf))) ;;;
        Cancel ev
    | _ => Cancel ev
    end.

(** [waitForUnbondingTxConfirmationWithWg]: the wait, with the wait-group
    counter released at the end. *)
Definition waitForUnbondingTxConfirmationWithWg (waitEv : ConfirmationEvent)
    (unbondingData : option UnbondingStoreData) (stakingTxHash : Hash) : Prog unit :=
  waitForUnbondingTxConfirmation W waitEv unbondingData stakingTxHash.

End Tasks.

(** ** Starting the daemon *)

(** [notifier.BlockEpochEvent]: [FirstEpochAt] is the instant at which the
    notifier delivers the first block on [Epochs], if it ever does, and
    [FirstEpochHeight] the height of that block (an int32). *)
Record BlockEpochEvent := mkBlockEpochEvent {
  EpochId : N;
  FirstEpochAt : option Time;
  FirstEpochHeight : Z
}.

(** The chain notifier, as [Start] uses it. *)
Record ChainNotifier := mkChainNotifier {
  ntfn_Start : option error;
  ntfn_RegisterBlockEpochNtfn : res BlockEpochEvent
}.

(** The long-lived goroutines of the daemon. *)
Inductive Goroutine : Type :=
| GoHandleNewBlocks (blockNotifier : BlockEpochEvent)
| GoHandleSentToBabylon
| GoHandleStaking.

(** What [Start] does, in program order; [Reconcile] is an action of
    [checkTransactionsStatus]. *)
Inductive StartAction : Type :=
| NtfnStart
| NtfnRegisterBlockEpochNtfn
| StoreBestBlockHeight (height : Z)
| GoDaemon (g : Goroutine)
| Reconcile (a : Action).

(** The application object: whether [startOnce] has run, and the state of
    the engine. *)
Record StakerApp := mkStakerApp {
  startOnce : bool;
  engine : AppState
}.

(** The cases of the [select] of [Start]. *)
Inductive StartSel : Type := SelBlock | SelQuitStart.

(** The error of a [Start] interrupted by [quit]. *)
Definition errQuitBeforeStart : error :=
  Errorf "staker app quit before finishing start" [].

(** [app.currentBestBlockHeight.Store(height)]: from then on a load gives
    [height]. *)
Definition storeBestBlockHeight (height : Z) (e : Env) : Env :=
  {| bc_Params := bc_Params e;
     bc_IsTxAlreadyPartOfDelegation := bc_IsTxAlreadyPartOfDelegation e;
     bc_QueryDelegationInfo := bc_QueryDelegationInfo e;
     bc_Sign := bc_Sign e;
     bc_Undelegate := bc_Undelegate e;
     app_validatorExists := app_validatorExists e;
     wc_UnlockWallet := wc_UnlockWallet e;
     wc_DumpPrivateKey := wc_DumpPrivateKey e;
     wc_SendRawTransaction := wc_SendRawTransaction e;
     wc_CreateAndSignTx := wc_CreateAndSignTx e;
     wc_TxDetails := wc_TxDetails e;
     ntfn_RegisterConfirmationsNtfn := ntfn_RegisterConfirmationsNtfn e;
     fe_EstimateFeePerKb := fe_EstimateFeePerKb e;
     currentBestBlockHeight := height;
     btcutil_DecodeAddress := btcutil_DecodeAddress e;
     txscript_PayToAddrScript := txscript_PayToAddrScript e;
     privKey_PubKey := privKey_PubKey e;
     schnorr_SerializePubKey := schnorr_SerializePubKey e;
     tmhash_Sum := tmhash_Sum e;
     schnorr_Sign := schnorr_Sign e;
     cl_NewBabylonPop := cl_NewBabylonPop e;
     staking_BuildStakingOutput := staking_BuildStakingOutput e;
     staking_BuildWitnessToSpendStakingOutput := staking_BuildWitnessToSpendStakingOutput e;
     staking_ParseStakingTransactionScript := staking_ParseStakingTransactionScript e;
     createSpendStakeTxFromStoredTx := createSpendStakeTxFromStoredTx e;
     createUndelegationData := createUndelegationData e;
     createWitnessToSendUnbondingTx := createWitnessToSendUnbondingTx e;
     parseWatchStakingRequest := parseWatchStakingRequest e |}.

(** The world in which the daemon holds the best block height [height]. *)
Definition holdingBestBlockHeight (height : Z) (W : World) : World :=
  {| envAt := fun t => storeBestBlockHeight height (envAt W t);
     quitAt := quitAt W;
     pick := pick W;
     lateServe := lateServe W |}.

Section Lifecycle.

Variable W : World.

(** The part of [Start] that follows the arrival of the first block: its
    height is stored, the three goroutines are started, then the reconciler
    runs in the calling goroutine.  The reconciler runs at the instant of the
    first block (it never parks), so the height it loads is the one just
    stored. *)
Definition startDaemon (blockEventNotifier : BlockEpochEvent) (s : AppState)
    : list StartAction * Result (option error * StakerApp) :=
  let height := wrap32 (FirstEpochHeight blockEventNotifier) in
  let started :=
    [StoreBestBlockHeight height;
     GoDaemon (GoHandleNewBlocks blockEventNotifier);
     GoDaemon GoHandleSentToBabylon;
     GoDaemon GoHandleStaking] in
  let '(tr, r) := checkTransactionsStatus (holdingBestBlockHeight height W) s in
  (started ++ map Reconcile tr,
   match r with
   | Done (err, s') => Done (err, mkStakerApp true s')
   | Fatal msg => Fatal msg
   | Panic msg => Panic msg
   | Blocked => Blocked
   | OutOfFuel => OutOfFuel
   end).

(** [Start]: the body runs under [startOnce.Do]; [startErr] is a variable of
    the call, so a call that finds the body already run returns nil. *)
Definition Start (notifier : ChainNotifier) (app : StakerApp)
    : list StartAction * Result (option error * StakerApp) :=
  if startOnce app then ([], Done (None, app))
  else
    match ntfn_Start notifier with
    | Some err => ([NtfnStart], Done (Some err, mkStakerApp true (engine app)))
    | None =>
        match ntfn_RegisterBlockEpochNtfn notifier with
        | Err err =>
            ([NtfnStart; NtfnRegisterBlockEpochNtfn],
             Done (Some err, mkStakerApp true (engine app)))
        | Ok blockEventNotifier =>
            match select W [(FirstEpochAt blockEventNotifier, SelBlock);
                            (quitAt W, SelQuitStart)] (engine app) with
            | (_, Done (SelBlock, s)) =>
                let '(tr, r) := startDaemon blockEventNotifier s in
                ([NtfnStart; NtfnRegisterBlockEpochNtfn] ++ tr, r)
            | (_, Done (SelQuitStart, s)) =>
                ([NtfnStart; NtfnRegisterBlockEpochNtfn],
                 Done (Some errQuitBeforeStart, mkStakerApp true s))
            | (_, _) => ([NtfnStart; NtfnRegisterBlockEpochNtfn], Blocked)
            end
        end
    end.

End Lifecycle.

(** ** Notions used in the properties of the rest of the daemon *)

(** What the reconciler may do: log an error, register a confirmation watch,
    call the delegation sender, start a task, push an event. *)
Definition reconcilerAction (a : Action) : Prop :=
  match a with
  | LogError _ _ | NtfnRegisterConfirmations _ _ _ _
  | CallSendDelegationWithTxToBabylon _ | Go _ | Push _ => True
  | _ => False
  end.

(** The key of a record: the hash of its staking transaction. *)
Definition txid (tx : StoredTransaction) : Hash := TxHash (StakingTx tx).

(** The record is in one of the states [sts]. *)
Definition stateIn (sts : list TransactionState) (tx : StoredTransaction) : Prop :=
  State tx ∈ sts.

Global Instance stateIn_dec sts tx : Decision (stateIn sts tx).
Proof. unfold stateIn. apply _. Defined.

(** The state of the record is one the daemon knows. *)
Definition knownState (tx : StoredTransaction) : Prop :=
  forall tag, State tx <> UNKNOWN_STATE tag.

(** The three worklists of the reconciler for the records [txs]. *)
Definition worklists (txs : list StoredTransaction) : scanned :=
  mkScanned (map txid (filter (stateIn [SENT_TO_BTC]) txs))
    (map txid (filter (stateIn [CONFIRMED_ON_BTC]) txs))
    (map (fun tx => mkStakingDbInfo (txid tx) (State tx))
       (filter (stateIn [SENT_TO_BABYLON; UNBONDING_STARTED;
                         UNBONDING_SIGNATURES_RECEIVED]) txs)).

(** The error of the scan for a record in an unknown state. *)
Definition errUnknownState (tag : Z) : error :=
  Errorf "unknown transaction state: %d" [tag].

(** Nothing is left to do for the record: its unbonding is confirmed, it is
    spent, or the coordinator holds its delegation and reports no
    undelegation. *)
Definition settled (e : Env) (tx : StoredTransaction) : Prop :=
  State tx = UNBONDING_CONFIRMED_ON_BTC \/ State tx = SPENT_ON_BTC \/
  (State tx = SENT_TO_BABYLON /\
   exists info, bc_QueryDelegationInfo e (txid tx) = Ok info /\
                UndelegationInfo info = None).

(** The record stored under [h] was sent to Bitcoin and the wallet does not
    know its transaction. *)
Definition lostInWallet (e : Env) (h : Hash) (tx : StoredTransaction) : Prop :=
  State tx = SENT_TO_BTC /\ txid tx = h /\
  (exists addr, btcutil_DecodeAddress e (StakerAddress tx) = Ok addr) /\
  exists o details,
    0 <= StakingOutputIndex tx /\
    TxOuts (StakingTx tx) !! Z.to_nat (StakingOutputIndex tx) = Some o /\
    wc_TxDetails e h (PkScript o) = Ok (details, TxNotFound).

(** The error log for a transaction of the store that the wallet does not
    know. *)
Definition logLost (h : Hash) : Action :=
  LogError "Transaction from database not found in BTC mempool or chain" h.

(** The confirmation event the reconciler pushes for a staking transaction
    found deep enough in the chain. *)
Definition confirmationOf (h : Hash) (txInfo : StoredTransaction) (p : StakingParams)
    (info : TxConfirmation) : Event :=
  EvConfirmation
    (mkStakingTxBtcConfirmation h (TxIndex info) (ConfirmationTimeBlocks p)
       (BlockHash info) (BlockHeight info) (StakingTx txInfo) (Block info)).

(** What registering the confirmation watch of a staking transaction does:
    the registration, and the waiting task when the notifier accepted it. *)
Definition watchRun (W : World) (h : Hash) (script : Bytes) (depth best : Z)
    (s : AppState) : Run (option error) :=
  let reg := NtfnRegisterConfirmations h script (wrap32 (depth + 1)) best in
  match ntfn_RegisterConfirmationsNtfn (envAt W (now s)) h script
          (wrap32 (depth + 1)) best with
  | Ok ev => ([reg; Go (TaskWaitForStakingTxConfirmation h depth ev)], Done (None, s))
  | Err e => ([reg], Done (Some e, s))
  end.

(** The record the event loop stores for a staking request. *)
Definition newRecord (req : stakingRequest) : StoredTransaction :=
  mkStoredTransaction (rq_stakingTx req) (rq_stakingOutputIdx req)
    (rq_stakingTxScript req) (rq_pop req) (rq_stakerAddress req)
    SENT_TO_BTC (isWatched req) None None.

(** The registration of the confirmation watch of a staking request. *)
Definition watchOf (W : World) (req : stakingRequest) (s : AppState)
    : Action * res ConfirmationEvent :=
  let h := TxHash (rq_stakingTx req) in
  let confs := wrap32 (rq_requiredDepthOnBtcChain req + 1) in
  let hint := wrap32 (currentBestBlockHeight (envAt W (now s))) in
  (NtfnRegisterConfirmations h (rq_stakingOutputPkScript req) confs hint,
   ntfn_RegisterConfirmationsNtfn (envAt W (now s)) h
     (rq_stakingOutputPkScript req) confs hint).

(** The broadcast the event loop makes for a request: none for a watched
    one. *)
Definition broadcastOf (req : stakingRequest) : list Action :=
  if isWatched req then [] else [WcSendRawTransaction (rq_stakingTx req)].

(** The state after the event loop stored the record of the request (or
    not) and wrote the reply [v] on the channel [c]. *)
Definition replied (stored : bool) (req : stakingRequest) (c : ChanId) (v : ChanVal)
    (s : AppState) : AppState :=
  let m := if stored
           then <[TxHash (rq_stakingTx req) := newRecord req]> (txTracker s)
           else txTracker s in
  setChans (<[c := v]> (chans s)) (setTracker m s).

(** The ways a staking request ends. *)
Inductive RequestOutcome (W : World) (req : stakingRequest) (s : AppState)
    : list Action -> AppState -> Prop :=
| RequestAccepted ev :
    (watchOf W req s).2 = Ok ev ->
    txTracker s !! TxHash (rq_stakingTx req) = None ->
    RequestOutcome W req s
      (broadcastOf req ++
       [StoreAdd (TxHash (rq_stakingTx req)) (isWatched req);
        (watchOf W req s).1;
        Go (TaskWaitForStakingTxConfirmation (TxHash (rq_stakingTx req))
              (rq_requiredDepthOnBtcChain req) ev);
        ChanWriteHash (rq_successChan req) (TxHash (rq_stakingTx req))])
      (replied true req (rq_successChan req) (CHash (TxHash (rq_stakingTx req))) s)
| RequestNotBroadcast err :
    isWatched req = false ->
    wc_SendRawTransaction (envAt W (now s)) (rq_stakingTx req) = Err err ->
    RequestOutcome W req s
      [WcSendRawTransaction (rq_stakingTx req); ChanWriteErr (rq_errChan req) err]
      (replied false req (rq_errChan req) (CErr err) s)
| RequestAlreadyTracked old :
    txTracker s !! TxHash (rq_stakingTx req) = Some old ->
    RequestOutcome W req s
      (broadcastOf req ++ [ChanWriteErr (rq_errChan req) ErrTransactionAlreadyExists])
      (replied false req (rq_errChan req) (CErr ErrTransactionAlreadyExists) s)
| RequestNotWatched err :
    (watchOf W req s).2 = Err err ->
    txTracker s !! TxHash (rq_stakingTx req) = None ->
    RequestOutcome W req s
      (broadcastOf req ++
       [StoreAdd (TxHash (rq_stakingTx req)) (isWatched req);
        (watchOf W req s).1;
        ChanWriteErr (rq_errChan req) err])
      (replied true req (rq_errChan req) (CErr err) s).

(** The tracked transaction a lifecycle event is about. *)
Definition eventTx (ev : Event) : option Hash :=
  match ev with
  | EvStakingRequest _ => None
  | EvConfirmation c => Some (sc_txHash c)
  | EvSendDelegationResponse r => Some (sr_txHash r)
  | EvSpendTxConfirmation h => Some h
  | EvUnbondingRequestConfirm c => Some (urc_stakingTxHash c)
  | EvUnbondingSignaturesConfirmed c => Some (usc_stakingTxHash c)
  | EvUnbondingConfirmedOnBtc c => Some (uc_stakingTxHash c)
  end.

(** The position of a state in the lifecycle. *)
Definition rank (st : TransactionState) : Z :=
  match st with
  | SENT_TO_BTC => 0
  | CONFIRMED_ON_BTC => 1
  | SENT_TO_BABYLON => 2
  | UNBONDING_STARTED => 3
  | UNBONDING_SIGNATURES_RECEIVED => 4
  | UNBONDING_CONFIRMED_ON_BTC => 5
  | SPENT_ON_BTC => 6
  | UNKNOWN_STATE _ => -1
  end.

(** What identifies a record and never changes: the staking transaction, its
    output, its script, the proof of possession, the staker address and the
    watched flag. *)
Definition sameIdentity (tx tx' : StoredTransaction) : Prop :=
  StakingTx tx' = StakingTx tx /\
  StakingOutputIndex tx' = StakingOutputIndex tx /\
  TxScript tx' = TxScript tx /\
  Pop tx' = Pop tx /\
  StakerAddress tx' = StakerAddress tx /\
  Watched tx' = Watched tx.

(** Every record of [m] is still in [m'], with the same identity, in the same
    state or further in the lifecycle. *)
Definition advances (m m' : gmap N StoredTransaction) : Prop :=
  forall h tx, m !! h = Some tx ->
    exists tx', m' !! h = Some tx' /\ sameIdentity tx tx' /\
                (State tx' = State tx \/ rank (State tx) < rank (State tx')).

(** The event a confirmed staking transaction is announced with. *)
Definition stakingConfirmed (depth : Z) (ev : ConfirmationEvent) : Event :=
  let conf := Confirmation ev in
  EvConfirmation
    (mkStakingTxBtcConfirmation (TxHash (ConfTx conf)) (TxIndex conf) depth
       (BlockHash conf) (BlockHeight conf) (ConfTx conf) (Block conf)).

(** The event a confirmed unbonding transaction is announced with. *)
Definition unbondingConfirmed (stakingTxHash : Hash) (ev : ConfirmationEvent) : Event :=
  EvUnbondingConfirmedOnBtc
    (mkUnbondingTxBtcConfirmation stakingTxHash (BlockHash (Confirmation ev))
       (BlockHeight (Confirmation ev))).

(** Events pushed to the event loop. *)
Definition isPush (a : Action) : bool :=
  match a with Push _ => true | _ => false end.

(** What the task that broadcasts the unbonding transaction [d] of the staking
    transaction [h] may do. *)
Definition unbondingTaskAction (h : Hash) (addr : Address) (d : UnbondingStoreData)
    (a : Action) : Prop :=
  match a with
  | WcUnlockWallet t => t = defaultWalletUnlockTimeout
  | WcDumpPrivateKey a' => a' = addr
  | WcSendRawTransaction tx =>
      TxHash tx = TxHash (UnbondingTx d) /\ TxOuts tx = TxOuts (UnbondingTx d) /\
      is_Some (Witness0 tx)
  | NtfnRegisterConfirmations txid _ numConfs _ =>
      txid = TxHash (UnbondingTx d) /\ numConfs = UnbondingTxConfirmations
  | NtfnCancel _ => True
  | LogError _ h' => h' = h
  | Push e => exists ev, e = unbondingConfirmed h ev
  | _ => False
  end.

(** The action is not an event pushed to the event loop. *)
Definition notPush (a : Action) : Prop := isPush a = false.

(** Every request for a private key in the trace comes directly after an
    unlocking of the wallet with the default timeout; [unlocked] tells whether
    the action before the trace was such an unlocking. *)
Fixpoint dumpsFollowUnlock (unlocked : bool) (tr : list Action) : bool :=
  match tr with
  | [] => true
  | WcDumpPrivateKey _ :: tr' => unlocked && dumpsFollowUnlock false tr'
  | WcUnlockWallet t :: tr' => dumpsFollowUnlock (t =? defaultWalletUnlockTimeout) tr'
  | _ :: tr' => dumpsFollowUnlock false tr'
  end.

(** The same, for a whole trace. *)
Definition unlockedDumps (tr : list Action) : bool := dumpsFollowUnlock false tr.

(** In every run of the computation the private key is requested only
    directly after an unlocking of the wallet. *)
Definition dumpsGuarded {A} (m : Prog A) : Prop :=
  forall s, unlockedDumps (trace (m s)) = true.

(** The action is not a request for a private key. *)
Definition notDump (a : Action) : Prop :=
  match a with WcDumpPrivateKey _ => False | _ => True end.



(** The channels that will be allocated from now on are empty. *)
Definition freshChans (s : AppState) : Prop :=
  forall c, (nextChan s <= c)%N -> chans s !! c = None.

(** What a successful [StakeFunds] did. *)
Definition stakeSucceeded (W : World) (stakerAddress : Address) (stakingAmount : Z)
    (stakingTimeBlocks : Z) (s : AppState) (tr : list Action) (h : Hash)
    (s' : AppState) : Prop :=
  exists p tx stored,
    bc_Params (envAt W (now s)) = Ok p /\
    getSlashingFee p < stakingAmount /\
    GetMinStakingTime p <= stakingTimeBlocks /\
    TxHash tx = h /\
    WcSendRawTransaction tx ∈ tr /\
    (exists script hint,
       NtfnRegisterConfirmations h script (wrap32 (ConfirmationTimeBlocks p + 1)) hint ∈ tr) /\
    txTracker s !! h = None /\
    txTracker s' = <[h := stored]> (txTracker s) /\
    StakingTx stored = tx /\ StakingOutputIndex stored = 0 /\
    StakerAddress stored = stakerAddress /\
    State stored = SENT_TO_BTC /\ Watched stored = false.

(** What a [Start] that has received the first block [b] does before the
    reconciler runs, in order. *)
Definition startedOn (b : BlockEpochEvent) : list StartAction :=
  [NtfnStart; NtfnRegisterBlockEpochNtfn;
   StoreBestBlockHeight (wrap32 (FirstEpochHeight b));
   GoDaemon (GoHandleNewBlocks b); GoDaemon GoHandleSentToBabylon;
   GoDaemon GoHandleStaking].

(** What the reconciler does for a record whose unbonding signatures were
    received, once the wallet has answered [found] about the unbonding
    transaction [d]: the height hint is the inclusion height for a transaction
    in the chain and the best known height for one in the mempool. *)
Definition resumeUnbonding (W : World) (h : Hash) (addr : Address)
    (stored : StoredTransaction) (d : UnbondingStoreData) (o : TxOut) (s : AppState)
    (found : option TxConfirmation * TxStatus) : Run LoopCtl :=
  let e := envAt W (now s) in
  match found with
  | (_, TxNotFound) =>
      ([Go (TaskSendUnbondingTxToBtcAndWaitForConfirmation h addr stored (Some d))],
       Done (Next, s))
  | (None, _) => ([], Panic "nil pointer dereference")
  | (Some details, status) =>
      let hint := match status with
                  | TxInChain => BlockHeight details
                  | _ => currentBestBlockHeight e
                  end in
      let reg := NtfnRegisterConfirmations (TxHash (UnbondingTx d)) (PkScript o)
                   UnbondingTxConfirmations hint in
      match ntfn_RegisterConfirmationsNtfn e (TxHash (UnbondingTx d)) (PkScript o)
              UnbondingTxConfirmations hint with
      | Ok waitEv =>
          ([reg; Go (TaskWaitForUnbondingTxConfirmationWithWg waitEv (Some d) h)],
           Done (Next, s))
      | Err err =>
          ([reg],
           Done (Return (Some (ErrorfW
                   "failed to register unbonding tx confirmation event: %w" err)), s))
      end
  end.

(** The record is in [UNBONDING_CONFIRMED_ON_BTC] and holds the signatures
    [sigs] and the block of the confirmed unbonding transaction. *)
Definition unbondingRecorded (stored : StoredTransaction) (sigs : Bytes * Bytes)
    (conf : TxConfirmation) : Prop :=
  State stored = UNBONDING_CONFIRMED_ON_BTC /\
  exists d, UnbondingTxData stored = Some d /\
            UnbondingSignatures d = Some sigs /\
            UnbondingInclusion d = Some (BlockHash conf, BlockHeight conf).

(** What a successful [WatchStaking] did. *)
Definition watchSucceeded (W : World) (stakingTx : MsgTx) (stakingscript : Bytes)
    (slashingTx : MsgTx) (slashingTxSig : Bytes) (stakerBabylonPk : PublicKey)
    (stakerAddress : Address) (pop : option BabylonPop)
    (s : AppState) (tr : list Action) (h : Hash) (s' : AppState) : Prop :=
  exists p parsed scriptData stored,
    bc_Params (envAt W (now s)) = Ok p /\
    parseWatchStakingRequest (envAt W (now s)) stakingTx stakingscript slashingTx
      slashingTxSig stakerBabylonPk stakerAddress pop p = Ok (parsed, scriptData) /\
    app_validatorExists (envAt W (now s)) (ValidatorKey scriptData) = None /\
    h = TxHash (rq_stakingTx parsed) /\
    txTracker s !! h = None /\
    txTracker s' = <[h := stored]> (txTracker s) /\
    StakingTx stored = rq_stakingTx parsed /\
    State stored = SENT_TO_BTC /\ Watched stored = isWatched parsed /\
    filter (fun a => isKeyOrBroadcast a) tr = broadcastOf parsed.

(** The record stored under [h] is confirmed on Bitcoin and the coordinator
    already holds its delegation: the local state is behind. *)
Definition delegatedBehind (e : Env) (h : Hash) (tx : StoredTransaction) : Prop :=
  State tx = CONFIRMED_ON_BTC /\ txid tx = h /\
  bc_IsTxAlreadyPartOfDelegation e h = Ok true.

(** The event by which the reconciler reports that the delegation of [h] is
    on the coordinator. *)
Definition delegationFound (h : Hash) : Event :=
  EvSendDelegationResponse (mkSendDelegationResponse h None).

(** ** Further concrete worlds *)

Module Example.

(** A record in a state the daemon does not know. *)
Definition corrupted : AppState :=
  Sample.state 0 [Sample.record 1%N (UNKNOWN_STATE 9) false None].

(** A record sent to Bitcoin and a spent one. *)
Definition sentAndSpent : AppState :=
  Sample.state 0 [Sample.record 1%N SENT_TO_BTC false None;
                  Sample.record 2%N SPENT_ON_BTC false None].

(** A request to stake the transaction [h], answered on the channels 0
    (errors) and 1 (success). *)
Definition request (h : Hash) : stakingRequest :=
  mkStakingRequest "staker-address" (Sample.tx h) 0 [] [] 6 None None 0%N 1%N.

(** The notifier confirms every watched transaction at instant 5. *)
Definition confirming : World :=
  Sample.still
    (Sample.env (Ok Sample.params) (fun _ => false) Sample.noUndelegation Sample.inChain
       (Some 5)) None.

(** At restart the coordinator already holds every delegation. *)
Definition restartDelegated : World :=
  Sample.still
    (Sample.env (Ok Sample.params) (fun _ => true) Sample.noUndelegation Sample.inChain
       None) None.

(** A record confirmed on Bitcoin and a spent one. *)
Definition confirmedAndSpent : AppState :=
  Sample.state 0 [Sample.record 1%N CONFIRMED_ON_BTC false None;
                  Sample.record 2%N SPENT_ON_BTC false None].

(** A record whose unbonding has started, without signatures yet. *)
Definition unbondingStarted : AppState :=
  Sample.state 0
    [Sample.record 3%N UNBONDING_STARTED false
       (Some (mkUnbondingStoreData (mkMsgTx 44%N [mkTxOut 98000 []] None) [] None None))].

(** A first block of height 103, delivered at instant 3. *)
Definition firstBlock : BlockEpochEvent := mkBlockEpochEvent 0%N (Some 3) 103.

(** A notifier that starts and delivers [firstBlock]. *)
Definition notifier : ChainNotifier := mkChainNotifier None (Ok firstBlock).

(** A record sent to Bitcoin. *)
Definition sentToBtc : AppState :=
  Sample.state 0 [Sample.record 1%N SENT_TO_BTC false None].

End Example.

(** * Properties *)

(** ** Slashing fee *)

(** C3: the effective slashing fee is the coordinator's fee when that is at
    least 1000 sat and the internal floor of 1000 sat otherwise; a reported
    500 sat yields 1000 sat; the result is never below 1000 sat. *)
Theorem getSlashingFee_floor (p : StakingParams) :
  (1000 <= MinSlashingTxFeeSat p -> getSlashingFee p = MinSlashingTxFeeSat p) /\
  (MinSlashingTxFeeSat p < 1000 -> getSlashingFee p = 1000) /\
  (MinSlashingTxFeeSat p = 500 -> getSlashingFee p = 1000) /\
  1000 <= getSlashingFee p.
Proof.
  unfold getSlashingFee, minSlashingFee.
  destruct (Z.ltb_spec (MinSlashingTxFeeSat p) 1000); repeat split; lia.
Qed.

Lemma getSlashingFee_floor_witness :
  getSlashingFee Sample.params = 1000 /\
  getSlashingFee (mkStakingParams 9%N "a" 2500 6 100) = 2500.
Proof.
  split.
  - apply (proj1 (proj2 (proj2 (getSlashingFee_floor Sample.params)))). reflexivity.
  - apply (proj1 (getSlashingFee_floor (mkStakingParams 9%N "a" 2500 6 100))).
    simpl. lia.
Defined.

(** ** The service client *)

(** C10: [Unbond] with a negative fee rate returns an error and issues no call
    to the daemon; with a zero fee rate it forwards the request with a nil fee
    rate; with a positive fee rate it forwards exactly the given value. *)
Theorem Unbond_feeRate (d : Service.Daemon) (daemonAddress h : string) (feeRate : Z) :
  (feeRate < 0 ->
     fst (Service.Unbond d daemonAddress h feeRate) = [] /\
     exists err, snd (Service.Unbond d daemonAddress h feeRate) = Err err) /\
  (Service.NewStakerServiceJsonRpcClient d daemonAddress = None ->
     (feeRate < 0 ->
        snd (Service.Unbond d daemonAddress h feeRate)
        = Err (Errorf "fee rate must be non-negative" [])) /\
     (feeRate = 0 ->
        Service.Unbond d daemonAddress h feeRate
        = ([Service.RpcUnbondStaking h None], Service.rpc_UnbondStaking d h None)) /\
     (0 < feeRate ->
        Service.Unbond d daemonAddress h feeRate
        = ([Service.RpcUnbondStaking h (Some feeRate)],
           Service.rpc_UnbondStaking d h (Some feeRate)))).
Proof.
  unfold Service.Unbond.
  split.
  - intros Hneg.
    destruct (Service.NewStakerServiceJsonRpcClient d daemonAddress) as [err|].
    + split; [reflexivity | eauto].
    + destruct (Z.ltb_spec feeRate 0); [| lia]. split; [reflexivity | eauto].
  - intros ->. repeat split.
    + intros Hneg. destruct (Z.ltb_spec feeRate 0); [reflexivity | lia].
    + intros ->. simpl. destruct (Service.rpc_UnbondStaking d h None); reflexivity.
    + intros Hpos.
      destruct (Z.ltb_spec feeRate 0); [lia |].
      destruct (Z.ltb_spec 0 feeRate); [| lia].
      destruct (Service.rpc_UnbondStaking d h (Some feeRate)); reflexivity.
Qed.

Lemma Unbond_feeRate_witness :
  fst (Service.Unbond Sample.daemon "daemon" "txid" (-1)) = [] /\
  Service.Unbond Sample.daemon "daemon" "txid" 0
  = ([Service.RpcUnbondStaking "txid" None],
     Service.rpc_UnbondStaking Sample.daemon "txid" None) /\
  Service.Unbond Sample.daemon "daemon" "txid" 2000
  = ([Service.RpcUnbondStaking "txid" (Some 2000)],
     Service.rpc_UnbondStaking Sample.daemon "txid" (Some 2000)).
Proof.
  split; [| split].
  - apply (proj1 (Unbond_feeRate Sample.daemon "daemon" "txid" (-1))). lia.
  - apply (proj2 (Unbond_feeRate Sample.daemon "daemon" "txid" 0)); reflexivity.
  - apply (proj2 (Unbond_feeRate Sample.daemon "daemon" "txid" 2000)); [reflexivity | lia].
Defined.

(** ** Reasoning about runs *)

Lemma bind_pure {A B} (m : Prog A) (f : A -> Prog B) s a s' :
  m s = ([], Done (a, s')) -> bind m f s = f a s'.
Proof. intros H. unfold bind. rewrite H. destruct (f a s'); reflexivity. Qed.

Lemma bind_done {A B} (m : Prog A) (f : A -> Prog B) s t a s' :
  m s = (t, Done (a, s')) ->
  bind m f s = (t ++ trace (f a s'), outcome (f a s')).
Proof. intros H. unfold bind. rewrite H. destruct (f a s'); reflexivity. Qed.

Lemma bind_inv {A B} (m : Prog A) (f : A -> Prog B) s tr b s' :
  bind m f s = (tr, Done (b, s')) ->
  exists t1 a s1 t2,
    m s = (t1, Done (a, s1)) /\ f a s1 = (t2, Done (b, s')) /\ tr = t1 ++ t2.
Proof.
  unfold bind. destruct (m s) as [t1 [[a s1]| | | |]]; try discriminate.
  destruct (f a s1) as [t2 r] eqn:Hf. intros [= <- ->].
  exists t1, a, s1, t2. auto.
Qed.

Lemma ret_inv {A} (a : A) s tr b s' :
  ret a s = (tr, Done (b, s')) -> tr = [] /\ b = a /\ s' = s.
Proof. intros [= <- <- <-]. auto. Qed.

Lemma returned_inv {A} (r : Run A) (a : A) :
  returned r = Some a -> exists t s', r = (t, Done (a, s')).
Proof.
  destruct r as [t [[a' s']| | | |]]; unfold returned; simpl; try discriminate.
  intros [= ->]. eauto.
Qed.

Lemma deref_inv {A} (p : option A) s tr a s' :
  deref p s = (tr, Done (a, s')) -> p = Some a /\ tr = [] /\ s' = s.
Proof. destruct p; simpl; [| discriminate]. intros [= <- <- <-]. auto. Qed.

Lemma trace_bind {A B} (m : Prog A) (f : A -> Prog B) s :
  exists rest, trace (bind m f s) = trace (m s) ++ rest.
Proof.
  unfold bind, trace. destruct (m s) as [t [[a s']| | | |]]; simpl.
  - destruct (f a s'); simpl; eauto.
  - exists []. by rewrite app_nil_r.
  - exists []. by rewrite app_nil_r.
  - exists []. by rewrite app_nil_r.
  - exists []. by rewrite app_nil_r.
Qed.

Lemma quitFired_run W s : quitFired W s = ([], Done (firedBy W (now s), s)).
Proof. reflexivity. Qed.

Lemma askEnv_run W s : askEnv W s = ([], Done (envAt W (now s), s)).
Proof. reflexivity. Qed.

Lemma getState_run s : getState s = ([], Done (s, s)).
Proof. reflexivity. Qed.

Lemma validatorExists_run W pk s :
  validatorExists W pk s = ([], Done (app_validatorExists (envAt W (now s)) pk, s)).
Proof. reflexivity. Qed.

Lemma Params_run W s : Params W s = ([], Done (bc_Params (envAt W (now s)), s)).
Proof. reflexivity. Qed.

Lemma GetTransaction_run h s :
  GetTransaction h s = ([], Done (Store.get h (txTracker s), s)).
Proof. reflexivity. Qed.

Lemma bestBlockHeight_run W s :
  bestBlockHeight W s = ([], Done (currentBestBlockHeight (envAt W (now s)), s)).
Proof. reflexivity. Qed.

Lemma UnlockWallet_run W t s :
  UnlockWallet W t s = ([WcUnlockWallet t], Done (wc_UnlockWallet (envAt W (now s)) t, s)).
Proof. reflexivity. Qed.

Lemma DumpPrivateKey_run W a s :
  DumpPrivateKey W a s
  = ([WcDumpPrivateKey a], Done (wc_DumpPrivateKey (envAt W (now s)) a, s)).
Proof. reflexivity. Qed.

Lemma SendRawTransaction_run W tx s :
  SendRawTransaction W tx s
  = ([WcSendRawTransaction tx], Done (wc_SendRawTransaction (envAt W (now s)) tx, s)).
Proof. reflexivity. Qed.

Lemma RegisterConfirmationsNtfn_run W h script n hint s :
  RegisterConfirmationsNtfn W h script n hint s
  = ([NtfnRegisterConfirmations h script n hint],
     Done (ntfn_RegisterConfirmationsNtfn (envAt W (now s)) h script n hint, s)).
Proof. reflexivity. Qed.

(** Steps over the leading computations of a run that perform no action. *)
Ltac pure_step :=
  erewrite bind_pure by
    first [ apply quitFired_run | apply askEnv_run | apply getState_run
          | apply validatorExists_run | apply Params_run | apply GetTransaction_run
          | apply bestBlockHeight_run | reflexivity ].

Lemma reachesWallet_bind W {A} (k : option error -> Prog A) s :
  reachesWallet (bind (UnlockWallet W defaultWalletUnlockTimeout) k s).
Proof.
  unfold reachesWallet.
  erewrite bind_done by apply UnlockWallet_run. simpl. eauto.
Qed.

Lemma reachesWallet_bind_l {A B} (m : Prog A) (f : A -> Prog B) s :
  reachesWallet (m s) -> reachesWallet (bind m f s).
Proof.
  intros [rest H]. destruct (trace_bind m f s) as [rest' H'].
  unfold reachesWallet. rewrite H', H. simpl. eauto.
Qed.

(** ** Validation in [StakeFunds] *)

Lemma wrap32_min_staking_time (p : StakingParams) :
  GetMinStakingTime p
  = (2 * FinalizationTimeoutBlocks p + ConfirmationTimeBlocks p) mod 2 ^ 32.
Proof. unfold GetMinStakingTime, wrap32. apply Z.add_mod_idemp_l. lia. Qed.

Section StakeFundsChecks.

Variable W : World.
Variables (stakerAddress : Address) (validatorPk : PublicKey).

Lemma StakeFunds_amount_low s p amount t :
  checksReached W validatorPk s p ->
  amount <= getSlashingFee p ->
  rejectsWith hashErr (StakeFunds W stakerAddress amount validatorPk t s)
    (errAmountTooLow amount (getSlashingFee p)) s.
Proof.
  intros (Hq & Hv & Hp) Hle.
  unfold rejectsWith, StakeFunds.
  pure_step. rewrite Hq. pure_step. rewrite Hv. pure_step. rewrite Hp.
  destruct (Z.leb_spec amount (getSlashingFee p)); [reflexivity | lia].
Qed.

Lemma StakeFunds_time_low s p amount t :
  checksReached W validatorPk s p ->
  getSlashingFee p < amount ->
  t < GetMinStakingTime p ->
  rejectsWith hashErr (StakeFunds W stakerAddress amount validatorPk t s)
    (errStakingTimeTooLow t (GetMinStakingTime p)) s.
Proof.
  intros (Hq & Hv & Hp) Hlt Ht.
  unfold rejectsWith, StakeFunds.
  pure_step. rewrite Hq. pure_step. rewrite Hv. pure_step. rewrite Hp.
  destruct (Z.leb_spec amount (getSlashingFee p)); [lia |].
  destruct (Z.ltb_spec t (GetMinStakingTime p)); [reflexivity | lia].
Qed.

Lemma StakeFunds_checks_pass s p amount t :
  checksReached W validatorPk s p ->
  getSlashingFee p < amount ->
  GetMinStakingTime p <= t ->
  reachesWallet (StakeFunds W stakerAddress amount validatorPk t s).
Proof.
  intros (Hq & Hv & Hp) Hlt Ht.
  unfold StakeFunds.
  pure_step. rewrite Hq. pure_step. rewrite Hv. pure_step. rewrite Hp.
  destruct (Z.leb_spec amount (getSlashingFee p)); [lia |].
  destruct (Z.ltb_spec t (GetMinStakingTime p)); [lia |].
  apply reachesWallet_bind.
Qed.

(** C5: a staking amount that does not exceed the effective slashing fee makes
    [StakeFunds] fail with the amount error before the wallet is unlocked and
    before anything is built or broadcast; an amount of the fee plus one passes
    the check (the next check, and then the wallet, is reached); an amount
    equal to the fee fails it. *)
Theorem StakeFunds_amount_check s p amount t :
  checksReached W validatorPk s p ->
  (amount <= getSlashingFee p ->
     rejectsWith hashErr (StakeFunds W stakerAddress amount validatorPk t s)
       (errAmountTooLow amount (getSlashingFee p)) s) /\
  rejectsWith hashErr
    (StakeFunds W stakerAddress (getSlashingFee p) validatorPk t s)
    (errAmountTooLow (getSlashingFee p) (getSlashingFee p)) s /\
  (t < GetMinStakingTime p ->
     rejectsWith hashErr
       (StakeFunds W stakerAddress (getSlashingFee p + 1) validatorPk t s)
       (errStakingTimeTooLow t (GetMinStakingTime p)) s) /\
  (GetMinStakingTime p <= t ->
     reachesWallet (StakeFunds W stakerAddress (getSlashingFee p + 1) validatorPk t s)) /\
  (getSlashingFee p < amount -> GetMinStakingTime p <= t ->
     reachesWallet (StakeFunds W stakerAddress amount validatorPk t s)).
Proof.
  intros H. repeat split.
  - intros. by apply StakeFunds_amount_low.
  - apply StakeFunds_amount_low; [done | lia].
  - intros. apply StakeFunds_time_low; [done | lia | done].
  - intros. apply StakeFunds_checks_pass with p; [done | lia | done].
  - intros. by apply StakeFunds_checks_pass with p.
Qed.

(** What the staking-time check of [StakeFunds] does: with the amount check
    passed, it passes exactly when the requested time is at least
    [(2 * FinalizationTimeoutBlocks + ConfirmationTimeBlocks) mod 2^32], the
    sum as [GetMinStakingTime] computes it in uint32; that is the minimum
    [2 * FinalizationTimeoutBlocks + ConfirmationTimeBlocks] itself whenever it
    fits 32 bits.  A request at that value passes; a request one block below
    fails with the staking-time error before anything is built. *)
Theorem StakeFunds_time_check s p amount t :
  checksReached W validatorPk s p ->
  getSlashingFee p < amount ->
  let m := (2 * FinalizationTimeoutBlocks p + ConfirmationTimeBlocks p) mod 2 ^ 32 in
  (t < m ->
     rejectsWith hashErr (StakeFunds W stakerAddress amount validatorPk t s)
       (errStakingTimeTooLow t m) s) /\
  (m <= t -> reachesWallet (StakeFunds W stakerAddress amount validatorPk t s)) /\
  reachesWallet (StakeFunds W stakerAddress amount validatorPk m s) /\
  rejectsWith hashErr (StakeFunds W stakerAddress amount validatorPk (m - 1) s)
    (errStakingTimeTooLow (m - 1) m) s /\
  (is_uint32 (2 * FinalizationTimeoutBlocks p + ConfirmationTimeBlocks p) ->
     m = 2 * FinalizationTimeoutBlocks p + ConfirmationTimeBlocks p).
Proof.
  intros H Hamt m.
  assert (Hm : GetMinStakingTime p = m) by apply wrap32_min_staking_time.
  repeat split.
  - intros. rewrite <- Hm. apply StakeFunds_time_low; [done | done | lia].
  - intros. apply StakeFunds_checks_pass with p; [done | done | lia].
  - apply StakeFunds_checks_pass with p; [done | done | lia].
  - rewrite <- Hm. apply StakeFunds_time_low; [done | done | lia].
  - intros [? ?]. subst m. apply Z.mod_small. lia.
Qed.

End StakeFundsChecks.

Lemma StakeFunds_amount_check_witness :
  checksReached Sample.calm 7%N Sample.empty Sample.params /\
  rejectsWith hashErr (StakeFunds Sample.calm "staker-address" 900 7%N 1000 Sample.empty)
    (errAmountTooLow 900 (getSlashingFee Sample.params)) Sample.empty /\
  reachesWallet (StakeFunds Sample.calm "staker-address" 1001 7%N 1000 Sample.empty).
Proof.
  assert (H : checksReached Sample.calm 7%N Sample.empty Sample.params)
    by (repeat split; reflexivity).
  split; [exact H | split].
  - apply (proj1 (StakeFunds_amount_check Sample.calm "staker-address" 7%N
                    Sample.empty Sample.params 900 1000 H)).
    vm_compute. discriminate.
  - apply (proj2 (proj2 (proj2 (proj2
             (StakeFunds_amount_check Sample.calm "staker-address" 7%N
                Sample.empty Sample.params 1001 1000 H))))).
    + vm_compute. reflexivity.
    + vm_compute. discriminate.
Defined.

Lemma StakeFunds_time_check_witness :
  checksReached Sample.calm 7%N Sample.empty Sample.params /\
  reachesWallet (StakeFunds Sample.calm "staker-address" 100000 7%N 206 Sample.empty) /\
  rejectsWith hashErr (StakeFunds Sample.calm "staker-address" 100000 7%N 205 Sample.empty)
    (errStakingTimeTooLow 205 206) Sample.empty.
Proof.
  assert (H : checksReached Sample.calm 7%N Sample.empty Sample.params)
    by (repeat split; reflexivity).
  assert (Hfee : getSlashingFee Sample.params < 100000) by (vm_compute; reflexivity).
  split; [exact H | split].
  - apply (proj1 (proj2 (StakeFunds_time_check Sample.calm "staker-address" 7%N
                           Sample.empty Sample.params 100000 206 H Hfee))).
    vm_compute. discriminate.
  - apply (proj1 (StakeFunds_time_check Sample.calm "staker-address" 7%N
                    Sample.empty Sample.params 100000 205 H Hfee)).
    vm_compute. reflexivity.
Defined.

(** C4 fails on the code.  [GetMinStakingTime] is meant to enforce a staking
    time of at least [2 * FinalizationTimeoutBlocks + ConfirmationTimeBlocks]
    blocks, but adds in uint32 without a guard: when the coordinator reports a
    finalization timeout of 2^31 blocks the sum [2 * 2^31 + 0] wraps to 0, and
    a request with staking time 0, far below the minimum 2^32, passes the
    check: [StakeFunds] goes on to build, broadcast and register the staking
    transaction and returns its hash. *)
Lemma StakeFunds_time_check_wraps :
  wf_params Sample.hugeParams /\
  checksReached Sample.calmHuge 7%N Sample.empty Sample.hugeParams /\
  getSlashingFee Sample.hugeParams < 100000 /\
  ~ (0 >= 2 * FinalizationTimeoutBlocks Sample.hugeParams
          + ConfirmationTimeBlocks Sample.hugeParams) /\
  reachesWallet (StakeFunds Sample.calmHuge "staker-address" 100000 7%N 0 Sample.empty) /\
  returned (StakeFunds Sample.calmHuge "staker-address" 100000 7%N 0 Sample.empty)
  = Some (Some 42%N, None).
Proof.
  split; [| split; [| split; [| split; [| split]]]].
  - unfold wf_params, is_int64, is_uint32. simpl. lia.
  - repeat split; reflexivity.
  - vm_compute. reflexivity.
  - simpl. lia.
  - eexists. vm_compute. reflexivity.
  - vm_compute. reflexivity.
Qed.

(** ** Validation in [UnbondStaking] *)

Section UnbondStakingChecks.

Variable W : World.

Lemma UnbondStaking_not_found s h feeRate :
  firedBy W (now s) = false ->
  txTracker s !! h = None ->
  rejectsWith hashErr (UnbondStaking W h feeRate s)
    (ErrorfW "cannont unbond: %w" ErrTransactionNotFound) s.
Proof.
  intros Hq Hn. unfold rejectsWith, UnbondStaking.
  pure_step. rewrite Hq. pure_step. pure_step.
  unfold Store.get. rewrite Hn. reflexivity.
Qed.

Lemma UnbondStaking_watched s h feeRate tx :
  firedBy W (now s) = false ->
  txTracker s !! h = Some tx ->
  Watched tx = true ->
  rejectsWith hashErr (UnbondStaking W h feeRate s)
    (Errorf "cannot unbond watched transaction" []) s.
Proof.
  intros Hq Hn Hw. unfold rejectsWith, UnbondStaking.
  pure_step. rewrite Hq. pure_step. pure_step.
  unfold Store.get. rewrite Hn, Hw. reflexivity.
Qed.

Lemma UnbondStaking_wrong_state s h feeRate tx :
  firedBy W (now s) = false ->
  txTracker s !! h = Some tx ->
  Watched tx = false ->
  State tx <> SENT_TO_BABYLON ->
  rejectsWith hashErr (UnbondStaking W h feeRate s)
    (Errorf "cannot unbond transaction which is not sent to babylon" []) s.
Proof.
  intros Hq Hn Hw Hst. unfold rejectsWith, UnbondStaking.
  pure_step. rewrite Hq. pure_step. pure_step.
  unfold Store.get. rewrite Hn, Hw.
  rewrite bool_decide_eq_false_2 by done. reflexivity.
Qed.

Lemma UnbondStaking_fee_low s h feeRate tx :
  firedBy W (now s) = false ->
  txTracker s !! h = Some tx ->
  Watched tx = false ->
  State tx = SENT_TO_BABYLON ->
  effectiveFeeRate W s feeRate < MinFeePerKb ->
  rejectsWith hashErr (UnbondStaking W h feeRate s)
    (Errorf "minimum fee rate is %d sat/kb" [MinFeePerKb]) s.
Proof.
  intros Hq Hn Hw Hst Hfee. unfold rejectsWith, UnbondStaking.
  pure_step. rewrite Hq. pure_step. pure_step.
  unfold Store.get. rewrite Hn, Hw.
  rewrite bool_decide_eq_true_2 by done. simpl.
  unfold effectiveFeeRate in Hfee.
  destruct (Z.ltb_spec (match feeRate with
                        | Some f => f
                        | None => fe_EstimateFeePerKb (envAt W (now s))
                        end) MinFeePerKb) as [_|Hge]; [reflexivity | lia].
Qed.

(** With the preconditions satisfied the run is decided by what comes after
    them: the parameter query, the decoding of the address, the wallet. *)
Lemma UnbondStaking_checks_pass s h feeRate tx :
  firedBy W (now s) = false ->
  txTracker s !! h = Some tx ->
  Watched tx = false ->
  State tx = SENT_TO_BABYLON ->
  MinFeePerKb <= effectiveFeeRate W s feeRate ->
  (forall e, bc_Params (envAt W (now s)) = Err e ->
     rejectsWith hashErr (UnbondStaking W h feeRate s) (ErrorfW "cannot unbond: %w" e) s) /\
  (forall p a, bc_Params (envAt W (now s)) = Ok p ->
     btcutil_DecodeAddress (envAt W (now s)) (StakerAddress tx) = Ok a ->
     reachesWallet (UnbondStaking W h feeRate s)).
Proof.
  intros Hq Hn Hw Hst Hfee.
  assert (Hrun : forall k1 k2 : Prog (option Hash * option error),
    (if match feeRate with
         | Some f => f
         | None => fe_EstimateFeePerKb (envAt W (now s))
         end <? MinFeePerKb then k1 else k2) = k2).
  { intros. unfold effectiveFeeRate in Hfee.
    destruct (Z.ltb_spec (match feeRate with
                          | Some f => f
                          | None => fe_EstimateFeePerKb (envAt W (now s))
                          end) MinFeePerKb); [lia | reflexivity]. }
  split.
  - intros e He. unfold rejectsWith, UnbondStaking.
    pure_step. rewrite Hq. pure_step. pure_step.
    unfold Store.get. rewrite Hn, Hw.
    rewrite bool_decide_eq_true_2 by done. simpl. rewrite Hrun.
    pure_step. rewrite He. reflexivity.
  - intros p a Hp Ha. unfold UnbondStaking.
    pure_step. rewrite Hq. pure_step. pure_step.
    unfold Store.get. rewrite Hn, Hw.
    rewrite bool_decide_eq_true_2 by done. simpl. rewrite Hrun.
    pure_step. rewrite Hp. pure_step. rewrite Ha.
    apply reachesWallet_bind_l. unfold stakerPrivateKey. apply reachesWallet_bind.
Qed.

End UnbondStakingChecks.

(** C6, as amended: while the daemon is running, [UnbondStaking] returns an
    error directly to its caller, before any request or reply channel exists,
    performs no action and leaves the state as it was unless the record
    exists, is not watched, is in state [SENT_TO_BABYLON] and the fee rate is
    at least 1000 sat/kb.  Unbonding a watched record yields the error
    "cannot unbond watched transaction"; a fee rate of 999 sat/kb fails the fee
    check and one of 1000 sat/kb passes it (the parameter query and then the
    wallet are reached). *)
Theorem UnbondStaking_preconditions (W : World) (s : AppState) (h : Hash)
    (feeRate : option Z) :
  firedBy W (now s) = false ->
  (~ unbondPreconditions s h (effectiveFeeRate W s feeRate) ->
     exists err, rejectsWith hashErr (UnbondStaking W h feeRate s) err s) /\
  (forall tx, txTracker s !! h = Some tx -> Watched tx = true ->
     rejectsWith hashErr (UnbondStaking W h feeRate s)
       (Errorf "cannot unbond watched transaction" []) s) /\
  (forall tx, txTracker s !! h = Some tx -> Watched tx = false ->
     State tx = SENT_TO_BABYLON ->
     rejectsWith hashErr (UnbondStaking W h (Some 999) s)
       (Errorf "minimum fee rate is %d sat/kb" [1000]) s /\
     (forall e, bc_Params (envAt W (now s)) = Err e ->
        rejectsWith hashErr (UnbondStaking W h (Some 1000) s)
          (ErrorfW "cannot unbond: %w" e) s) /\
     (forall p a, bc_Params (envAt W (now s)) = Ok p ->
        btcutil_DecodeAddress (envAt W (now s)) (StakerAddress tx) = Ok a ->
        reachesWallet (UnbondStaking W h (Some 1000) s))).
Proof.
  intros Hq. split; [| split].
  - intros Hpre.
    destruct (txTracker s !! h) as [tx|] eqn:Hn.
    + destruct (Watched tx) eqn:Hw.
      { eexists. by eapply UnbondStaking_watched. }
      destruct (decide (State tx = SENT_TO_BABYLON)) as [Hst|Hst].
      * destruct (Z.lt_ge_cases (effectiveFeeRate W s feeRate) MinFeePerKb) as [Hfee|Hfee].
        { eexists. by eapply UnbondStaking_fee_low. }
        exfalso. apply Hpre. exists tx. auto.
      * eexists. by eapply UnbondStaking_wrong_state.
    + eexists. by apply UnbondStaking_not_found.
  - intros tx Hn Hw. by eapply UnbondStaking_watched.
  - intros tx Hn Hw Hst. split.
    + apply (UnbondStaking_fee_low W s h (Some 999) tx); try done.
    + apply (UnbondStaking_checks_pass W s h (Some 1000) tx); try done.
Qed.

Lemma UnbondStaking_preconditions_witness :
  let s := Sample.state 0 [Sample.record 3%N SENT_TO_BABYLON true None;
                           Sample.record 4%N SENT_TO_BABYLON false None] in
  firedBy Sample.calm (now s) = false /\
  rejectsWith hashErr (UnbondStaking Sample.calm 3%N (Some 2000) s)
    (Errorf "cannot unbond watched transaction" []) s /\
  rejectsWith hashErr (UnbondStaking Sample.calm 4%N (Some 999) s)
    (Errorf "minimum fee rate is %d sat/kb" [1000]) s /\
  reachesWallet (UnbondStaking Sample.calm 4%N (Some 1000) s) /\
  (exists err, rejectsWith hashErr (UnbondStaking Sample.calm 5%N (Some 2000) s) err s).
Proof.
  intros s.
  assert (Hq : firedBy Sample.calm (now s) = false) by reflexivity.
  split; [exact Hq | split; [| split; [| split]]].
  - apply (proj1 (proj2 (UnbondStaking_preconditions Sample.calm s 3%N (Some 2000) Hq))
             (Sample.record 3%N SENT_TO_BABYLON true None)); reflexivity.
  - apply (proj1 (proj2 (proj2
             (UnbondStaking_preconditions Sample.calm s 4%N (Some 2000) Hq))
             (Sample.record 4%N SENT_TO_BABYLON false None)
             eq_refl eq_refl eq_refl)).
  - apply (proj2 (proj2 (proj2 (proj2
             (UnbondStaking_preconditions Sample.calm s 4%N (Some 2000) Hq))
             (Sample.record 4%N SENT_TO_BABYLON false None)
             eq_refl eq_refl eq_refl)) Sample.params "staker-address"); reflexivity.
  - apply (proj1 (UnbondStaking_preconditions Sample.calm s 5%N (Some 2000) Hq)).
    intros (tx & Hn & _). vm_compute in Hn. discriminate.
Defined.

(** C6, as stated, fails: the error of a failed precondition does not come
    over the error channel of the request.  Unbonding the watched record 3
    returns "cannot unbond watched transaction" at once: no reply channel has
    been allocated, none is written (there is no action at all), and the
    state, with its empty set of channels, is as it was. *)
Lemma UnbondStaking_error_not_on_channel :
  let s := Sample.watchedRecord in
  UnbondStaking Sample.calm 3%N (Some 2000) s
  = ([], Done ((None, Some (Errorf "cannot unbond watched transaction" [])), s)) /\
  chans s = ∅ /\ nextChan s = 0%N /\
  count isReply (trace (UnbondStaking Sample.calm 3%N (Some 2000) s)) = 0%nat.
Proof. repeat split; vm_compute; reflexivity. Qed.

(** ** [select] fires the earliest case *)

Lemma earliest_spec (l : list (option Time)) :
  (earliest l = None /\ forall x, x ∈ l -> x = None) \/
  (exists m, earliest l = Some m /\ Some m ∈ l /\ forall m', Some m' ∈ l -> m <= m').
Proof.
  induction l as [|x l IH]; simpl.
  - left. split; [reflexivity |]. intros x Hx. by apply elem_of_nil in Hx.
  - destruct IH as [[He Hall] | (m & He & Hin & Hmin)]; rewrite He.
    + destruct x as [t|]; simpl.
      * right. exists t. split; [reflexivity |]. split; [apply elem_of_cons; auto |].
        intros m' Hm'. apply elem_of_cons in Hm' as [Heq | Hm'].
        -- inversion Heq. lia.
        -- apply Hall in Hm'. discriminate.
      * left. split; [reflexivity |]. intros y Hy.
        apply elem_of_cons in Hy as [-> | Hy]; auto.
    + right. destruct x as [t|]; simpl.
      * exists (Z.min t m). split; [reflexivity |]. split.
        -- destruct (Z.min_spec t m) as [[_ ->] | [_ ->]]; apply elem_of_cons; auto.
        -- intros m' Hm'. apply elem_of_cons in Hm' as [Heq | Hm'].
           ++ inversion Heq. lia.
           ++ apply Hmin in Hm'. lia.
      * exists m. split; [reflexivity |]. split; [apply elem_of_cons; auto |].
        intros m' Hm'. apply elem_of_cons in Hm' as [Heq | Hm']; [discriminate | auto].
Qed.

Lemma select_spec {B} (W : World) (cases : list (option Time * B)) (s : AppState) :
  ((forall c, c ∈ cases -> c.1 = None) /\ select W cases s = ([], Blocked)) \/
  (exists c m,
      c ∈ cases /\ fireTime (now s) c.1 = Some m /\
      (forall c' m', c' ∈ cases -> fireTime (now s) c'.1 = Some m' -> m <= m') /\
      select W cases s = ([], Done (c.2, setNow m s))).
Proof.
  unfold select.
  destruct (earliest_spec (map (fun c => fireTime (now s) c.1) cases))
    as [[He Hall] | (m & He & Hin & Hmin)]; rewrite He.
  - left. split; [| reflexivity]. intros c Hc.
    assert (Hf : fireTime (now s) c.1 = None).
    { apply Hall. apply list_elem_of_In, in_map_iff. exists c.
      split; [reflexivity | by apply list_elem_of_In]. }
    destruct (c.1); [discriminate | reflexivity].
  - right.
    apply list_elem_of_In, in_map_iff in Hin as (c0 & Hc0 & Hin0).
    apply list_elem_of_In in Hin0.
    set (ready := filter (fun c => fireTime (now s) c.1 = Some m) cases).
    assert (Hne : (0 < length ready)%nat).
    { assert (Hr : c0 ∈ ready) by (apply list_elem_of_filter; auto).
      destruct ready; [by apply elem_of_nil in Hr | simpl; lia]. }
    destruct (lookup_lt_is_Some_2 ready (pick W m mod length ready)%nat) as [c Hc].
    { apply Nat.mod_upper_bound. lia. }
    rewrite Hc. exists c, m.
    apply list_elem_of_lookup_2, list_elem_of_filter in Hc as [Hfire Hmem].
    split; [done |]. split; [done |]. split; [| reflexivity].
    intros c' m' Hc' Hf'. apply Hmin.
    apply list_elem_of_In, in_map_iff. exists c'.
    split; [done | by apply list_elem_of_In].
Qed.

Lemma unbondingSendRetryTimeout_pos : 0 < unbondingSendRetryTimeout.
Proof. reflexivity. Qed.

(** The retry [select]: the timer fires after exactly 30 seconds unless the
    quit channel is closed before; it returns on [quit] at the instant the
    channel is closed (or at once when it is closed already). *)
Lemma retryOrQuit_spec (W : World) (s : AppState) :
  (retryOrQuit W s = ([], Done (SelTimer, setNow (now s + unbondingSendRetryTimeout) s)) /\
   ~ quitFiredBefore W (now s + unbondingSendRetryTimeout)) \/
  (exists q, quitAt W = Some q /\ q <= now s + unbondingSendRetryTimeout /\
             retryOrQuit W s = ([], Done (SelQuit, setNow (Z.max q (now s)) s))).
Proof.
  unfold retryOrQuit. pure_step.
  pose proof unbondingSendRetryTimeout_pos as Hpos.
  destruct (select_spec W
    [(Some (now s + unbondingSendRetryTimeout), SelTimer); (quitAt W, SelQuit)] s)
    as [[Hall _] | (c & m & Hc & Hf & Hmin & Hsel)].
  - specialize (Hall (Some (now s + unbondingSendRetryTimeout), SelTimer)).
    simpl in Hall. discriminate Hall. apply elem_of_cons. auto.
  - rewrite Hsel.
    apply elem_of_cons in Hc as [-> | Hc].
    + left. simpl in *. injection Hf as <-.
      replace (Z.max (now s + unbondingSendRetryTimeout) (now s))
        with (now s + unbondingSendRetryTimeout) in * by lia.
      split; [reflexivity |].
      intros (q & Hq & Hlt).
      specialize (Hmin (quitAt W, SelQuit) (Z.max q (now s))).
      simpl in Hmin. rewrite Hq in Hmin. simpl in Hmin.
      assert (now s + unbondingSendRetryTimeout <= Z.max q (now s)).
      { apply Hmin; [| reflexivity]. apply elem_of_cons. right. apply elem_of_cons. auto. }
      lia.
    + apply elem_of_cons in Hc as [-> | Hc]; [| by apply elem_of_nil in Hc].
      right. simpl in *. destruct (quitAt W) as [q|]; [| discriminate].
      simpl in Hf. injection Hf as <-. exists q. split; [reflexivity |].
      split; [| reflexivity].
      specialize (Hmin (Some (now s + unbondingSendRetryTimeout), SelTimer)
                    (now s + unbondingSendRetryTimeout)).
      simpl in Hmin.
      assert (Z.max q (now s) <= now s + unbondingSendRetryTimeout).
      { apply Hmin; [apply elem_of_cons; auto |]. f_equal. lia. }
      lia.
Qed.

(** ** The unbonding broadcast and its retries *)

Lemma setNow_setNow t t' s : setNow t (setNow t' s) = setNow t s.
Proof. reflexivity. Qed.

Lemma setNow_now s : setNow (now s) s = s.
Proof. by destruct s. Qed.

Lemma retryInstant_0 t0 : retryInstant t0 0 = t0.
Proof. unfold retryInstant. simpl. lia. Qed.

Lemma retryInstant_S t0 k :
  retryInstant t0 (S k) = retryInstant (t0 + unbondingSendRetryTimeout) k.
Proof. unfold retryInstant. lia. Qed.

Lemma retryInstant_1 t0 : retryInstant t0 1 = t0 + unbondingSendRetryTimeout.
Proof. unfold retryInstant. lia. Qed.

Lemma retryInstant_add t0 a b :
  retryInstant (retryInstant t0 a) b = retryInstant t0 (a + b).
Proof. unfold retryInstant. lia. Qed.

Lemma attempts_0 f : attempts 0 f = [].
Proof. reflexivity. Qed.

Lemma attempts_S n f : attempts (S n) f = f 0%nat ++ attempts n (fun i => f (S i)).
Proof.
  unfold attempts. cbn [seq map concat]. f_equal.
  rewrite <- fmap_S_seq. unfold fmap. rewrite map_map. reflexivity.
Qed.

Lemma attempts_ext n f g :
  (forall i, (i < n)%nat -> f i = g i) -> attempts n f = attempts n g.
Proof.
  revert f g. induction n as [|n IH]; intros f g H; [reflexivity |].
  rewrite !attempts_S. f_equal; [apply H; lia |]. apply IH. intros i Hi. apply H. lia.
Qed.

(** The retry [select], as the loops use it: the timer fires, [quit] not
    having been closed before, or the wait is left by [quit]. *)
Lemma retryWait_spec (W : World) (s : AppState) :
  (retryOrQuit W s = ([], Done (SelTimer, setNow (now s + unbondingSendRetryTimeout) s)) /\
   timerFires false W (now s + unbondingSendRetryTimeout)) \/
  (exists q, quitFires false W (now s + unbondingSendRetryTimeout) q /\
             retryOrQuit W s = ([], Done (SelQuit, setNow (Z.max q (now s)) s))).
Proof.
  destruct (retryOrQuit_spec W s) as [[Ht Hnq] | (q & Hqa & Hle & Hqs)].
  - left. auto.
  - right. exists q. split; [split |]; auto.
Qed.

(** With [sure], the outcome of the wait is determined. *)
Lemma retryWait_timer (W : World) (s : AppState) :
  timerFires true W (now s + unbondingSendRetryTimeout) ->
  retryOrQuit W s = ([], Done (SelTimer, setNow (now s + unbondingSendRetryTimeout) s)).
Proof.
  intros Hn. destruct (retryOrQuit_spec W s) as [[Ht _] | (q & Hqa & Hle & _)]; [done |].
  exfalso. apply Hn. exists q. split; [done | lia].
Qed.

Lemma retryWait_quit (W : World) (s : AppState) q :
  quitFires true W (now s + unbondingSendRetryTimeout) q ->
  retryOrQuit W s = ([], Done (SelQuit, setNow (Z.max q (now s)) s)).
Proof.
  intros [Hqa Hlt].
  destruct (retryOrQuit_spec W s) as [[_ Hnq] | (q' & Hqa' & _ & Hqs)].
  - exfalso. apply Hnq. exists q. auto.
  - rewrite Hqa in Hqa'. by injection Hqa' as <-.
Qed.

Section UnbondingBroadcast.

Variable W : World.
Variables (h : Hash) (addr : Address) (stored : StoredTransaction).
Variable data : option UnbondingStoreData.

(** A broadcast attempt only talks to the wallet: it leaves the state alone. *)
Lemma sendUnbondingTxToBtcWithWitness_state s tr r s' :
  sendUnbondingTxToBtcWithWitness W h addr stored data s = (tr, Done (r, s')) ->
  s' = s.
Proof.
  unfold sendUnbondingTxToBtcWithWitness, stakerPrivateKey.
  unfold bind, UnlockWallet, DumpPrivateKey, SendRawTransaction, emit, askEnv, ret, deref,
    fatal, panic. simpl.
  destruct (wc_UnlockWallet _ _); simpl.
  { intros [= _ _ <-]. reflexivity. }
  destruct (wc_DumpPrivateKey _ _); simpl.
  2: { intros [= _ _ <-]. reflexivity. }
  destruct (createWitnessToSendUnbondingTx _ _ _ _); simpl; [| discriminate].
  destruct data; simpl; [| discriminate].
  destruct (wc_SendRawTransaction _ _); simpl; intros [= _ _ <-]; reflexivity.
Qed.

Lemma broadcastAt_run s tr r s' :
  sendUnbondingTxToBtcWithWitness W h addr stored data s = (tr, Done (r, s')) ->
  broadcastAt W h addr stored data s (now s) = Some r.
Proof.
  intros H. unfold broadcastAt, returned. rewrite setNow_now, H. reflexivity.
Qed.

Lemma broadcastAt_inv s t r :
  broadcastAt W h addr stored data s t = Some r ->
  exists tr, sendUnbondingTxToBtcWithWitness W h addr stored data (setNow t s)
             = (tr, Done (r, setNow t s)).
Proof.
  intros H. apply returned_inv in H as (tr & s' & H).
  pose proof (sendUnbondingTxToBtcWithWitness_state _ _ _ _ H) as ->. eauto.
Qed.

Lemma broadcastTrace_run s tr r s' :
  sendUnbondingTxToBtcWithWitness W h addr stored data s = (tr, Done (r, s')) ->
  broadcastTrace W h addr stored data s (now s) = tr.
Proof. intros H. unfold broadcastTrace. by rewrite setNow_now, H. Qed.

Lemma broadcastTrace_inv s t r :
  broadcastAt W h addr stored data s t = Some r ->
  sendUnbondingTxToBtcWithWitness W h addr stored data (setNow t s)
  = (broadcastTrace W h addr stored data s t, Done (r, setNow t s)).
Proof.
  intros H. apply broadcastAt_inv in H as (tr & H). unfold broadcastTrace.
  by rewrite H.
Qed.

Lemma failedBroadcasts_S s n :
  failedBroadcasts W h addr stored data s (S n)
  = broadcastTrace W h addr stored data s (now s) ++
    retryLog h ::
    failedBroadcasts W h addr stored data (setNow (now s + unbondingSendRetryTimeout) s) n.
Proof.
  unfold failedBroadcasts. rewrite attempts_S, retryInstant_0, <- app_assoc.
  f_equal. simpl. f_equal. apply attempts_ext. intros i _. simpl.
  by rewrite retryInstant_S.
Qed.

(** A broadcast attempt that succeeds has unlocked the wallet, read the key of
    the staker address and sent the unbonding transaction, with its witness,
    to a wallet that accepted it. *)
Lemma broadcastSucceedsAt_trace s t :
  broadcastSucceedsAt W h addr stored data s t ->
  exists d key witness txHash,
    data = Some d /\
    wc_UnlockWallet (envAt W t) defaultWalletUnlockTimeout = None /\
    wc_DumpPrivateKey (envAt W t) addr = Ok key /\
    createWitnessToSendUnbondingTx (envAt W t) key stored data = Ok witness /\
    wc_SendRawTransaction (envAt W t)
      (mkMsgTx (TxHash (UnbondingTx d)) (TxOuts (UnbondingTx d)) (Some witness))
    = Ok txHash /\
    broadcastTrace W h addr stored data s t
    = [WcUnlockWallet defaultWalletUnlockTimeout; WcDumpPrivateKey addr;
       WcSendRawTransaction
         (mkMsgTx (TxHash (UnbondingTx d)) (TxOuts (UnbondingTx d)) (Some witness))].
Proof.
  unfold broadcastSucceedsAt, broadcastAt, broadcastTrace, returned.
  unfold sendUnbondingTxToBtcWithWitness, stakerPrivateKey.
  unfold bind, UnlockWallet, DumpPrivateKey, SendRawTransaction, emit, askEnv, ret, deref,
    fatal, panic. simpl.
  destruct (wc_UnlockWallet _ _) eqn:Hu; simpl; [discriminate |].
  destruct (wc_DumpPrivateKey _ _) as [key|] eqn:Hk; simpl; [| discriminate].
  destruct (createWitnessToSendUnbondingTx _ _ _ _) as [witness|] eqn:Hw; simpl;
    [| discriminate].
  destruct data as [d|]; simpl; [| discriminate].
  destruct (wc_SendRawTransaction _ _) as [txHash|] eqn:Hs; simpl; [| discriminate].
  intros _. exists d, key, witness, txHash. auto 10.
Qed.

(** The first loop: the attempts are made at the instants of the schedule;
    all but the last fail; the loop is left at the first success, or by
    [quit] during the wait that follows a failure. *)
Lemma sendUnbondingTxToBtc_send_inv fuel : forall s tr b s',
  sendUnbondingTxToBtc_send W fuel h addr stored data s = (tr, Done (b, s')) ->
  exists a : nat,
    (forall i, (i < a)%nat ->
       broadcastFailsAt W h addr stored data s (retryInstant (now s) i)) /\
    (forall i, (i < a)%nat -> timerFires false W (retryInstant (now s) (S i))) /\
    if b then
      broadcastSucceedsAt W h addr stored data s (retryInstant (now s) a) /\
      s' = setNow (retryInstant (now s) a) s /\
      tr = failedBroadcasts W h addr stored data s a ++
           broadcastTrace W h addr stored data s (retryInstant (now s) a)
    else
      exists d q,
        data = Some d /\
        broadcastFailsAt W h addr stored data s (retryInstant (now s) a) /\
        quitFires false W (retryInstant (now s) (S a)) q /\
        s' = setNow (Z.max q (retryInstant (now s) a)) s /\
        tr = failedBroadcasts W h addr stored data s (S a).
Proof.
  induction fuel as [|fuel IH]; intros s tr b s' Hrun; [discriminate |].
  simpl in Hrun.
  apply bind_inv in Hrun as (t1 & err & s1 & t2 & Hatt & Hrest & ->).
  pose proof (sendUnbondingTxToBtcWithWitness_state _ _ _ _ Hatt) as ->.
  pose proof (broadcastAt_run _ _ _ _ Hatt) as Hnow.
  pose proof (broadcastTrace_run _ _ _ _ Hatt) as Htr.
  destruct err as [e|].
  - apply bind_inv in Hrest as (t3 & d & s3 & t4 & Hd & Hrest & ->).
    apply deref_inv in Hd as (Hdata & -> & ->).
    apply bind_inv in Hrest as (t5 & [] & s5 & t6 & Hemit & Hrest & ->).
    injection Hemit as <- <-.
    apply bind_inv in Hrest as (t7 & sel & s7 & t8 & Hsel & Hrest & ->).
    destruct (retryWait_spec W s) as [[Ht Hnq] | (q & Hq & Hqs)].
    + rewrite Ht in Hsel. injection Hsel as <- <- <-.
      apply IH in Hrest as (a & Hfail & Htimer & Hres).
      simpl in Hfail, Htimer, Hres.
      exists (S a). split; [| split].
      * intros [|i] Hi.
        -- exists e. by rewrite retryInstant_0.
        -- rewrite retryInstant_S. apply Hfail. lia.
      * intros [|i] Hi.
        -- by rewrite retryInstant_1.
        -- rewrite retryInstant_S. apply Htimer. lia.
      * destruct b.
        -- destruct Hres as (Hok & -> & ->).
           rewrite failedBroadcasts_S, Htr, !retryInstant_S.
           split; [exact Hok |]. split; [reflexivity |]. simpl. by rewrite <- app_assoc.
        -- destruct Hres as (d' & q & Hd' & Hf & Hq & -> & ->).
           rewrite (failedBroadcasts_S s), Htr, !retryInstant_S.
           exists d', q. split; [done |]. split; [exact Hf |].
           split; [by rewrite retryInstant_S in Hq |]. split; [reflexivity |].
           simpl. reflexivity.
    + rewrite Hqs in Hsel. injection Hsel as <- <- <-.
      apply ret_inv in Hrest as (-> & -> & ->).
      exists 0%nat. split; [intros i Hi; lia |]. split; [intros i Hi; lia |].
      exists d, q. split; [done |]. rewrite retryInstant_0, retryInstant_1.
      split; [by exists e |]. split; [exact Hq |]. split; [reflexivity |].
      rewrite failedBroadcasts_S, Htr. unfold failedBroadcasts. simpl. reflexivity.
  - apply ret_inv in Hrest as (-> & -> & ->).
    exists 0%nat. split; [intros i Hi; lia |]. split; [intros i Hi; lia |].
    rewrite retryInstant_0. split; [exact Hnow |]. split; [by rewrite setNow_now |].
    rewrite Htr. unfold failedBroadcasts. simpl. by rewrite app_nil_r.
Qed.

Lemma registerAt_Some d o t :
  TxOuts (UnbondingTx d) !! 0%nat = Some o ->
  registerAt W d t
  = Some (ntfn_RegisterConfirmationsNtfn (envAt W t) (TxHash (UnbondingTx d)) (PkScript o)
            UnbondingTxConfirmations (currentBestBlockHeight (envAt W t))) /\
  registerAction W d t
  = [NtfnRegisterConfirmations (TxHash (UnbondingTx d)) (PkScript o)
       UnbondingTxConfirmations (currentBestBlockHeight (envAt W t))].
Proof. intros Ho. unfold registerAt, registerAction. by rewrite Ho. Qed.

Lemma registerFailsAt_inv d o t :
  TxOuts (UnbondingTx d) !! 0%nat = Some o ->
  registerFailsAt W d t ->
  exists e,
    ntfn_RegisterConfirmationsNtfn (envAt W t) (TxHash (UnbondingTx d)) (PkScript o)
      UnbondingTxConfirmations (currentBestBlockHeight (envAt W t)) = Err e.
Proof.
  intros Ho (x & Hx & e & ->). destruct (registerAt_Some d o t Ho) as [Hat _].
  rewrite Hat in Hx. injection Hx as Hx. eauto.
Qed.

Lemma registerSucceedsAt_inv d o t ev :
  TxOuts (UnbondingTx d) !! 0%nat = Some o ->
  registerSucceedsAt W d t ev ->
  ntfn_RegisterConfirmationsNtfn (envAt W t) (TxHash (UnbondingTx d)) (PkScript o)
    UnbondingTxConfirmations (currentBestBlockHeight (envAt W t)) = Ok ev.
Proof.
  intros Ho Hx. unfold registerSucceedsAt in Hx.
  destruct (registerAt_Some d o t Ho) as [Hat _]. rewrite Hat in Hx. by injection Hx.
Qed.

Lemma registerSucceedsAt_output d t ev :
  registerSucceedsAt W d t ev -> exists o, TxOuts (UnbondingTx d) !! 0%nat = Some o.
Proof.
  unfold registerSucceedsAt, registerAt.
  destruct (TxOuts (UnbondingTx d) !! 0%nat); [eauto | discriminate].
Qed.

Lemma registerFailsAt_output d t :
  registerFailsAt W d t -> exists o, TxOuts (UnbondingTx d) !! 0%nat = Some o.
Proof.
  intros (x & Hx & _). unfold registerAt in Hx.
  destruct (TxOuts (UnbondingTx d) !! 0%nat); [eauto | discriminate].
Qed.

Lemma registrations_from d s a b :
  attempts (S b)
    (fun j => registerAction W d (retryInstant (retryInstant (now s) a) j))
  = registrations W d s a b.
Proof.
  unfold registrations. apply attempts_ext. intros j _.
  by rewrite retryInstant_add.
Qed.

(** The second loop, likewise. *)
Lemma sendUnbondingTxToBtc_register_inv d o fuel :
  TxOuts (UnbondingTx d) !! 0%nat = Some o ->
  forall s tr r s',
  sendUnbondingTxToBtc_register W fuel (TxHash (UnbondingTx d)) (PkScript o) s
  = (tr, Done (r, s')) ->
  exists b : nat,
    (forall j, (j < b)%nat -> registerFailsAt W d (retryInstant (now s) j)) /\
    (forall j, (j < b)%nat -> timerFires false W (retryInstant (now s) (S j))) /\
    tr = attempts (S b) (fun j => registerAction W d (retryInstant (now s) j)) /\
    match r with
    | Some ev =>
        registerSucceedsAt W d (retryInstant (now s) b) ev /\
        s' = setNow (retryInstant (now s) b) s
    | None =>
        registerFailsAt W d (retryInstant (now s) b) /\
        exists q, quitFires false W (retryInstant (now s) (S b)) q /\
                  s' = setNow (Z.max q (retryInstant (now s) b)) s
    end.
Proof.
  intros Ho.
  induction fuel as [|fuel IH]; intros s tr r s' Hrun; [discriminate |].
  simpl in Hrun.
  apply bind_inv in Hrun as (t1 & best & s1 & t2 & Hbest & Hrest & ->).
  rewrite bestBlockHeight_run in Hbest. injection Hbest as <- <- <-.
  apply bind_inv in Hrest as (t3 & reg & s3 & t4 & Hreg & Hrest & ->).
  rewrite RegisterConfirmationsNtfn_run in Hreg. injection Hreg as <- <- <-.
  destruct (registerAt_Some d o (now s) Ho) as [Hat Hact].
  destruct (ntfn_RegisterConfirmationsNtfn _ _ _ _ _) as [ev|e] eqn:Hreg.
  - apply ret_inv in Hrest as (-> & -> & ->).
    exists 0%nat. split; [intros j Hj; lia |]. split; [intros j Hj; lia |].
    rewrite attempts_S, retryInstant_0, Hact. split; [reflexivity |].
    split; [exact Hat | by rewrite setNow_now].
  - apply bind_inv in Hrest as (t7 & sel & s7 & t8 & Hsel & Hrest & ->).
    assert (Hfail0 : registerFailsAt W d (now s)).
    { eexists. split; [exact Hat |]. by exists e. }
    destruct (retryWait_spec W s) as [[Ht Hnq] | (q & Hq & Hqs)].
    + rewrite Ht in Hsel. injection Hsel as <- <- <-.
      apply IH in Hrest as (b & Hfail & Htimer & -> & Hres).
      simpl in Hfail, Htimer, Hres.
      exists (S b). split; [| split; [| split]].
      * intros [|j] Hj; [by rewrite retryInstant_0 |].
        rewrite retryInstant_S. apply Hfail. lia.
      * intros [|j] Hj; [by rewrite retryInstant_1 |].
        rewrite retryInstant_S. apply Htimer. lia.
      * rewrite (attempts_S (S b)), retryInstant_0, Hact. simpl. f_equal.
        apply attempts_ext. intros j _. by rewrite retryInstant_S.
      * rewrite !retryInstant_S. destruct r as [ev|].
        -- by rewrite setNow_setNow in Hres.
        -- destruct Hres as (Hf & q & Hq & ->). split; [exact Hf |].
           exists q. by rewrite retryInstant_S in Hq.
    + rewrite Hqs in Hsel. injection Hsel as <- <- <-.
      apply ret_inv in Hrest as (-> & -> & ->).
      exists 0%nat. split; [intros j Hj; lia |]. split; [intros j Hj; lia |].
      rewrite attempts_S, retryInstant_0, retryInstant_1, Hact.
      split; [reflexivity |]. split; [exact Hfail0 |]. exists q. auto.
Qed.

(** Enough fuel gives the result, with its trace: when the broadcast fails at
    the first [a] instants of the schedule and succeeds at the next one, every
    timer in between having fired, the first loop is left by [break] then. *)
Lemma sendUnbondingTxToBtc_send_breaks d (a : nat) : forall s fuel,
  data = Some d ->
  (a < fuel)%nat ->
  (forall i, (i < a)%nat ->
     broadcastFailsAt W h addr stored data s (retryInstant (now s) i)) ->
  broadcastSucceedsAt W h addr stored data s (retryInstant (now s) a) ->
  (forall i, (i < a)%nat -> timerFires true W (retryInstant (now s) (S i))) ->
  sendUnbondingTxToBtc_send W fuel h addr stored data s
  = (failedBroadcasts W h addr stored data s a ++
     broadcastTrace W h addr stored data s (retryInstant (now s) a),
     Done (true, setNow (retryInstant (now s) a) s)).
Proof.
  induction a as [|a IH]; intros s fuel Hd Hfuel Hfail Hok Htimer;
    (destruct fuel as [|fuel]; [lia |]); simpl.
  - rewrite retryInstant_0 in *. apply broadcastTrace_inv in Hok.
    rewrite setNow_now in Hok. erewrite bind_done by exact Hok.
    simpl. by rewrite app_nil_r, setNow_now.
  - destruct (Hfail 0%nat) as (e & He); [lia |].
    rewrite retryInstant_0 in He. apply broadcastTrace_inv in He.
    rewrite setNow_now in He. erewrite bind_done by exact He. simpl.
    erewrite bind_pure by (rewrite Hd; reflexivity).
    erewrite bind_done by reflexivity. simpl.
    erewrite bind_done; cycle 1.
    { apply retryWait_timer. rewrite <- retryInstant_1. apply Htimer. lia. }
    simpl.
    rewrite (IH (setNow (now s + unbondingSendRetryTimeout) s) fuel); try done.
    + simpl. rewrite failedBroadcasts_S, !retryInstant_S, setNow_setNow.
      simpl. by rewrite <- app_assoc.
    + lia.
    + intros i Hi. simpl. rewrite <- retryInstant_S. apply Hfail. lia.
    + simpl. by rewrite <- retryInstant_S.
    + intros i Hi. simpl. rewrite <- retryInstant_S. apply Htimer. lia.
Qed.

(** When every broadcast up to the attempt number [a] fails and [quit] is
    closed during the wait that follows it, the first loop returns nil. *)
Lemma sendUnbondingTxToBtc_send_returns d (a : nat) q : forall s fuel,
  data = Some d ->
  (a < fuel)%nat ->
  (forall i, (i <= a)%nat ->
     broadcastFailsAt W h addr stored data s (retryInstant (now s) i)) ->
  (forall i, (i < a)%nat -> timerFires true W (retryInstant (now s) (S i))) ->
  quitFires true W (retryInstant (now s) (S a)) q ->
  sendUnbondingTxToBtc_send W fuel h addr stored data s
  = (failedBroadcasts W h addr stored data s (S a),
     Done (false, setNow (Z.max q (retryInstant (now s) a)) s)).
Proof.
  induction a as [|a IH]; intros s fuel Hd Hfuel Hfail Htimer Hq;
    (destruct fuel as [|fuel]; [lia |]); simpl;
    (destruct (Hfail 0%nat) as (e & He); [lia |]);
    rewrite retryInstant_0 in He; apply broadcastTrace_inv in He;
    rewrite setNow_now in He; erewrite bind_done by exact He; simpl;
    erewrite bind_pure by (rewrite Hd; reflexivity);
    erewrite bind_done by reflexivity; simpl.
  - rewrite retryInstant_1 in Hq. erewrite bind_done by (apply retryWait_quit, Hq).
    simpl. rewrite failedBroadcasts_S, retryInstant_0. reflexivity.
  - erewrite bind_done; cycle 1.
    { apply retryWait_timer. rewrite <- retryInstant_1. apply Htimer. lia. }
    simpl.
    rewrite (IH (setNow (now s + unbondingSendRetryTimeout) s) fuel); try done.
    + simpl. rewrite (failedBroadcasts_S s), !retryInstant_S, setNow_setNow.
      reflexivity.
    + lia.
    + intros i Hi. simpl. rewrite <- retryInstant_S. apply Hfail. lia.
    + intros i Hi. simpl. rewrite <- retryInstant_S. apply Htimer. lia.
    + simpl. by rewrite <- retryInstant_S.
Qed.

Lemma sendUnbondingTxToBtc_register_registers d o ev (b : nat) :
  TxOuts (UnbondingTx d) !! 0%nat = Some o ->
  forall s fuel,
  (b < fuel)%nat ->
  (forall j, (j < b)%nat -> registerFailsAt W d (retryInstant (now s) j)) ->
  registerSucceedsAt W d (retryInstant (now s) b) ev ->
  (forall j, (j < b)%nat -> timerFires true W (retryInstant (now s) (S j))) ->
  sendUnbondingTxToBtc_register W fuel (TxHash (UnbondingTx d)) (PkScript o) s
  = (attempts (S b) (fun j => registerAction W d (retryInstant (now s) j)),
     Done (Some ev, setNow (retryInstant (now s) b) s)).
Proof.
  intros Ho.
  induction b as [|b IH]; intros s fuel Hfuel Hfail Hok Htimer;
    (destruct fuel as [|fuel]; [lia |]); simpl;
    pure_step; erewrite bind_done by apply RegisterConfirmationsNtfn_run; simpl;
    destruct (registerAt_Some d o (now s) Ho) as [_ Hact];
    rewrite attempts_S, retryInstant_0, Hact.
  - rewrite retryInstant_0 in Hok. apply (registerSucceedsAt_inv d o) in Hok; [| done].
    rewrite Hok. simpl. by rewrite setNow_now.
  - destruct (registerFailsAt_inv d o (now s) Ho) as (e & He).
    { rewrite <- (retryInstant_0 (now s)). apply Hfail. lia. }
    rewrite He.
    erewrite bind_done; cycle 1.
    { apply retryWait_timer. rewrite <- retryInstant_1. apply Htimer. lia. }
    simpl.
    rewrite (IH (setNow (now s + unbondingSendRetryTimeout) s) fuel).
    + simpl. rewrite !retryInstant_S, setNow_setNow. f_equal. f_equal.
      apply attempts_ext. intros j _. by rewrite retryInstant_S.
    + lia.
    + intros j Hj. simpl. rewrite <- retryInstant_S. apply Hfail. lia.
    + simpl. by rewrite <- retryInstant_S.
    + intros j Hj. simpl. rewrite <- retryInstant_S. apply Htimer. lia.
Qed.

Lemma sendUnbondingTxToBtc_register_returns d o q (b : nat) :
  TxOuts (UnbondingTx d) !! 0%nat = Some o ->
  forall s fuel,
  (b < fuel)%nat ->
  (forall j, (j <= b)%nat -> registerFailsAt W d (retryInstant (now s) j)) ->
  (forall j, (j < b)%nat -> timerFires true W (retryInstant (now s) (S j))) ->
  quitFires true W (retryInstant (now s) (S b)) q ->
  sendUnbondingTxToBtc_register W fuel (TxHash (UnbondingTx d)) (PkScript o) s
  = (attempts (S b) (fun j => registerAction W d (retryInstant (now s) j)),
     Done (None, setNow (Z.max q (retryInstant (now s) b)) s)).
Proof.
  intros Ho.
  induction b as [|b IH]; intros s fuel Hfuel Hfail Htimer Hq;
    (destruct fuel as [|fuel]; [lia |]); simpl;
    pure_step; erewrite bind_done by apply RegisterConfirmationsNtfn_run; simpl;
    destruct (registerAt_Some d o (now s) Ho) as [_ Hact];
    rewrite attempts_S, retryInstant_0, Hact;
    (destruct (registerFailsAt_inv d o (now s) Ho) as (e & He);
      [rewrite <- (retryInstant_0 (now s)); apply Hfail; lia |]);
    rewrite He.
  - rewrite retryInstant_1 in Hq. erewrite bind_done by (apply retryWait_quit, Hq).
    reflexivity.
  - erewrite bind_done; cycle 1.
    { apply retryWait_timer. rewrite <- retryInstant_1. apply Htimer. lia. }
    simpl.
    rewrite (IH (setNow (now s + unbondingSendRetryTimeout) s) fuel).
    + simpl. rewrite !retryInstant_S, setNow_setNow. f_equal. f_equal.
      apply attempts_ext. intros j _. by rewrite retryInstant_S.
    + lia.
    + intros j Hj. simpl. rewrite <- retryInstant_S. apply Hfail. lia.
    + intros j Hj. simpl. rewrite <- retryInstant_S. apply Htimer. lia.
    + simpl. by rewrite <- retryInstant_S.
Qed.

Lemma txOutPkScript_0 tx s tr script s' :
  txOutPkScript tx 0 s = (tr, Done (script, s')) ->
  exists o, TxOuts tx !! 0%nat = Some o /\ script = PkScript o /\ tr = [] /\ s' = s.
Proof.
  unfold txOutPkScript. change (Z.to_nat 0) with 0%nat.
  destruct (TxOuts tx !! 0%nat) as [o|]; [| discriminate].
  simpl. intros [= <- <- <-]. eauto.
Qed.

(** Every way [sendUnbondingTxToBtc] returns is one of the outcomes. *)
Lemma sendUnbondingTxToBtc_outcome fuel s tr r s' :
  sendUnbondingTxToBtc W fuel h addr stored data s = (tr, Done (r, s')) ->
  exists a b, RetryOutcome false W h addr stored data s a b tr r s'.
Proof.
  unfold sendUnbondingTxToBtc. intros Hrun.
  apply bind_inv in Hrun as (t1 & sent & s1 & t2 & Hsend & Hrest & ->).
  apply sendUnbondingTxToBtc_send_inv in Hsend as (a & Hfail & Htimer & Hres).
  destruct sent.
  - destruct Hres as (Hok & -> & ->).
    apply bind_inv in Hrest as (t3 & d & s3 & t4 & Hd & Hrest & ->).
    apply deref_inv in Hd as (Hdata & -> & ->).
    apply bind_inv in Hrest as (t5 & script & s5 & t6 & Hscript & Hrest & ->).
    apply txOutPkScript_0 in Hscript as (o & Ho & -> & -> & ->).
    apply (sendUnbondingTxToBtc_register_inv d o _ Ho) in Hrest
      as (b & Hrfail & Hrtimer & -> & Hrres).
    simpl in Hrfail, Hrtimer, Hrres.
    assert (Htimers : forall i, (i < a + b)%nat ->
              timerFires false W (retryInstant (now s) (S i))).
    { intros i Hi. destruct (decide (i < a)%nat) as [Hlt | Hge]; [by apply Htimer |].
      replace (S i) with (a + S (i - a))%nat by lia.
      rewrite <- retryInstant_add. apply Hrtimer. lia. }
    assert (Hrfails : forall j, (j < b)%nat ->
              registerFailsAt W d (retryInstant (now s) (a + j))).
    { intros j Hj. rewrite <- retryInstant_add. by apply Hrfail. }
    exists a, b. simpl. rewrite registrations_from, <- app_assoc.
    rewrite retryInstant_add in Hrres.
    destruct r as [ev|].
    + destruct Hrres as (Hrok & ->). rewrite setNow_setNow.
      apply Registered; [done | | done].
      unfold succeedsAfter. rewrite <- Hdata. auto.
    + destruct Hrres as (Hrf & q & Hq & ->). rewrite setNow_setNow.
      apply QuitWhileRegistering; try done.
      * intros j Hj. destruct (decide (j = b)) as [-> | Hne]; [done |].
        apply Hrfails. lia.
      * replace (S (a + b)) with (a + S b)%nat by lia.
        by rewrite <- retryInstant_add.
  - destruct Hres as (d & q & Hdata & Hf & Hq & -> & ->).
    apply ret_inv in Hrest as (-> & -> & ->). rewrite app_nil_r.
    exists a, 0%nat. apply QuitWhileBroadcasting with d; try done.
    intros i Hi. destruct (decide (i = a)) as [-> | Hne]; [done |]. apply Hfail. lia.
Qed.

(** With enough fuel, every outcome whose waits are determined is the way
    [sendUnbondingTxToBtc] returns. *)
Lemma sendUnbondingTxToBtc_returns fuel s a b tr r s' :
  RetryOutcome true W h addr stored data s a b tr r s' ->
  (a < fuel)%nat -> (b < fuel)%nat ->
  sendUnbondingTxToBtc W fuel h addr stored data s = (tr, Done (r, s')).
Proof.
  intros Hout Ha Hb. unfold sendUnbondingTxToBtc.
  destruct Hout as [d a b ev Hd (Hfail & Hok & Hrfail & Hrok) Htimer
                   | d a q Hd Hfail Htimer Hq
                   | d a b q Hd Hfail Hok Hrfail Htimer Hq].
  - rewrite <- Hd in Hfail, Hok.
    destruct (registerSucceedsAt_output _ _ _ Hrok) as (o & Ho).
    erewrite bind_done; cycle 1.
    { apply (sendUnbondingTxToBtc_send_breaks d a); try done.
      intros i Hi. apply Htimer. lia. }
    simpl. erewrite bind_pure by (rewrite Hd; reflexivity).
    erewrite bind_pure
      by (unfold txOutPkScript; change (Z.to_nat 0) with 0%nat; rewrite Ho; reflexivity).
    rewrite (sendUnbondingTxToBtc_register_registers d o ev b Ho).
    + simpl. by rewrite registrations_from, retryInstant_add, setNow_setNow, <- app_assoc.
    + done.
    + intros j Hj. simpl. rewrite retryInstant_add. by apply Hrfail.
    + simpl. by rewrite retryInstant_add.
    + intros j Hj. simpl. rewrite retryInstant_add.
      replace (a + S j)%nat with (S (a + j)) by lia. apply Htimer. lia.
  - erewrite bind_done by (by apply (sendUnbondingTxToBtc_send_returns d a q)).
    simpl. by rewrite app_nil_r.
  - destruct (registerFailsAt_output _ _ (Hrfail 0%nat ltac:(lia))) as (o & Ho).
    erewrite bind_done; cycle 1.
    { apply (sendUnbondingTxToBtc_send_breaks d a); try done.
      intros i Hi. apply Htimer. lia. }
    simpl. erewrite bind_pure by (rewrite Hd; reflexivity).
    erewrite bind_pure
      by (unfold txOutPkScript; change (Z.to_nat 0) with 0%nat; rewrite Ho; reflexivity).
    rewrite (sendUnbondingTxToBtc_register_returns d o q b Ho).
    + simpl. by rewrite registrations_from, retryInstant_add, setNow_setNow, <- app_assoc.
    + done.
    + intros j Hj. simpl. rewrite retryInstant_add. by apply Hrfail.
    + intros j Hj. simpl. rewrite retryInstant_add.
      replace (a + S j)%nat with (S (a + j)) by lia. apply Htimer. lia.
    + simpl. rewrite retryInstant_add. by replace (a + S b)%nat with (S (a + b)) by lia.
Qed.

Lemma retryOrQuit_quit s sel s' tr :
  retryOrQuit W s = (tr, Done (sel, s')) -> sel = SelQuit -> firedBy W (now s') = true.
Proof.
  intros Hrun ->.
  destruct (retryOrQuit_spec W s) as [[Ht _] | (q & Hqa & _ & Hqs)].
  - rewrite Ht in Hrun. discriminate.
  - rewrite Hqs in Hrun. injection Hrun as _ <-. simpl.
    unfold firedBy. rewrite Hqa. apply Z.leb_le. lia.
Qed.

(** A nil result always comes from the quit case of a retry wait. *)
Lemma sendUnbondingTxToBtc_send_false fuel : forall s tr s',
  sendUnbondingTxToBtc_send W fuel h addr stored data s = (tr, Done (false, s')) ->
  firedBy W (now s') = true.
Proof.
  induction fuel as [|fuel IH]; intros s tr s' Hrun; [discriminate |].
  simpl in Hrun.
  apply bind_inv in Hrun as (t1 & err & s1 & t2 & _ & Hrest & _).
  destruct err as [e|]; [| discriminate].
  apply bind_inv in Hrest as (t3 & d & s3 & t4 & _ & Hrest & _).
  apply bind_inv in Hrest as (t5 & [] & s5 & t6 & _ & Hrest & _).
  apply bind_inv in Hrest as (t7 & sel & s7 & t8 & Hsel & Hrest & _).
  destruct sel.
  - by eapply IH.
  - apply ret_inv in Hrest as (_ & _ & ->). by eapply retryOrQuit_quit.
Qed.

Lemma sendUnbondingTxToBtc_register_None (txh : Hash) (script : Bytes) fuel :
  forall s tr s',
  sendUnbondingTxToBtc_register W fuel txh script s = (tr, Done (None, s')) ->
  firedBy W (now s') = true.
Proof.
  induction fuel as [|fuel IH]; intros s tr s' Hrun; [discriminate |].
  simpl in Hrun.
  apply bind_inv in Hrun as (t1 & best & s1 & t2 & _ & Hrest & _).
  apply bind_inv in Hrest as (t3 & reg & s3 & t4 & _ & Hrest & _).
  destruct reg as [ev|e]; [discriminate |].
  apply bind_inv in Hrest as (t7 & sel & s7 & t8 & Hsel & Hrest & _).
  destruct sel.
  - by eapply IH.
  - apply ret_inv in Hrest as (_ & _ & ->). by eapply retryOrQuit_quit.
Qed.

Lemma sendUnbondingTxToBtc_None fuel s tr s' :
  sendUnbondingTxToBtc W fuel h addr stored data s = (tr, Done (None, s')) ->
  firedBy W (now s') = true.
Proof.
  unfold sendUnbondingTxToBtc. intros Hrun.
  apply bind_inv in Hrun as (t1 & sent & s1 & t2 & Hsend & Hrest & _).
  destruct sent.
  - apply bind_inv in Hrest as (t3 & d & s3 & t4 & _ & Hrest & _).
    apply bind_inv in Hrest as (t5 & sc & s5 & t6 & _ & Hrest & _).
    by eapply sendUnbondingTxToBtc_register_None.
  - apply ret_inv in Hrest as (_ & _ & ->).
    by eapply sendUnbondingTxToBtc_send_false.
Qed.

End UnbondingBroadcast.

(** C8, as amended: the retry timeout is 30 seconds, and [sendUnbondingTxToBtc]
    looks at [quit] only during the wait that follows a failed attempt.
    Whenever it returns, it has made its attempts at instants 30 seconds
    apart, first the broadcast until it succeeds, then the registration of
    the confirmation watch until it succeeds, every wait in between having
    ended by its timer; its actions are exactly those attempts, in order: each
    failed broadcast followed by an error log, the accepted broadcast, one
    registration call per attempt.  It returns the event of the registration
    that succeeded, or nil when the wait that follows a failed broadcast or a
    failed registration is left by [quit], closed 30 seconds after that
    failure at the latest; nil is returned at the instant [quit] is closed,
    or at once when it was closed already.  With enough fuel each of these
    outcomes whose waits are decided is what the function returns.  An
    accepted broadcast has unlocked the wallet, read the key of the staker
    address and sent the unbonding transaction with its witness.  A nil
    result is returned with [quit] closed. *)
Theorem sendUnbondingTxToBtc_retries (W : World) (h : Hash) (addr : Address)
    (stored : StoredTransaction) (data : option UnbondingStoreData)
    (fuel : nat) (s : AppState) :
  unbondingSendRetryTimeout = 30 * Second /\
  (forall tr r s',
     sendUnbondingTxToBtc W fuel h addr stored data s = (tr, Done (r, s')) ->
     exists a b, RetryOutcome false W h addr stored data s a b tr r s') /\
  (forall a b tr r s',
     RetryOutcome true W h addr stored data s a b tr r s' ->
     (a < fuel)%nat -> (b < fuel)%nat ->
     sendUnbondingTxToBtc W fuel h addr stored data s = (tr, Done (r, s'))) /\
  (forall t,
     broadcastSucceedsAt W h addr stored data s t ->
     exists d key witness txHash,
       data = Some d /\
       wc_UnlockWallet (envAt W t) defaultWalletUnlockTimeout = None /\
       wc_DumpPrivateKey (envAt W t) addr = Ok key /\
       createWitnessToSendUnbondingTx (envAt W t) key stored data = Ok witness /\
       wc_SendRawTransaction (envAt W t)
         (mkMsgTx (TxHash (UnbondingTx d)) (TxOuts (UnbondingTx d)) (Some witness))
       = Ok txHash /\
       broadcastTrace W h addr stored data s t
       = [WcUnlockWallet defaultWalletUnlockTimeout; WcDumpPrivateKey addr;
          WcSendRawTransaction
            (mkMsgTx (TxHash (UnbondingTx d)) (TxOuts (UnbondingTx d)) (Some witness))]) /\
  (forall tr s',
     sendUnbondingTxToBtc W fuel h addr stored data s = (tr, Done (None, s')) ->
     firedBy W (now s') = true).
Proof.
  split; [reflexivity |]. split; [| split; [| split]].
  - intros tr r s'. apply sendUnbondingTxToBtc_outcome.
  - intros a b tr r s'. apply sendUnbondingTxToBtc_returns.
  - intros t. apply broadcastSucceedsAt_trace.
  - intros tr s' Hrun. by eapply sendUnbondingTxToBtc_None.
Qed.

Lemma sendUnbondingTxToBtc_retries_witness :
  let s := Sample.state 0 [Sample.unbondingRecord] in
  let tx := mkMsgTx 44%N [mkTxOut 98000 []] (Some []) in
  let attempt := [WcUnlockWallet defaultWalletUnlockTimeout;
                  WcDumpPrivateKey "staker-address"; WcSendRawTransaction tx] in
  let register := NtfnRegisterConfirmations 44%N [] UnbondingTxConfirmations 110 in
  (exists tr,
     RetryOutcome true Sample.flaky 3%N "staker-address" Sample.unbondingRecord
       (Some Sample.unbonding) s 2 1 tr (Some (Sample.event 44%N None))
       (setNow (retryInstant (now s) (2 + 1)) s) /\
     sendUnbondingTxToBtc Sample.flaky 3 3%N "staker-address" Sample.unbondingRecord
       (Some Sample.unbonding) s
     = (tr, Done (Some (Sample.event 44%N None), setNow (retryInstant (now s) (2 + 1)) s)) /\
     tr = attempt ++ [retryLog 3%N] ++ attempt ++ [retryLog 3%N] ++ attempt ++
          [register; register]) /\
  (exists tr,
     RetryOutcome true Sample.failingThenQuit 3%N "staker-address" Sample.unbondingRecord
       (Some Sample.unbonding) s 1 0 tr None
       (setNow (Z.max (45 * Second) (retryInstant (now s) 1)) s) /\
     sendUnbondingTxToBtc Sample.failingThenQuit 3 3%N "staker-address"
       Sample.unbondingRecord (Some Sample.unbonding) s
     = (tr, Done (None, setNow (Z.max (45 * Second) (retryInstant (now s) 1)) s)) /\
     tr = attempt ++ [retryLog 3%N] ++ attempt ++ [retryLog 3%N]).
Proof.
  intros s tx attempt register. split.
  - assert (Hsucc : succeedsAfter Sample.flaky 3%N "staker-address" Sample.unbondingRecord
                      Sample.unbonding s 2 1 (Sample.event 44%N None)).
    { split; [| split; [| split]].
      - intros [|[|i]] Hi; [| | lia]; eexists; vm_compute; reflexivity.
      - vm_compute. reflexivity.
      - intros [|j] Hj; [| lia]. eexists. split; [vm_compute; reflexivity |].
        eexists. reflexivity.
      - vm_compute. reflexivity. }
    assert (Htimers : forall i, (i < 2 + 1)%nat ->
              timerFires true Sample.flaky (retryInstant (now s) (S i))).
    { intros i Hi (q & Hq & _). discriminate Hq. }
    pose proof (Registered true Sample.flaky 3%N "staker-address" Sample.unbondingRecord
                  (Some Sample.unbonding) s Sample.unbonding 2 1 (Sample.event 44%N None)
                  eq_refl Hsucc Htimers) as Hout.
    eexists. split; [exact Hout |]. split; [| vm_compute; reflexivity].
    apply (proj1 (proj2 (proj2
      (sendUnbondingTxToBtc_retries Sample.flaky 3%N "staker-address"
         Sample.unbondingRecord (Some Sample.unbonding) 3 s))) 2%nat 1%nat _ _ _ Hout); lia.
  - assert (Hfail : forall i, (i <= 1)%nat ->
              broadcastFailsAt Sample.failingThenQuit 3%N "staker-address"
                Sample.unbondingRecord (Some Sample.unbonding) s (retryInstant (now s) i)).
    { intros i Hi. eexists. vm_compute. reflexivity. }
    assert (Htimers : forall i, (i < 1)%nat ->
              timerFires true Sample.failingThenQuit (retryInstant (now s) (S i))).
    { intros [|i] Hi; [| lia]. intros (q & Hq & Hlt). injection Hq as <-.
      vm_compute in Hlt. discriminate. }
    assert (Hq : quitFires true Sample.failingThenQuit (retryInstant (now s) 2)
                   (45 * Second)).
    { split; [reflexivity | vm_compute; reflexivity]. }
    pose proof (QuitWhileBroadcasting true Sample.failingThenQuit 3%N "staker-address"
                  Sample.unbondingRecord (Some Sample.unbonding) s Sample.unbonding 1
                  (45 * Second) eq_refl Hfail Htimers Hq) as Hout.
    eexists. split; [exact Hout |]. split; [| vm_compute; reflexivity].
    apply (proj1 (proj2 (proj2
      (sendUnbondingTxToBtc_retries Sample.failingThenQuit 3%N "staker-address"
         Sample.unbondingRecord (Some Sample.unbonding) 3 s))) 1%nat 0%nat _ _ _ Hout); lia.
Defined.

(** C8, as stated, fails: a nil result does not follow from [quit] having been
    closed before the success.  The function is entered at instant 10, [quit]
    having been closed at instant 0; the wallet accepts the broadcast and the
    notifier the registration at the first attempt, so no retry wait is
    entered and [quit] is never looked at: the registered event is
    returned. *)
Lemma sendUnbondingTxToBtc_event_after_quit :
  quitFiredBefore Sample.stopping (now Sample.later) /\
  sendUnbondingTxToBtc Sample.stopping 1 3%N "staker-address" Sample.unbondingRecord
    (Some Sample.unbonding) Sample.later
  = ([WcUnlockWallet defaultWalletUnlockTimeout; WcDumpPrivateKey "staker-address";
      WcSendRawTransaction (mkMsgTx 44%N [mkTxOut 98000 []] (Some []));
      NtfnRegisterConfirmations 44%N [] UnbondingTxConfirmations 110],
     Done (Some (Sample.event 44%N None), Sample.later)).
Proof.
  split; [| vm_compute; reflexivity].
  exists 0. split; [reflexivity | vm_compute; reflexivity].
Qed.

(** ** Confirmation of the spend transaction *)




(** ** Who writes the store *)

Lemma keepsStore_ret {A} (a : A) : keepsStore (ret a).
Proof. intros s tr a' s' H. inversion H. reflexivity. Qed.

Lemma keepsStore_bind {A B} (m : Prog A) (f : A -> Prog B) :
  keepsStore m -> (forall a, keepsStore (f a)) -> keepsStore (bind m f).
Proof.
  intros Hm Hf s tr b s' Hrun.
  apply bind_inv in Hrun as (t1 & a & s1 & t2 & H1 & H2 & _).
  apply Hm in H1. apply Hf in H2. congruence.
Qed.

Lemma keepsStore_emit a : keepsStore (emit a).
Proof. intros s tr a' s' H. inversion H. reflexivity. Qed.

Lemma keepsStore_getState : keepsStore getState.
Proof. intros s tr a' s' H. inversion H. reflexivity. Qed.

Lemma keepsStore_fatal {A} msg : keepsStore (@fatal A msg).
Proof. intros s tr a s' Hrun. discriminate. Qed.

Lemma keepsStore_panic {A} msg : keepsStore (@panic A msg).
Proof. intros s tr a s' Hrun. discriminate. Qed.

Lemma keepsStore_blocked {A} : keepsStore (@blocked A).
Proof. intros s tr a s' Hrun. discriminate. Qed.

Lemma keepsStore_outOfFuel {A} : keepsStore (@outOfFuel A).
Proof. intros s tr a s' Hrun. discriminate. Qed.

Lemma keepsStore_askEnv W : keepsStore (askEnv W).
Proof. intros s tr a' s' H. inversion H. reflexivity. Qed.

Lemma keepsStore_quitFired W : keepsStore (quitFired W).
Proof. intros s tr a' s' H. inversion H. reflexivity. Qed.

Lemma keepsStore_GetTransaction h : keepsStore (GetTransaction h).
Proof. intros s tr a' s' H. inversion H. reflexivity. Qed.

Lemma keepsStore_select {B} W (cases : list (option Time * B)) : keepsStore (select W cases).
Proof.
  intros s tr a s' Hrun.
  destruct (select_spec W cases s) as [[_ H] | (c & m & _ & _ & _ & H)];
    rewrite H in Hrun; [discriminate |].
  inversion Hrun. reflexivity.
Qed.

Lemma keepsStore_newChan : keepsStore newChan.
Proof. intros s tr a' s' H. inversion H. reflexivity. Qed.

Lemma keepsStore_chanSend c v : keepsStore (chanSend c v).
Proof.
  intros s tr a s'. unfold chanSend. destruct (chans s !! c); [discriminate |].
  intros H. inversion H. reflexivity.
Qed.

Lemma keepsStore_chanRecv c : keepsStore (chanRecv c).
Proof.
  intros s tr a s'. unfold chanRecv. destruct (chans s !! c); [| discriminate].
  intros H. inversion H. reflexivity.
Qed.

Lemma keepsStore_pushEvent W e : keepsStore (pushEvent W e).
Proof.
  intros s tr a s'. unfold pushEvent. destruct (_ && _); [discriminate |].
  intros H. inversion H. reflexivity.
Qed.

Lemma keepsStore_PushOrQuit W e : keepsStore (PushOrQuit W e).
Proof.
  intros s tr a s'. unfold PushOrQuit.
  destruct (_ && _); intros H; inversion H; reflexivity.
Qed.

(** Decomposes a computation into its steps, none of which writes the store. *)
Ltac keeps_step :=
  first
    [ apply keepsStore_ret | apply keepsStore_emit | apply keepsStore_getState
    | apply keepsStore_fatal | apply keepsStore_panic | apply keepsStore_blocked
    | apply keepsStore_outOfFuel | apply keepsStore_askEnv | apply keepsStore_quitFired
    | apply keepsStore_GetTransaction | apply keepsStore_select
    | apply keepsStore_newChan | apply keepsStore_chanSend | apply keepsStore_chanRecv
    | apply keepsStore_pushEvent | apply keepsStore_PushOrQuit
    | assumption
    | apply keepsStore_bind; [| intros ?]
    | match goal with
      | |- keepsStore (match ?x with _ => _ end) => destruct x
      | |- keepsStore (if ?x then _ else _) => destruct x
      end ].
Ltac keeps := repeat keeps_step.

Lemma keepsStore_wallet W :
  (forall t, keepsStore (UnlockWallet W t)) /\
  (forall a, keepsStore (DumpPrivateKey W a)) /\
  (forall tx, keepsStore (SendRawTransaction W tx)) /\
  (forall outs f a, keepsStore (CreateAndSignTx W outs f a)) /\
  (forall h sc n hint, keepsStore (RegisterConfirmationsNtfn W h sc n hint)).
Proof.
  repeat split; intros;
    unfold UnlockWallet, DumpPrivateKey, SendRawTransaction, CreateAndSignTx,
      RegisterConfirmationsNtfn; keeps.
Qed.

Lemma keepsStore_stakerPrivateKey W a : keepsStore (stakerPrivateKey W a).
Proof.
  destruct (keepsStore_wallet W) as (Hu & Hd & _).
  unfold stakerPrivateKey. pose proof (Hu defaultWalletUnlockTimeout). pose proof (Hd a).
  keeps.
Qed.

Lemma keepsStore_txOutPkScript tx i : keepsStore (txOutPkScript tx i).
Proof. unfold txOutPkScript. keeps. Qed.

Lemma keepsStore_deref {A} (p : option A) : keepsStore (deref p).
Proof. unfold deref. keeps. Qed.



Lemma storeRel_keeps (R : relation (gmap N StoredTransaction)) `{!Reflexive R}
    {A} (m : Prog A) :
  keepsStore m -> storeRel R m.
Proof. intros H s tr a s' Hrun. apply H in Hrun. rewrite Hrun. reflexivity. Qed.

Lemma storeRel_bind (R : relation (gmap N StoredTransaction)) `{!Transitive R}
    {A B} (m : Prog A) (f : A -> Prog B) :
  storeRel R m -> (forall a, storeRel R (f a)) -> storeRel R (bind m f).
Proof.
  intros Hm Hf s tr b s' Hrun.
  apply bind_inv in Hrun as (t1 & a & s1 & t2 & H1 & H2 & _).
  apply Hm in H1. apply Hf in H2. by etrans.
Qed.

Lemma storeRel_storeUpdate (R : relation (gmap N StoredTransaction)) `{!Reflexive R}
    a (f : gmap N StoredTransaction -> res (gmap N StoredTransaction)) :
  (forall m m', f m = Ok m' -> R m m') -> storeRel R (storeUpdate a f).
Proof.
  intros Hf s tr r s'. unfold storeUpdate.
  destruct (f (txTracker s)) as [m|e] eqn:Hm; intros H; inversion H; subst; simpl.
  - by apply Hf.
  - reflexivity.
Qed.

Global Instance spentOnlyBy_refl ev : Reflexive (spentOnlyBy ev).
Proof. intros m h tx' Hl Hs. right. eauto. Qed.

Global Instance spentOnlyBy_trans ev : Transitive (spentOnlyBy ev).
Proof.
  intros m1 m2 m3 H12 H23 h tx3 Hl Hs.
  destruct (H23 h tx3 Hl Hs) as [-> | (tx2 & Hl2 & Hs2)]; [by left |].
  exact (H12 h tx2 Hl2 Hs2).
Qed.





Lemma keepsStore_waitForStakingTransactionConfirmation W h sc d b :
  keepsStore (waitForStakingTransactionConfirmation W h sc d b).
Proof.
  destruct (keepsStore_wallet W) as (_ & _ & _ & _ & Hr).
  unfold waitForStakingTransactionConfirmation. keeps.
Qed.

Lemma keepsStore_mustGet W h : keepsStore (mustGetTransactionAndStakerAddress W h).
Proof. unfold mustGetTransactionAndStakerAddress. keeps. Qed.


(** ** What a run does *)

Lemma trace_bind_eq {A B} (m : Prog A) (f : A -> Prog B) s :
  trace (bind m f s)
  = trace (m s) ++ match outcome (m s) with
                   | Done (a, s') => trace (f a s')
                   | _ => []
                   end.
Proof.
  unfold bind, trace, outcome. destruct (m s) as [t [[a s']| | | |]]; simpl;
    try (by rewrite app_nil_r).
  destruct (f a s'); reflexivity.
Qed.

Lemma traceAll_bind P {A B} (m : Prog A) (f : A -> Prog B) :
  traceAll P m -> (forall a, traceAll P (f a)) -> traceAll P (bind m f).
Proof.
  intros Hm Hf s. rewrite trace_bind_eq. apply Forall_app. split; [apply Hm |].
  destruct (outcome (m s)) as [[a s']| | | |]; [apply Hf | | | |]; constructor.
Qed.

Lemma traceAll_silent P {A} (m : Prog A) : (forall s, trace (m s) = []) -> traceAll P m.
Proof. intros H s. rewrite H. constructor. Qed.

Lemma traceAll_emit (P : Action -> Prop) a : P a -> traceAll P (emit a).
Proof. intros H s. simpl. by repeat constructor. Qed.

Lemma trace_select {B} W (cases : list (option Time * B)) s : trace (select W cases s) = [].
Proof.
  destruct (select_spec W cases s) as [[_ H] | (c & m & _ & _ & _ & H)]; by rewrite H.
Qed.

Lemma traceAll_pushEvent (P : Action -> Prop) W e : P (Push e) -> traceAll P (pushEvent W e).
Proof.
  intros H s. unfold pushEvent. destruct (_ && _); simpl; by repeat constructor.
Qed.

Lemma traceAll_PushOrQuit (P : Action -> Prop) W e :
  P (Push e) -> traceAll P (PushOrQuit W e).
Proof.
  intros H s. unfold PushOrQuit. destruct (_ && _); simpl; by repeat constructor.
Qed.

Lemma traceAll_chanSend (P : Action -> Prop) c v :
  (forall e, P (ChanWriteErr c e)) -> (forall h, P (ChanWriteHash c h)) ->
  traceAll P (chanSend c v).
Proof.
  intros He Hh s. unfold chanSend. destruct (chans s !! c); simpl; [constructor |].
  destruct v; by repeat constructor.
Qed.

Lemma traceAll_storeUpdate (P : Action -> Prop) a f :
  P a -> traceAll P (storeUpdate a f).
Proof.
  intros H s. unfold storeUpdate. destruct (f _); simpl; by repeat constructor.
Qed.

Lemma traceAll_primitives P W :
  (forall A (a : A), traceAll P (ret a)) /\
  traceAll P getState /\
  traceAll P (askEnv W) /\
  traceAll P (quitFired W) /\
  (forall h, traceAll P (GetTransaction h)) /\
  traceAll P newChan /\
  (forall c, traceAll P (chanRecv c)) /\
  (forall A msg, traceAll P (@fatal A msg)) /\
  (forall A msg, traceAll P (@panic A msg)) /\
  (forall A, traceAll P (@blocked A)) /\
  (forall A, traceAll P (@outOfFuel A)) /\
  (forall B (cases : list (option Time * B)), traceAll P (select W cases)).
Proof.
  repeat split; intros; apply traceAll_silent; intros s;
    try reflexivity; try apply trace_select.
  unfold chanRecv. by destruct (chans s !! c).
Qed.

(** Decomposes a computation into steps whose actions satisfy the property;
    leaves the obligations on the emitted actions. *)
Ltac trace_step W :=
  first
    [ apply (proj1 (traceAll_primitives _ W))
    | apply (proj1 (proj2 (traceAll_primitives _ W)))
    | apply (proj1 (proj2 (proj2 (traceAll_primitives _ W))))
    | apply (proj1 (proj2 (proj2 (proj2 (traceAll_primitives _ W)))))
    | apply (proj1 (proj2 (proj2 (proj2 (proj2 (traceAll_primitives _ W))))))
    | apply (proj1 (proj2 (proj2 (proj2 (proj2 (proj2 (traceAll_primitives _ W)))))))
    | apply (proj1 (proj2 (proj2 (proj2 (proj2 (proj2 (proj2
               (traceAll_primitives _ W))))))))
    | apply (proj1 (proj2 (proj2 (proj2 (proj2 (proj2 (proj2 (proj2
               (traceAll_primitives _ W)))))))))
    | apply (proj1 (proj2 (proj2 (proj2 (proj2 (proj2 (proj2 (proj2 (proj2
               (traceAll_primitives _ W))))))))))
    | apply (proj1 (proj2 (proj2 (proj2 (proj2 (proj2 (proj2 (proj2 (proj2 (proj2
               (traceAll_primitives _ W)))))))))))
    | apply (proj1 (proj2 (proj2 (proj2 (proj2 (proj2 (proj2 (proj2 (proj2 (proj2 (proj2
               (traceAll_primitives _ W))))))))))))
    | apply (proj2 (proj2 (proj2 (proj2 (proj2 (proj2 (proj2 (proj2 (proj2 (proj2 (proj2
               (traceAll_primitives _ W))))))))))))
    | apply traceAll_emit | apply traceAll_pushEvent | apply traceAll_PushOrQuit
    | apply traceAll_chanSend; intros ?
    | apply traceAll_storeUpdate
    | assumption
    | apply traceAll_bind; [| intros ?]
    | match goal with
      | |- traceAll _ (match ?x with _ => _ end) => destruct x
      | |- traceAll _ (if ?x then _ else _) => destruct x
      end ].
Ltac traces W := repeat (trace_step W).

Lemma count_app f l1 l2 : count f (l1 ++ l2) = (count f l1 + count f l2)%nat.
Proof. unfold count. by rewrite filter_app, length_app. Qed.

Lemma count_zero f l : Forall (fun a => f a = false) l -> count f l = 0%nat.
Proof.
  unfold count. induction 1 as [|a l Ha _ IH]; [reflexivity |].
  rewrite filter_cons_False; [exact IH |]. rewrite Ha. simpl. tauto.
Qed.

Lemma traceBound_bind f (a b : nat) {A B} (m : Prog A) (k : A -> Prog B) :
  traceBound f a m -> (forall x, traceBound f b (k x)) ->
  traceBound f (a + b) (bind m k).
Proof.
  intros Hm Hk s. rewrite trace_bind_eq, count_app.
  specialize (Hm s).
  destruct (outcome (m s)) as [[x s']| | | |];
    [specialize (Hk x s'); lia | | | |]; unfold count in *; simpl; lia.
Qed.

Lemma traceBound_zero f {A} (m : Prog A) :
  traceAll (fun a => f a = false) m -> traceBound f 0 m.
Proof. intros H s. rewrite count_zero; [lia | apply H]. Qed.

Lemma traceBound_chanSend f c v : traceBound f 1 (chanSend c v).
Proof.
  intros s. unfold chanSend, count. destruct (chans s !! c); simpl; [lia |].
  pose proof (length_filter f [match v with
                               | CErr e => ChanWriteErr c e
                               | CHash h => ChanWriteHash c h
                               end]). simpl in *. lia.
Qed.




(** ** The start-up reconciler *)

(** A record confirmed on Bitcoin that the coordinator does not know yet never
    lets the loop over the confirmed records go on to the next record: its
    body returns from [checkTransactionsStatus], or the process stops. *)
Lemma checkConfirmedOnBtc_never_continues (W : World) (p : StakingParams) (h : Hash)
    (s : AppState) :
  bc_IsTxAlreadyPartOfDelegation (envAt W (now s)) h = Ok false ->
  returned (checkConfirmedOnBtc W p h s) <> Some Next.
Proof.
  intros Hno. unfold checkConfirmedOnBtc.
  erewrite bind_pure by (unfold IsTxAlreadyPartOfDelegation; pure_step; reflexivity).
  rewrite Hno.
  unfold returned, outcome.
  intros Hret.
  destruct (bind _ _ s) as [tr [[c s']| | | |]] eqn:Hrun; try discriminate.
  simpl in Hret. injection Hret as ->.
  apply bind_inv in Hrun as (t1 & [tx a] & s1 & t2 & _ & Hrun & _).
  apply bind_inv in Hrun as (t3 & sc & s3 & t4 & _ & Hrun & _).
  apply bind_inv in Hrun as (t5 & r & s5 & t6 & _ & Hrun & _).
  destruct r as [[details status]|e]; [| discriminate].
  destruct status.
  - apply bind_inv in Hrun as (? & ? & ? & ? & _ & Hrun & _). discriminate.
  - apply bind_inv in Hrun as (? & ? & ? & ? & _ & Hrun & _). discriminate.
  - apply bind_inv in Hrun as (? & ? & ? & ? & _ & Hrun & _).
    apply bind_inv in Hrun as (? & ? & ? & ? & _ & Hrun & _). discriminate.
Qed.

(** C1 fails on the code.  The store holds a record confirmed on Bitcoin
    (hash 1) and a record whose unbonding has started (hash 2).  When the
    wallet still reports the first in chain, the reconciler resubmits it to the
    coordinator and returns; when the wallet no longer reports it, the
    reconciler logs and returns.  Either way the second record is never
    classified: the polling of its unbonding signatures, which the reconciler
    starts when the first record is absent, is not started. *)
Theorem checkTransactionsStatus_returns_early :
  checkTransactionsStatus Sample.restart Sample.twoRecords
  = ([CallSendDelegationWithTxToBabylon (mkSendDelegationRequest 1%N 0 None 6)],
     Done (None, Sample.twoRecords)) /\
  checkTransactionsStatus Sample.restartLost Sample.twoRecords
  = ([LogError "Already confirmed transaction not found on btc chain." 1%N],
     Done (None, Sample.twoRecords)) /\
  checkTransactionsStatus Sample.restart
    (Sample.state 0 [Sample.record 2%N UNBONDING_STARTED false None])
  = ([Go (TaskCheckForUnbondingTxSignaturesOnBabylon 2%N)],
     Done (None, Sample.state 0 [Sample.record 2%N UNBONDING_STARTED false None])).
Proof. repeat split; vm_compute; reflexivity. Qed.

(** ** Watched records *)

(** The event loop stores a watched staking request without broadcasting the
    staking transaction and without touching the wallet's keys. *)
Lemma handleStaking_watched_request (W : World) (req : stakingRequest) :
  isWatched req = true ->
  traceAll noKeyNoBroadcast (handleStakingEvent W (EvStakingRequest req)).
Proof.
  intros Hw. simpl. rewrite Hw.
  unfold bestBlockHeight, deref, AddWatchedTransaction,
    waitForStakingTransactionConfirmation, RegisterConfirmationsNtfn.
  traces W; reflexivity.
Qed.

(** [SpendStake] rejects a watched record before any access to the wallet. *)
Lemma SpendStake_watched (W : World) (h : Hash) (s : AppState) tx :
  firedBy W (now s) = false ->
  txTracker s !! h = Some tx ->
  Watched tx = true ->
  rejectsWith spendErr (SpendStake W h s)
    (Errorf "cannot spend staking which which is in watch only mode" []) s.
Proof.
  intros Hq Hn Hw. unfold rejectsWith, SpendStake.
  pure_step. rewrite Hq. pure_step.
  unfold Store.get. rewrite Hn, Hw. reflexivity.
Qed.

(** The broadcast of the unbonding transaction unlocks the wallet and asks for
    the staker's private key, whatever the record. *)
Lemma sendUnbondingTxToBtcWithWitness_dumps_key (W : World) h addr stored data s :
  wc_UnlockWallet (envAt W (now s)) defaultWalletUnlockTimeout = None ->
  exists rest,
    trace (sendUnbondingTxToBtcWithWitness W h addr stored data s)
    = WcUnlockWallet defaultWalletUnlockTimeout :: WcDumpPrivateKey addr :: rest.
Proof.
  intros Hu. unfold sendUnbondingTxToBtcWithWitness, stakerPrivateKey.
  rewrite !trace_bind_eq. rewrite UnlockWallet_run. simpl. rewrite Hu.
  rewrite trace_bind_eq, DumpPrivateKey_run. simpl. eauto.
Qed.

(** What the daemon guards, in general. *)
Lemma watched_record_guards :
  (forall W req, isWatched req = true ->
     traceAll noKeyNoBroadcast (handleStakingEvent W (EvStakingRequest req))) /\
  (forall W h feeRate s tx,
     firedBy W (now s) = false -> txTracker s !! h = Some tx -> Watched tx = true ->
     rejectsWith hashErr (UnbondStaking W h feeRate s)
       (Errorf "cannot unbond watched transaction" []) s /\
     rejectsWith spendErr (SpendStake W h s)
       (Errorf "cannot spend staking which which is in watch only mode" []) s).
Proof.
  split.
  - apply handleStaking_watched_request.
  - intros W h feeRate s tx Hq Hn Hw. split.
    + by eapply UnbondStaking_watched.
    + by eapply SpendStake_watched.
Qed.

(** C2 fails on the code.  The three operations the daemon guards behave as
    stated: on the sample store, [UnbondStaking] and [SpendStake] reject the
    watched record before any action.  But the recovery path has no such
    guard: the watched record, sent to the coordinator, for which the
    coordinator reports an undelegation at restart, is moved to
    [UNBONDING_STARTED] by the reconciler and the event loop; when its
    unbonding signatures arrive the event loop starts the broadcast task,
    which unlocks the wallet and dumps the private key of the staker address
    of the watched record. *)
Theorem watched_record_key_dumped_after_restart :
  txTracker Sample.watchedRecord !! 3%N
  = Some (Sample.record 3%N SENT_TO_BABYLON true None) /\
  rejectsWith hashErr (UnbondStaking Sample.restartUndelegated 3%N None Sample.watchedRecord)
    (Errorf "cannot unbond watched transaction" []) Sample.watchedRecord /\
  rejectsWith spendErr (SpendStake Sample.restartUndelegated 3%N Sample.watchedRecord)
    (Errorf "cannot spend staking which which is in watch only mode" [])
    Sample.watchedRecord /\
  filter (fun a => isKeyOrBroadcast a)
    (restartThenSignatures Sample.restartUndelegated 1
       (mkUnbondingSignaturesConfirmed 3%N [] []) Sample.watchedRecord)
  = [WcUnlockWallet 15; WcDumpPrivateKey "staker-address";
     WcSendRawTransaction (mkMsgTx 44%N [mkTxOut 98000 []] (Some []))].
Proof. repeat split; vm_compute; reflexivity. Qed.

(** ** Replies to requests, and the quit signal *)

Lemma traceBound_le f (n n' : nat) {A} (m : Prog A) :
  (n <= n')%nat -> traceBound f n m -> traceBound f n' m.
Proof. intros Hle H s. specialize (H s). lia. Qed.

(** One iteration of the event loop writes at most one per-request reply
    channel. *)
Lemma handleStakingEvent_one_reply (W : World) (ev : Event) :
  traceBound isReply 1 (handleStakingEvent W ev).
Proof.
  assert (Hsilent : forall A (m : Prog A), traceAll noReply m -> traceBound isReply 1 m).
  { intros A m H. apply (traceBound_le _ 0); [lia |]. by apply traceBound_zero. }
  destruct ev; simpl.
  - apply (traceBound_bind _ 0 1).
    { apply traceBound_zero. unfold bestBlockHeight. traces W. }
    intros best. apply (traceBound_bind _ 0 1).
    { apply traceBound_zero.
      unfold deref, AddWatchedTransaction, AddTransaction, SendRawTransaction.
      traces W; reflexivity. }
    intros [err|]; [apply traceBound_chanSend |].
    apply (traceBound_bind _ 0 1).
    { apply traceBound_zero.
      unfold waitForStakingTransactionConfirmation, RegisterConfirmationsNtfn.
      traces W; reflexivity. }
    intros [err|]; apply traceBound_chanSend.
  - apply Hsilent. unfold SetTxConfirmed, sendDelegationWithTxToBabylon.
    traces W; reflexivity.
  - apply Hsilent. unfold SetTxSentToBabylon. traces W; reflexivity.
  - apply Hsilent. unfold SetTxSpentOnBtc. traces W; reflexivity.
  - apply (traceBound_bind _ 0 1).
    { apply traceBound_zero. unfold SetTxUnbondingStarted. traces W; reflexivity. }
    intros [err|]; [apply Hsilent; traces W |].
    apply (traceBound_bind _ 0 1).
    { apply traceBound_zero. traces W; reflexivity. }
    intros _. apply traceBound_chanSend.
  - apply Hsilent.
    unfold SetTxUnbondingSignaturesReceived, mustGetTransactionAndStakerAddress.
    traces W; reflexivity.
  - apply Hsilent. unfold SetTxUnbondingConfirmedOnBtc. traces W; reflexivity.
Qed.

Lemma StakeFunds_quit (W : World) addr amount pk t s :
  firedBy W (now s) = true ->
  StakeFunds W addr amount pk t s = ([], Done ((None, None), s)).
Proof. intros Hq. unfold StakeFunds. pure_step. by rewrite Hq. Qed.

Lemma UnbondStaking_quit (W : World) h feeRate s :
  firedBy W (now s) = true ->
  UnbondStaking W h feeRate s = ([], Done ((None, None), s)).
Proof. intros Hq. unfold UnbondStaking. pure_step. by rewrite Hq. Qed.

Lemma SpendStake_quit (W : World) h s :
  firedBy W (now s) = true ->
  SpendStake W h s = ([], Done ((None, None, None), s)).
Proof. intros Hq. unfold SpendStake. pure_step. by rewrite Hq. Qed.

(** The closing [select] returns the null result when the event loop wrote
    neither reply channel and [quit] is closed. *)
Lemma selectReply_quit (W : World) (errChan successChan : ChanId) (s : AppState) q :
  chans s !! errChan = None ->
  chans s !! successChan = None ->
  quitAt W = Some q ->
  selectReply W errChan successChan s = ([], Done ((None, None), setNow (Z.max q (now s)) s)).
Proof.
  intros He Hs Hq. unfold selectReply. pure_step.
  unfold chanReady. rewrite He, Hs, Hq.
  destruct (select_spec W
    [(None, SelErrChan); (None, SelSuccessChan); (Some q, SelQuitChan)] s)
    as [[Hall _] | (c & m & Hc & Hf & _ & Hsel)].
  - specialize (Hall (Some q, SelQuitChan)). simpl in Hall. discriminate Hall.
    apply elem_of_cons. right. apply elem_of_cons. right. apply elem_of_cons. auto.
  - erewrite bind_done by exact Hsel.
    apply elem_of_cons in Hc as [-> | Hc]; [discriminate |].
    apply elem_of_cons in Hc as [-> | Hc]; [discriminate |].
    apply elem_of_cons in Hc as [-> | Hc]; [| by apply elem_of_nil in Hc].
    simpl in *. injection Hf as <-. reflexivity.
Qed.

(** What holds of the other operations, in general. *)
Lemma requests_after_quit :
  (forall W s, firedBy W (now s) = true ->
     (forall addr amount pk t,
        StakeFunds W addr amount pk t s = ([], Done ((None, None), s))) /\
     (forall h feeRate, UnbondStaking W h feeRate s = ([], Done ((None, None), s))) /\
     (forall h, SpendStake W h s = ([], Done ((None, None, None), s)))) /\
  (forall W errChan successChan s q,
     chans s !! errChan = None -> chans s !! successChan = None ->
     quitAt W = Some q ->
     returned (selectReply W errChan successChan s) = Some (None, None)) /\
  (forall W ev, traceBound isReply 1 (handleStakingEvent W ev)).
Proof.
  split; [| split].
  - intros W s Hq. repeat split; intros.
    + by apply StakeFunds_quit.
    + by apply UnbondStaking_quit.
    + by apply SpendStake_quit.
  - intros W errChan successChan s q He Hs Hq.
    by rewrite (selectReply_quit W errChan successChan s q).
  - apply handleStakingEvent_one_reply.
Qed.

(** C9 fails on the code for [WatchStaking].  With [quit] closed,
    [StakeFunds], [UnbondStaking] and [SpendStake] return the null result with
    a nil error.  [WatchStaking] has no check of [quit] on entry: called after
    [quit] was closed it returns an error when the parameter query fails, and
    with a valid request it parks forever on the send to the event loop, which
    has returned. *)
Theorem WatchStaking_after_quit :
  firedBy Sample.stopping (now Sample.later) = true /\
  firedBy Sample.stoppingNoParams (now Sample.later) = true /\
  StakeFunds Sample.stopping "staker-address" 100000 7%N 1000 Sample.later
  = ([], Done ((None, None), Sample.later)) /\
  UnbondStaking Sample.stopping 3%N None Sample.later
  = ([], Done ((None, None), Sample.later)) /\
  SpendStake Sample.stopping 3%N Sample.later
  = ([], Done ((None, None, None), Sample.later)) /\
  WatchStaking Sample.stoppingNoParams (Sample.tx 8%N) [] (Sample.tx 9%N) [] 5%N
    "staker-address" None Sample.later
  = ([], Done ((None,
                Some (ErrorfW "failed to watch staking tx. Failed to get params: %w"
                        (ErrExternal 1))), Sample.later)) /\
  WatchStaking Sample.stopping (Sample.tx 8%N) [] (Sample.tx 9%N) [] 5%N
    "staker-address" None Sample.later
  = ([], Blocked).
Proof. repeat split; vm_compute; reflexivity. Qed.

(** * Properties of the rest of the daemon *)

(** ** Concrete runs *)

Lemma state_lookup (t : Time) (rs : list StoredTransaction) (h : Hash)
    (tx : StoredTransaction) :
  txTracker (Sample.state t rs) !! h = Some tx ->
  (h, tx) ∈ map (fun r => (TxHash (StakingTx r), r)) rs.
Proof. apply elem_of_list_to_map_2. Qed.

(** Evaluates the run [Hrun : m s = (tr, r)] on concrete data. *)
Ltac evaluate Hrun :=
  let Hc := fresh "Hc" in
  pose proof Hrun as Hc; vm_compute in Hc;
  let Htr := fresh "Htr" in let Hr := fresh "Hr" in
  injection Hc as Htr Hr; subst.

Ltac member := repeat constructor.

Lemma freshChans_state (t : Time) (rs : list StoredTransaction) :
  freshChans (Sample.state t rs).
Proof. intros c _. apply lookup_empty. Qed.

(** ** The reconciler keeps the store *)

Ltac keeps_more := repeat first [ solve [auto] | keeps_step ].

Lemma keepsStore_forRange {A} (body : A -> Prog LoopCtl) (l : list A) :
  (forall x, keepsStore (body x)) -> keepsStore (forRange body l).
Proof.
  intros H. induction l as [|x l IH]; simpl; [apply keepsStore_ret |].
  apply keepsStore_bind; [apply H |]. intros [|e]; [exact IH | apply keepsStore_ret].
Qed.

Lemma traceAll_forRange P {A} (body : A -> Prog LoopCtl) (l : list A) :
  (forall x, traceAll P (body x)) -> traceAll P (forRange body l).
Proof.
  intros H. induction l as [|x l IH]; simpl.
  - apply traceAll_silent. reflexivity.
  - apply traceAll_bind; [apply H |]. intros [|e]; [exact IH |].
    apply traceAll_silent. reflexivity.
Qed.

Lemma keepsStore_handleBtcTxInfo W h txInfo p best st info :
  keepsStore (handleBtcTxInfo W h txInfo p best st info).
Proof.
  pose proof (keepsStore_waitForStakingTransactionConfirmation W).
  pose proof keepsStore_txOutPkScript. pose proof (@keepsStore_deref TxConfirmation).
  unfold handleBtcTxInfo. keeps_more.
Qed.

Lemma keepsStore_checkSentToBtc W p h : keepsStore (checkSentToBtc W p h).
Proof.
  pose proof (keepsStore_handleBtcTxInfo W). pose proof (keepsStore_mustGet W).
  pose proof keepsStore_txOutPkScript.
  unfold checkSentToBtc, TxDetails, bestBlockHeight. keeps_more.
Qed.

Lemma keepsStore_checkConfirmedOnBtc W p h : keepsStore (checkConfirmedOnBtc W p h).
Proof.
  pose proof (keepsStore_mustGet W).
  pose proof keepsStore_txOutPkScript. pose proof (@keepsStore_deref TxConfirmation).
  unfold checkConfirmedOnBtc, TxDetails, IsTxAlreadyPartOfDelegation,
    sendDelegationWithTxToBabylon. keeps_more.
Qed.

Lemma keepsStore_checkOnBabylon W i : keepsStore (checkOnBabylon W i).
Proof.
  pose proof (keepsStore_mustGet W).
  pose proof keepsStore_txOutPkScript. pose proof (@keepsStore_deref TxConfirmation).
  pose proof (@keepsStore_deref UnbondingStoreData).
  destruct (keepsStore_wallet W) as (_ & _ & _ & _ & Hr).
  unfold checkOnBabylon, TxDetails, QueryDelegationInfo, bestBlockHeight. keeps_more.
Qed.

Lemma keepsStore_checkTransactionsStatus W : keepsStore (checkTransactionsStatus W).
Proof.
  unfold checkTransactionsStatus, Params, ScanTrackedTransactions.
  apply keepsStore_bind; [keeps |]. intros [p|e]; [| keeps].
  apply keepsStore_bind; [keeps |]. intros [lists|e]; [| keeps].
  apply keepsStore_bind;
    [apply keepsStore_forRange, keepsStore_checkSentToBtc |].
  intros [|e]; [| keeps].
  apply keepsStore_bind;
    [apply keepsStore_forRange, keepsStore_checkConfirmedOnBtc |].
  intros [|e]; [| keeps].
  apply keepsStore_bind;
    [apply keepsStore_forRange, keepsStore_checkOnBabylon |].
  intros [|e]; keeps.
Qed.

(** ** The scan of the store *)

Ltac state_mem :=
  solve [ repeat constructor
        | let H := fresh in
          intros H; repeat (apply elem_of_cons in H as [H|H]; [discriminate H |]);
          apply elem_of_nil in H; exact H ].

Ltac filter_head sts Hst :=
  first [ rewrite (filter_cons_True (stateIn sts))
            by (unfold stateIn; rewrite Hst; state_mem)
        | rewrite (filter_cons_False (stateIn sts))
            by (unfold stateIn; rewrite Hst; state_mem) ].

Lemma scanFold_worklists (txs : list StoredTransaction) : forall acc,
  Forall knownState txs ->
  scanFold acc txs
  = Ok (mkScanned
          (transactionsSentToBtc acc ++ transactionsSentToBtc (worklists txs))
          (transactionConfirmedOnBtc acc ++ transactionConfirmedOnBtc (worklists txs))
          (transactionsOnBabylon acc ++ transactionsOnBabylon (worklists txs))).
Proof.
  induction txs as [|tx txs IH]; intros acc Hk.
  - simpl. rewrite !app_nil_r. by destruct acc.
  - apply Forall_cons in Hk as [Hk Hks]. cbn [scanFold].
    unfold worklists. cbn [transactionsSentToBtc transactionConfirmedOnBtc
                             transactionsOnBabylon].
    unfold scanVisit.
    destruct (State tx) eqn:Hst;
      try (by specialize (Hk tag));
      rewrite IH by done; unfold worklists;
      filter_head [SENT_TO_BTC] Hst; filter_head [CONFIRMED_ON_BTC] Hst;
      filter_head [SENT_TO_BABYLON; UNBONDING_STARTED; UNBONDING_SIGNATURES_RECEIVED] Hst;
      cbn [transactionsSentToBtc transactionConfirmedOnBtc transactionsOnBabylon map];
      unfold txid; rewrite ?Hst, <- ?app_assoc; destruct acc; reflexivity.
Qed.

Lemma scanFold_unknown (txs : list StoredTransaction) : forall acc tx tag,
  tx ∈ txs -> State tx = UNKNOWN_STATE tag ->
  exists tx' tag', tx' ∈ txs /\ State tx' = UNKNOWN_STATE tag' /\
                   scanFold acc txs = Err (errUnknownState tag').
Proof.
  induction txs as [|x txs IH]; intros acc tx tag Hin Hst.
  - by apply elem_of_nil in Hin.
  - simpl. destruct (scanVisit acc x) as [acc'|e] eqn:Hv.
    + apply elem_of_cons in Hin as [-> | Hin].
      { unfold scanVisit in Hv. rewrite Hst in Hv. discriminate. }
      destruct (IH acc' tx tag Hin Hst) as (tx' & tag' & Hin' & Hst' & Hr).
      exists tx', tag'. split; [apply elem_of_cons; auto | auto].
    + unfold scanVisit in Hv. destruct (State x) eqn:Hx; try discriminate.
      injection Hv as <-. exists x, tag0. split; [apply elem_of_cons; auto | auto].
Qed.

Lemma scan_lookup (m : gmap N StoredTransaction) (tx : StoredTransaction) :
  tx ∈ Store.scan m <-> exists h, m !! h = Some tx.
Proof.
  unfold Store.scan. rewrite list_elem_of_fmap. split.
  - intros ([h tx'] & -> & Hin). apply elem_of_map_to_list in Hin. eauto.
  - intros (h & Hl). exists (h, tx). split; [reflexivity |].
    by apply elem_of_map_to_list.
Qed.

Lemma ScanTrackedTransactions_run s :
  ScanTrackedTransactions s
  = ([], Done (scanFold (mkScanned [] [] []) (Store.scan (txTracker s)), s)).
Proof. reflexivity. Qed.

Lemma forRange_run {A} (body : A -> Prog LoopCtl) (f : A -> list Action) (s : AppState) :
  forall l, (forall x, x ∈ l -> body x s = (f x, Done (Next, s))) ->
  forRange body l s = (concat (map f l), Done (Next, s)).
Proof.
  induction l as [|x l IH]; intros H; [reflexivity |].
  simpl. erewrite bind_done by (apply H; apply elem_of_cons; auto). simpl.
  rewrite IH; [reflexivity |]. intros y Hy. apply H. apply elem_of_cons. auto.
Qed.

(** ** What the reconciler does *)

Ltac traces_more W := repeat first [ solve [auto] | trace_step W ].

Lemma traceAll_reconciler_wait W h sc d b :
  traceAll reconcilerAction (waitForStakingTransactionConfirmation W h sc d b).
Proof.
  unfold waitForStakingTransactionConfirmation, RegisterConfirmationsNtfn.
  traces_more W; exact I.
Qed.

Lemma traceAll_txOutPkScript P (W : World) tx i : traceAll P (txOutPkScript tx i).
Proof. unfold txOutPkScript. traces_more W. Qed.

Lemma traceAll_deref P (W : World) {A} (p : option A) : traceAll P (deref p).
Proof. unfold deref. traces_more W. Qed.

Lemma traceAll_mustGet P W h : traceAll P (mustGetTransactionAndStakerAddress W h).
Proof. unfold mustGetTransactionAndStakerAddress. traces_more W. Qed.

Lemma traceAll_reconciler_handleBtcTxInfo W h txInfo p best st info :
  traceAll reconcilerAction (handleBtcTxInfo W h txInfo p best st info).
Proof.
  pose proof (traceAll_reconciler_wait W).
  pose proof (traceAll_txOutPkScript reconcilerAction W).
  pose proof (fun A => @traceAll_deref reconcilerAction W A).
  unfold handleBtcTxInfo. traces_more W; exact I.
Qed.

Lemma traceAll_reconciler_checkSentToBtc W p h :
  traceAll reconcilerAction (checkSentToBtc W p h).
Proof.
  pose proof (traceAll_reconciler_handleBtcTxInfo W).
  pose proof (traceAll_txOutPkScript reconcilerAction W).
  pose proof (traceAll_mustGet reconcilerAction W).
  unfold checkSentToBtc, TxDetails, bestBlockHeight. traces_more W.
Qed.

Lemma traceAll_reconciler_checkConfirmedOnBtc W p h :
  traceAll reconcilerAction (checkConfirmedOnBtc W p h).
Proof.
  pose proof (traceAll_txOutPkScript reconcilerAction W).
  pose proof (traceAll_mustGet reconcilerAction W).
  pose proof (fun A => @traceAll_deref reconcilerAction W A).
  unfold checkConfirmedOnBtc, TxDetails, IsTxAlreadyPartOfDelegation,
    sendDelegationWithTxToBabylon.
  traces_more W; exact I.
Qed.

Lemma traceAll_reconciler_checkOnBabylon W i :
  traceAll reconcilerAction (checkOnBabylon W i).
Proof.
  pose proof (traceAll_txOutPkScript reconcilerAction W).
  pose proof (traceAll_mustGet reconcilerAction W).
  pose proof (fun A => @traceAll_deref reconcilerAction W A).
  unfold checkOnBabylon, TxDetails, QueryDelegationInfo, bestBlockHeight,
    RegisterConfirmationsNtfn.
  traces_more W; exact I.
Qed.

(** X1: the start-up reconciler only reads the store.  A run of
    [checkTransactionsStatus] that returns leaves the tracked transactions as
    they were; and in every run, however it ends, the only actions are error
    logs, registrations of confirmation watches, calls to the delegation
    sender, started tasks and events pushed to the event loop: the wallet is
    never unlocked, no key is read and nothing is broadcast. *)
Theorem checkTransactionsStatus_read_only (W : World) :
  keepsStore (checkTransactionsStatus W) /\
  traceAll reconcilerAction (checkTransactionsStatus W).
Proof.
  split; [apply keepsStore_checkTransactionsStatus |].
  unfold checkTransactionsStatus, Params, ScanTrackedTransactions.
  apply traceAll_bind; [traces_more W |]. intros [p|e]; [| traces_more W].
  apply traceAll_bind; [traces_more W |]. intros [lists|e]; [| traces_more W].
  apply traceAll_bind;
    [apply traceAll_forRange, traceAll_reconciler_checkSentToBtc |].
  intros [|e]; [| traces_more W].
  apply traceAll_bind;
    [apply traceAll_forRange, traceAll_reconciler_checkConfirmedOnBtc |].
  intros [|e]; [| traces_more W].
  apply traceAll_bind;
    [apply traceAll_forRange, traceAll_reconciler_checkOnBabylon |].
  intros [|e]; traces_more W.
Qed.

(** X2: a record in a state the daemon does not know stops the reconciler at
    the scan of the store: once the parameter query is answered,
    [checkTransactionsStatus] returns the error "unknown transaction state: %d"
    of such a record, without any action and without touching the state,
    whatever else the store holds. *)
Theorem checkTransactionsStatus_unknown_state (W : World) (s : AppState)
    (p : StakingParams) (h : Hash) (tx : StoredTransaction) (tag : Z) :
  bc_Params (envAt W (now s)) = Ok p ->
  txTracker s !! h = Some tx ->
  State tx = UNKNOWN_STATE tag ->
  exists tx' tag',
    tx' ∈ Store.scan (txTracker s) /\ State tx' = UNKNOWN_STATE tag' /\
    checkTransactionsStatus W s = ([], Done (Some (errUnknownState tag'), s)).
Proof.
  intros Hp Hl Hst.
  destruct (scanFold_unknown (Store.scan (txTracker s)) (mkScanned [] [] []) tx tag)
    as (tx' & tag' & Hin & Hst' & Hscan); [apply scan_lookup; eauto | done |].
  exists tx', tag'. split; [done |]. split; [done |].
  unfold checkTransactionsStatus. pure_step. rewrite Hp.
  erewrite bind_pure by apply ScanTrackedTransactions_run.
  rewrite Hscan. reflexivity.
Qed.

Lemma checkTransactionsStatus_unknown_state_witness :
  let s := Example.corrupted in
  let tx := Sample.record 1%N (UNKNOWN_STATE 9) false None in
  bc_Params (envAt Sample.calm (now s)) = Ok Sample.params /\
  txTracker s !! 1%N = Some tx /\
  exists tx' tag',
    tx' ∈ Store.scan (txTracker s) /\ State tx' = UNKNOWN_STATE tag' /\
    checkTransactionsStatus Sample.calm s = ([], Done (Some (errUnknownState tag'), s)).
Proof.
  intros s tx.
  assert (Hl : txTracker s !! 1%N = Some tx) by (vm_compute; reflexivity).
  split; [reflexivity |]. split; [exact Hl |].
  exact (checkTransactionsStatus_unknown_state Sample.calm s Sample.params 1%N tx 9
           eq_refl Hl eq_refl).
Defined.

Lemma filter_none {A} (P : A -> Prop) `{!forall x, Decision (P x)} (l : list A) :
  (forall x, x ∈ l -> ~ P x) -> filter P l = [].
Proof.
  induction l as [|x l IH]; intros Hno; [reflexivity |].
  rewrite filter_cons_False by (apply Hno; apply elem_of_cons; auto).
  apply IH. intros y Hy. apply Hno. apply elem_of_cons. auto.
Qed.

Lemma checkSentToBtc_lost (W : World) (p : StakingParams) (s : AppState) (h : Hash)
    (tx : StoredTransaction) :
  txTracker s !! h = Some tx ->
  lostInWallet (envAt W (now s)) h tx ->
  checkSentToBtc W p h s = ([logLost h], Done (Next, s)).
Proof.
  intros Hl (Hst & Hid & (addr & Haddr) & o & details & Hidx & Ho & Hd).
  unfold checkSentToBtc.
  erewrite bind_pure; cycle 1.
  { unfold mustGetTransactionAndStakerAddress. pure_step.
    unfold Store.get. rewrite Hl. pure_step. rewrite Haddr. reflexivity. }
  cbv beta iota. erewrite bind_pure; cycle 1.
  { unfold txOutPkScript. rewrite Ho.
    destruct (Z.leb_spec 0 (StakingOutputIndex tx)); [reflexivity | lia]. }
  erewrite bind_pure by (unfold TxDetails; pure_step; reflexivity).
  rewrite Hd. pure_step. reflexivity.
Qed.

Lemma checkOnBabylon_in_sync (W : World) (s : AppState) (h : Hash) info :
  bc_QueryDelegationInfo (envAt W (now s)) h = Ok info ->
  UndelegationInfo info = None ->
  checkOnBabylon W (mkStakingDbInfo h SENT_TO_BABYLON) s = ([], Done (Next, s)).
Proof.
  intros Hq Hu. unfold checkOnBabylon. simpl.
  erewrite bind_pure by (unfold QueryDelegationInfo; pure_step; reflexivity).
  rewrite Hq, Hu. reflexivity.
Qed.

(** X3: when every tracked record is either settled (unbonding confirmed,
    spent, or delegated with no undelegation reported by the coordinator) or
    was sent to Bitcoin and is not known to the wallet, the reconciler resumes
    nothing: it returns nil, leaves the state as it was, and its only actions
    are one error log per lost transaction, in the order of the scan. *)
Theorem checkTransactionsStatus_nothing_to_resume (W : World) (s : AppState)
    (p : StakingParams) :
  bc_Params (envAt W (now s)) = Ok p ->
  (forall h tx, txTracker s !! h = Some tx ->
     settled (envAt W (now s)) tx \/ lostInWallet (envAt W (now s)) h tx) ->
  checkTransactionsStatus W s
  = (map logLost (map txid (filter (stateIn [SENT_TO_BTC]) (Store.scan (txTracker s)))),
     Done (None, s)).
Proof.
  intros Hp Hall.
  set (txs := Store.scan (txTracker s)).
  assert (Htx : forall tx, tx ∈ txs ->
            exists h, txTracker s !! h = Some tx /\
              (settled (envAt W (now s)) tx \/ lostInWallet (envAt W (now s)) h tx)).
  { intros tx Hin. apply scan_lookup in Hin as (h & Hl). eauto. }
  assert (Hknown : Forall knownState txs).
  { apply Forall_forall. intros tx Hin tag Hst.
    destruct (Htx tx Hin) as (h & _ & [[H | [H | [H _]]] | [H _]]); congruence. }
  unfold checkTransactionsStatus. pure_step. rewrite Hp.
  erewrite bind_pure by apply ScanTrackedTransactions_run.
  fold txs. rewrite scanFold_worklists by done. simpl.
  assert (Hconf : filter (stateIn [CONFIRMED_ON_BTC]) txs = []).
  { apply filter_none. intros tx Hin Hst. unfold stateIn in Hst.
    apply list_elem_of_singleton in Hst.
    destruct (Htx tx Hin) as (h & _ & [[H | [H | [H _]]] | [H _]]); congruence. }
  rewrite Hconf. simpl.
  erewrite bind_done; cycle 1.
  { apply (forRange_run _ (fun h => [logLost h])). intros h Hh.
    apply list_elem_of_fmap in Hh as (tx & -> & Hin).
    apply list_elem_of_filter in Hin as [Hst Hin]. unfold stateIn in Hst.
    apply list_elem_of_singleton in Hst.
    destruct (Htx tx Hin) as (h & Hl & [[H | [H | [H _]]] | Hlost]); try congruence.
    assert (txid tx = h) as -> by apply Hlost.
    by apply checkSentToBtc_lost with tx. }
  simpl. erewrite bind_pure by reflexivity. cbv beta iota.
  erewrite bind_done; cycle 1.
  { apply (forRange_run _ (fun _ => [])). intros i Hi.
    apply list_elem_of_fmap in Hi as (tx & -> & Hin).
    apply list_elem_of_filter in Hin as [Hst Hin]. unfold stateIn in Hst.
    destruct (Htx tx Hin) as (h & Hl & [[H | [H | [H (info & Hq & Hu)]]] | [H _]]);
      try (rewrite H in Hst; exfalso; revert Hst; state_mem).
    rewrite H. by apply checkOnBabylon_in_sync with info. }
  assert (Hnil : forall (l : list stakingDbInfo), concat (map (fun _ => @nil Action) l) = []).
  { induction l; [reflexivity | done]. }
  assert (Hmap : forall l : list Hash, concat (map (fun h => [logLost h]) l) = map logLost l).
  { induction l as [|x l IH]; [reflexivity |]. simpl. by rewrite IH. }
  simpl. rewrite Hmap, Hnil, app_nil_r. reflexivity.
Qed.

Lemma checkTransactionsStatus_nothing_to_resume_witness :
  let s := Example.sentAndSpent in
  let e := envAt Sample.restartLost (now s) in
  bc_Params e = Ok Sample.params /\
  (forall h tx, txTracker s !! h = Some tx -> settled e tx \/ lostInWallet e h tx) /\
  checkTransactionsStatus Sample.restartLost s
  = (map logLost (map txid (filter (stateIn [SENT_TO_BTC]) (Store.scan (txTracker s)))),
     Done (None, s)).
Proof.
  intros s e.
  assert (Hall : forall h tx, txTracker s !! h = Some tx ->
            settled e tx \/ lostInWallet e h tx).
  { intros h tx Hl. apply state_lookup in Hl. cbn [map] in Hl.
    apply elem_of_cons in Hl as [Hl | Hl]; [| apply list_elem_of_singleton in Hl];
      injection Hl as -> ->.
    - right. split; [reflexivity |]. split; [reflexivity |].
      split; [by exists "staker-address" |].
      exists (mkTxOut 100000 []), None. split; [vm_compute; discriminate |]. split; reflexivity.
    - left. right. left. reflexivity. }
  split; [reflexivity |]. split; [exact Hall |].
  exact (checkTransactionsStatus_nothing_to_resume Sample.restartLost s Sample.params
           eq_refl Hall).
Defined.

(** ** Staking transactions found in the chain *)

Lemma waitForStakingTransactionConfirmation_run W h script depth best s :
  waitForStakingTransactionConfirmation W h script depth best s
  = watchRun W h script depth best s.
Proof.
  unfold waitForStakingTransactionConfirmation, watchRun.
  erewrite bind_done by apply RegisterConfirmationsNtfn_run.
  destruct (ntfn_RegisterConfirmationsNtfn _ _ _ _ _); reflexivity.
Qed.

(** X4: the reconciler and a staking transaction that the wallet reports in
    the chain, while the daemon runs.  A block above the best known height is
    logged as an error and skipped.  At a depth of at least the confirmation
    time the reconciler pushes the confirmation event itself, built from the
    stored transaction and the reported block.  At a smaller depth it registers
    a watch for the confirmation time plus one confirmations, from the best
    known height, and starts the waiting task; a registration the notifier
    refuses is returned as the error. *)
Theorem handleBtcTxInfo_in_chain (W : World) (h : Hash) (txInfo : StoredTransaction)
    (p : StakingParams) (best : Z) (info : TxConfirmation) (o : TxOut) (s : AppState) :
  firedBy W (now s) = false ->
  is_uint32 best -> is_uint32 (BlockHeight info) ->
  0 <= StakingOutputIndex txInfo ->
  TxOuts (StakingTx txInfo) !! Z.to_nat (StakingOutputIndex txInfo) = Some o ->
  let r := handleBtcTxInfo W h txInfo p best TxInChain (Some info) s in
  (best < BlockHeight info ->
     r = ([LogError "Current best block height is lower than block height of transaction" h],
          Done (None, s))) /\
  (BlockHeight info <= best -> ConfirmationTimeBlocks p <= best - BlockHeight info ->
     r = ([Push (confirmationOf h txInfo p info)], Done (None, s))) /\
  (BlockHeight info <= best -> best - BlockHeight info < ConfirmationTimeBlocks p ->
     r = watchRun W h (PkScript o) (ConfirmationTimeBlocks p) best s).
Proof.
  intros Hq Hb Hh Hidx Ho r. subst r. unfold handleBtcTxInfo, deref.
  erewrite bind_pure by reflexivity.
  assert (Hw : forall d, 0 <= d < 2 ^ 32 -> wrap32 d = d).
  { intros d Hd. unfold wrap32. by apply Z.mod_small. }
  unfold is_uint32 in *.
  repeat split.
  - intros Hlt. destruct (Z.ltb_spec best (BlockHeight info)); [reflexivity | lia].
  - intros Hle Hk. destruct (Z.ltb_spec best (BlockHeight info)); [lia |].
    rewrite Hw by lia.
    destruct (Z.leb_spec (ConfirmationTimeBlocks p) (best - BlockHeight info)); [| lia].
    unfold pushEvent, bind. rewrite Hq. reflexivity.
  - intros Hle Hk. destruct (Z.ltb_spec best (BlockHeight info)); [lia |].
    rewrite Hw by lia.
    destruct (Z.leb_spec (ConfirmationTimeBlocks p) (best - BlockHeight info)); [lia |].
    erewrite bind_pure; cycle 1.
    { unfold txOutPkScript. rewrite Ho.
      destruct (Z.leb_spec 0 (StakingOutputIndex txInfo)); [reflexivity | lia]. }
    unfold bind. rewrite waitForStakingTransactionConfirmation_run. unfold watchRun.
    destruct (ntfn_RegisterConfirmationsNtfn _ _ _ _ _); reflexivity.
Qed.

Lemma handleBtcTxInfo_in_chain_witness :
  let txInfo := Sample.record 1%N SENT_TO_BTC false None in
  let info := Sample.conf 1%N in
  let s := Sample.empty in
  firedBy Sample.calm (now s) = false /\
  is_uint32 110 /\ is_uint32 (BlockHeight info) /\
  BlockHeight info <= 110 /\
  ConfirmationTimeBlocks Sample.params <= 110 - BlockHeight info /\
  handleBtcTxInfo Sample.calm 1%N txInfo Sample.params 110 TxInChain (Some info) s
  = ([Push (confirmationOf 1%N txInfo Sample.params info)], Done (None, s)).
Proof.
  intros txInfo info s.
  assert (Hb : is_uint32 110) by (vm_compute; split; [discriminate | reflexivity]).
  assert (Hi : is_uint32 (BlockHeight info)) by (vm_compute; split; [discriminate | reflexivity]).
  assert (Hle : BlockHeight info <= 110) by (vm_compute; discriminate).
  assert (Hk : ConfirmationTimeBlocks Sample.params <= 110 - BlockHeight info)
    by (vm_compute; discriminate).
  repeat (split; [assumption || reflexivity |]).
  apply (proj1 (proj2 (handleBtcTxInfo_in_chain Sample.calm 1%N txInfo Sample.params 110
                         info (mkTxOut 100000 []) s eq_refl Hb Hi
                         ltac:(vm_compute; discriminate) eq_refl)) Hle Hk).
Defined.

(** ** Staking requests in the event loop *)

Lemma chanSend_inv c v s tr s' :
  chanSend c v s = (tr, Done (tt, s')) ->
  tr = [match v with CErr e => ChanWriteErr c e | CHash h => ChanWriteHash c h end] /\
  chans s !! c = None /\ s' = setChans (<[c := v]> (chans s)) s.
Proof.
  unfold chanSend. destruct (chans s !! c); [discriminate |].
  intros [= <- <-]. auto.
Qed.

Lemma storeUpdate_inv a f s tr r s' :
  storeUpdate a f s = (tr, Done (r, s')) ->
  (exists m, f (txTracker s) = Ok m /\ tr = [a] /\ r = None /\ s' = setTracker m s) \/
  (exists e, f (txTracker s) = Err e /\ tr = [] /\ r = Some e /\ s' = s).
Proof.
  unfold storeUpdate. destruct (f (txTracker s)) as [m|e]; intros [= <- <- <-]; eauto 10.
Qed.

Lemma handleStakingEvent_request (W : World) (req : stakingRequest) (s : AppState)
    (tr : list Action) (s' : AppState) :
  handleStakingEvent W (EvStakingRequest req) s = (tr, Done (tt, s')) ->
  RequestOutcome W req s tr s'.
Proof.
  cbn [handleStakingEvent]. pure_step. intros Hrun.
  apply bind_inv in Hrun as (t1 & added & s1 & t2 & Hadd & Hrest & ->).
  assert (Hadded :
    (exists err, isWatched req = false /\
       wc_SendRawTransaction (envAt W (now s)) (rq_stakingTx req) = Err err /\
       t1 = [WcSendRawTransaction (rq_stakingTx req)] /\ added = Some err /\ s1 = s) \/
    (exists old, txTracker s !! TxHash (rq_stakingTx req) = Some old /\
       t1 = broadcastOf req /\ added = Some ErrTransactionAlreadyExists /\ s1 = s) \/
    (txTracker s !! TxHash (rq_stakingTx req) = None /\
     t1 = broadcastOf req ++ [StoreAdd (TxHash (rq_stakingTx req)) (isWatched req)] /\
     added = None /\
     s1 = setTracker (<[TxHash (rq_stakingTx req) := newRecord req]> (txTracker s)) s)).
  { unfold broadcastOf, newRecord. destruct (isWatched req) eqn:Hw.
    - apply bind_inv in Hadd as (t3 & w & s3 & t4 & Hd & Hadd & ->).
      apply deref_inv in Hd as (_ & -> & ->).
      apply storeUpdate_inv in Hadd as [(m & Hm & -> & -> & ->) | (e & Hm & -> & -> & ->)];
        unfold Store.add in Hm;
        destruct (txTracker s !! TxHash (rq_stakingTx req)) eqn:Hl; try discriminate.
      + injection Hm as <-. right. right. auto.
      + injection Hm as <-. right. left. eauto.
    - apply bind_inv in Hadd as (t3 & r & s3 & t4 & Hsend & Hadd & ->).
      rewrite SendRawTransaction_run in Hsend. injection Hsend as <- <- <-.
      destruct (wc_SendRawTransaction _ _) as [h'|err] eqn:Hsend.
      + apply storeUpdate_inv in Hadd as [(m & Hm & -> & -> & ->) | (e & Hm & -> & -> & ->)];
          unfold Store.add in Hm;
          destruct (txTracker s !! TxHash (rq_stakingTx req)) eqn:Hl; try discriminate.
        * injection Hm as <-. right. right. auto.
        * injection Hm as <-. right. left. eauto.
      + injection Hadd as <- <- <-. left. eauto 10. }
  destruct Hadded as [(err & Hw & Hsend & -> & -> & ->)
                     | [(old & Hl & -> & -> & ->) | (Hl & -> & -> & ->)]].
  - apply chanSend_inv in Hrest as (-> & _ & ->). by apply RequestNotBroadcast.
  - apply chanSend_inv in Hrest as (-> & _ & ->). by apply RequestAlreadyTracked with old.
  - apply bind_inv in Hrest as (t3 & err & s3 & t4 & Hreg & Hrest & ->).
    rewrite waitForStakingTransactionConfirmation_run in Hreg.
    unfold watchRun in Hreg. cbn [now setTracker] in Hreg.
    destruct (ntfn_RegisterConfirmationsNtfn _ _ _ _ _) as [ev|e] eqn:Hev;
      injection Hreg as <- <- <-;
      apply chanSend_inv in Hrest as (-> & _ & ->); rewrite <- app_assoc.
    + by apply RequestAccepted.
    + by apply RequestNotWatched.
Qed.

Ltac mem_cases :=
  repeat match goal with
         | H : _ ∈ _ ++ _ |- _ => apply elem_of_app in H as [H|H]
         | H : _ ∈ _ :: _ |- _ => apply elem_of_cons in H as [H|H]
         | H : _ ∈ [] |- _ => apply elem_of_nil in H; contradiction
         | H : _ ∈ broadcastOf ?r |- _ =>
             unfold broadcastOf in H; destruct (isWatched r)
         end.

(** X5: a staking request answered on a success channel was accepted.  The
    channel is the success channel of the request and the hash written is the
    hash of its staking transaction; no record was stored under that hash, and
    the store is the old one with the record of the request, in [SENT_TO_BTC],
    added; exactly one task was started, waiting for the confirmation that was
    registered for the request; the only access to the wallet was the broadcast
    of the transaction (none for a watched request); exactly one reply was
    written. *)
Theorem staking_request_accepted (W : World) (req : stakingRequest) (s s' : AppState)
    (tr : list Action) (c : ChanId) (h : Hash) :
  handleStakingEvent W (EvStakingRequest req) s = (tr, Done (tt, s')) ->
  ChanWriteHash c h ∈ tr ->
  c = rq_successChan req /\ h = TxHash (rq_stakingTx req) /\
  txTracker s !! h = None /\
  txTracker s' = <[h := newRecord req]> (txTracker s) /\
  (exists ev, (watchOf W req s).2 = Ok ev /\
     spawned tr = [TaskWaitForStakingTxConfirmation h
                     (rq_requiredDepthOnBtcChain req) ev]) /\
  filter (fun a => isKeyOrBroadcast a) tr = broadcastOf req /\
  count isReply tr = 1%nat.
Proof.
  intros Hrun Hin. apply handleStakingEvent_request in Hrun.
  destruct Hrun as [ev Hev Hl | err Hw Hsend | old Hl | err Hev Hl];
    unfold watchOf in *; cbn [fst snd] in *; mem_cases; try discriminate.
  injection Hin as -> ->. repeat split; auto.
  - exists ev. split; [done |]. unfold broadcastOf. by destruct (isWatched req).
  - unfold broadcastOf. by destruct (isWatched req).
  - unfold broadcastOf. by destruct (isWatched req).
Qed.

Lemma staking_request_accepted_witness :
  let req := Example.request 1%N in
  let s := Sample.empty in
  exists tr s',
    handleStakingEvent Sample.calm (EvStakingRequest req) s = (tr, Done (tt, s')) /\
    ChanWriteHash 1%N 1%N ∈ tr /\
    txTracker s' = <[1%N := newRecord req]> (txTracker s) /\
    spawned tr = [TaskWaitForStakingTxConfirmation 1%N 6 (Sample.event 1%N None)] /\
    filter (fun a => isKeyOrBroadcast a) tr = [WcSendRawTransaction (Sample.tx 1%N)] /\
    count isReply tr = 1%nat.
Proof.
  intros req s.
  destruct (handleStakingEvent Sample.calm (EvStakingRequest req) s) as [tr r] eqn:Hrun.
  evaluate Hrun.
  eexists _, _. split; [exact Hrun |].
  match type of Hrun with _ = (?tr, _) =>
    assert (Hin : ChanWriteHash 1%N 1%N ∈ tr) by member
  end.
  split; [exact Hin |].
  destruct (staking_request_accepted _ _ _ _ _ _ _ Hrun Hin)
    as (_ & _ & _ & Hst & (ev & Hev & Hsp) & Hb & Hc).
  split; [exact Hst |]. split; [| split; [exact Hb | exact Hc]].
  rewrite Hsp. vm_compute in Hev. injection Hev as <-. reflexivity.
Defined.

(** X6: a staking request answered with an error got it on its error channel,
    started no task and got exactly one reply, for one of three reasons: the
    wallet refused the broadcast, and the store is unchanged; the transaction
    was already tracked, the broadcast having been made all the same, and the
    store is unchanged; or the notifier refused the confirmation watch, in
    which case the record had already been added and stays in the store. *)
Theorem staking_request_refused (W : World) (req : stakingRequest) (s s' : AppState)
    (tr : list Action) (c : ChanId) (e : error) :
  handleStakingEvent W (EvStakingRequest req) s = (tr, Done (tt, s')) ->
  ChanWriteErr c e ∈ tr ->
  c = rq_errChan req /\ spawned tr = [] /\ count isReply tr = 1%nat /\
  ((isWatched req = false /\
    wc_SendRawTransaction (envAt W (now s)) (rq_stakingTx req) = Err e /\
    txTracker s' = txTracker s) \/
   (e = ErrTransactionAlreadyExists /\
    is_Some (txTracker s !! TxHash (rq_stakingTx req)) /\
    txTracker s' = txTracker s /\
    filter (fun a => isKeyOrBroadcast a) tr = broadcastOf req) \/
   ((watchOf W req s).2 = Err e /\
    txTracker s !! TxHash (rq_stakingTx req) = None /\
    txTracker s' = <[TxHash (rq_stakingTx req) := newRecord req]> (txTracker s))).
Proof.
  intros Hrun Hin. apply handleStakingEvent_request in Hrun.
  destruct Hrun as [ev Hev Hl | err Hw Hsend | old Hl | err Hev Hl];
    unfold watchOf in *; cbn [fst snd] in *; mem_cases; try discriminate;
    injection Hin as -> ->; (split; [reflexivity |]);
    (split; [unfold broadcastOf; by destruct (isWatched req) |]);
    (split; [unfold broadcastOf; by destruct (isWatched req) |]).
  - left. auto.
  - right. left. repeat split; eauto. unfold broadcastOf. by destruct (isWatched req).
  - right. right. auto.
Qed.

Lemma staking_request_refused_witness :
  let W := Sample.still (Sample.failBroadcast Sample.goodEnv) None in
  let req := Example.request 1%N in
  let s := Sample.empty in
  exists tr s',
    handleStakingEvent W (EvStakingRequest req) s = (tr, Done (tt, s')) /\
    ChanWriteErr 0%N (ErrExternal 2) ∈ tr /\
    spawned tr = [] /\ count isReply tr = 1%nat /\
    WcSendRawTransaction (rq_stakingTx req) ∈ tr /\
    txTracker s' = txTracker s.
Proof.
  intros W req s.
  destruct (handleStakingEvent W (EvStakingRequest req) s) as [tr r] eqn:Hrun.
  evaluate Hrun.
  eexists _, _. split; [exact Hrun |].
  match type of Hrun with _ = (?tr, _) =>
    assert (Hin : ChanWriteErr 0%N (ErrExternal 2) ∈ tr) by member
  end.
  split; [exact Hin |].
  destruct (staking_request_refused _ _ _ _ _ _ _ Hrun Hin) as (_ & Hsp & Hc & _).
  split; [exact Hsp |]. split; [exact Hc |]. split; [member | reflexivity].
Defined.

(** X7: an event about a transaction the store does not hold stops the
    daemon: for every event that names a tracked transaction (every event but
    a staking request), [handleStakingEvent] ends in a fatal error, without
    any action, when no record is stored under the hash of the event. *)
Theorem handleStakingEvent_untracked (W : World) (ev : Event) (h : Hash) (s : AppState) :
  eventTx ev = Some h ->
  txTracker s !! h = None ->
  exists msg, handleStakingEvent W ev s = ([], Fatal msg).
Proof.
  intros Hev Hl.
  destruct ev as [req|c|r|h'|c|c|c]; simpl in Hev; try discriminate;
    injection Hev as Hev; subst h; cbn [handleStakingEvent];
    try (destruct (sr_err r); [by eexists |]);
    unfold SetTxConfirmed, SetTxSentToBabylon, SetTxSpentOnBtc, SetTxUnbondingStarted,
      SetTxUnbondingSignaturesReceived, SetTxUnbondingConfirmedOnBtc, storeUpdate,
      Store.setConfirmed, Store.setSentToBabylon, Store.setSpentOnBtc,
      Store.setUnbondingStarted, Store.setUnbondingSignaturesReceived,
      Store.setUnbondingConfirmedOnBtc, Store.transition, bind;
    rewrite Hl; by eexists.
Qed.

Lemma handleStakingEvent_untracked_witness :
  eventTx (EvSpendTxConfirmation 7%N) = Some 7%N /\
  txTracker Sample.empty !! 7%N = None /\
  exists msg,
    handleStakingEvent Sample.calm (EvSpendTxConfirmation 7%N) Sample.empty
    = ([], Fatal msg).
Proof.
  split; [reflexivity |]. split; [reflexivity |].
  exact (handleStakingEvent_untracked Sample.calm (EvSpendTxConfirmation 7%N) 7%N
           Sample.empty eq_refl eq_refl).
Defined.

(** ** The lifecycle only advances *)

Lemma sameIdentity_refl tx : sameIdentity tx tx.
Proof. by repeat split. Qed.

Lemma sameIdentity_trans tx1 tx2 tx3 :
  sameIdentity tx1 tx2 -> sameIdentity tx2 tx3 -> sameIdentity tx1 tx3.
Proof.
  intros (? & ? & ? & ? & ? & ?) (? & ? & ? & ? & ? & ?).
  repeat split; congruence.
Qed.

Global Instance advances_refl : Reflexive advances.
Proof.
  intros m h tx Hl. exists tx. split; [done |]. split; [apply sameIdentity_refl | by left].
Qed.

Global Instance advances_trans : Transitive advances.
Proof.
  intros m1 m2 m3 H12 H23 h tx1 Hl1.
  destruct (H12 h tx1 Hl1) as (tx2 & Hl2 & Hid12 & Hst12).
  destruct (H23 h tx2 Hl2) as (tx3 & Hl3 & Hid23 & Hst23).
  exists tx3. split; [done |]. split; [by eapply sameIdentity_trans |].
  destruct Hst12 as [H1 | H1], Hst23 as [H2 | H2].
  - left. congruence.
  - right. by rewrite <- H1.
  - right. by rewrite H2.
  - right. lia.
Qed.

Lemma advances_transition from to upd h m m' :
  (forall tx, sameIdentity tx (upd tx)) ->
  (forall st, st ∈ from -> rank st < rank to) ->
  Store.transition from to upd h m = Ok m' -> advances m m'.
Proof.
  intros Hupd Hrank. unfold Store.transition.
  destruct (m !! h) as [tx|] eqn:Hl; [| discriminate].
  case_bool_decide as Hfrom; [| discriminate]. intros [= <-] h' tx' Hl'.
  destruct (decide (h = h')) as [<- | Hne].
  - pose proof (eq_trans (eq_sym Hl') Hl) as Heq. injection Heq as ->.
    exists (withState to (upd tx)). rewrite lookup_insert_eq. split; [done |]. split.
    + destruct (Hupd tx) as (? & ? & ? & ? & ? & ?). by repeat split.
    + right. simpl. by apply Hrank.
  - exists tx'. rewrite lookup_insert_ne by done. split; [done |].
    split; [apply sameIdentity_refl | by left].
Qed.

Lemma advances_add w tx idx script pop addr m m' :
  Store.add w tx idx script pop addr m = Ok m' -> advances m m'.
Proof.
  unfold Store.add. destruct (m !! TxHash tx) eqn:Hl; [discriminate |].
  intros [= <-] h' tx' Hl'. exists tx'.
  destruct (decide (TxHash tx = h')) as [<- | Hne];
    [pose proof (eq_trans (eq_sym Hl') Hl); discriminate |].
  rewrite lookup_insert_ne by done. split; [done |].
  split; [apply sameIdentity_refl | by left].
Qed.

Ltac rank_lt :=
  let st := fresh in let H := fresh in
  intros st H; repeat (apply elem_of_cons in H as [-> | H]; [simpl; lia |]);
  by apply elem_of_nil in H.

Lemma handleStakingEvent_advances W ev : storeRel advances (handleStakingEvent W ev).
Proof.
  pose proof (keepsStore_waitForStakingTransactionConfirmation W).
  pose proof (keepsStore_mustGet W).
  destruct (keepsStore_wallet W) as (_ & _ & Hs & _ & _).
  assert (Hid : forall tx, sameIdentity tx (id tx)) by apply sameIdentity_refl.
  destruct ev; simpl.
  - apply storeRel_bind; [apply _ | apply storeRel_keeps; [apply _ |];
      unfold bestBlockHeight; keeps |].
    intros best. apply storeRel_bind; [apply _ | |].
    + destruct (isWatched req).
      * apply storeRel_bind; [apply _ | apply storeRel_keeps; [apply _ |];
          apply keepsStore_deref |].
        intros w. apply storeRel_storeUpdate; [apply _ |].
        intros m m'. apply advances_add.
      * apply storeRel_bind; [apply _ | apply storeRel_keeps; [apply _ | apply Hs] |].
        intros [a|e]; [| apply storeRel_keeps; [apply _ | keeps]].
        apply storeRel_storeUpdate; [apply _ |]. intros m m'. apply advances_add.
    + intros added. apply storeRel_keeps; [apply _ |]. keeps_more.
  - apply storeRel_bind; [apply _ | |].
    + apply storeRel_storeUpdate; [apply _ |]. intros m m'.
      apply advances_transition; [intros tx; by repeat split | rank_lt].
    + intros err. apply storeRel_keeps; [apply _ |].
      unfold sendDelegationWithTxToBabylon. keeps.
  - destruct (sr_err r); [apply storeRel_keeps; [apply _ | keeps] |].
    apply storeRel_bind; [apply _ | |].
    + apply storeRel_storeUpdate; [apply _ |]. intros m m'.
      apply advances_transition; [done | rank_lt].
    + intros err. apply storeRel_keeps; [apply _ |]. keeps.
  - apply storeRel_bind; [apply _ | |].
    + apply storeRel_storeUpdate; [apply _ |]. intros m m'.
      apply advances_transition; [done | rank_lt].
    + intros err. apply storeRel_keeps; [apply _ |]. keeps.
  - apply storeRel_bind; [apply _ | |].
    + apply storeRel_storeUpdate; [apply _ |]. intros m m'.
      apply advances_transition; [intros tx; by repeat split | rank_lt].
    + intros err. apply storeRel_keeps; [apply _ |]. keeps.
  - apply storeRel_bind; [apply _ | |].
    + apply storeRel_storeUpdate; [apply _ |]. intros m m'.
      apply advances_transition; [| rank_lt].
      intros tx. destruct (UnbondingTxData tx); by repeat split.
    + intros err. apply storeRel_keeps; [apply _ |]. keeps_more.
  - apply storeRel_bind; [apply _ | |].
    + apply storeRel_storeUpdate; [apply _ |]. intros m m'.
      apply advances_transition; [| rank_lt].
      intros tx. destruct (UnbondingTxData tx); by repeat split.
    + intros err. apply storeRel_keeps; [apply _ |]. keeps.
Qed.

(** X8: the event loop never loses a record and never moves one backwards.
    After [handleStaking] has handled any sequence of events and returned,
    every record of the store is still there, with the same staking
    transaction, output index, script, proof of possession, staker address and
    watched flag, in the state it had or in a later state of the lifecycle. *)
Theorem handleStaking_advances (W : World) (inbound : list Event) (s s' : AppState)
    (tr : list Action) :
  handleStaking W inbound s = (tr, Done (tt, s')) ->
  advances (txTracker s) (txTracker s').
Proof.
  revert s tr. induction inbound as [|ev inbound IH]; intros s tr Hrun.
  - injection Hrun as <- <-. reflexivity.
  - cbn [handleStaking] in Hrun.
    apply bind_inv in Hrun as (t1 & [] & s1 & t2 & H1 & H2 & _).
    apply handleStakingEvent_advances in H1. apply IH in H2. by etrans.
Qed.

Lemma handleStaking_advances_witness :
  let s := Sample.state 0 [Sample.record 1%N SENT_TO_BTC false None] in
  let inbound := [stakingConfirmed 6 (Sample.event 1%N (Some 0));
                  EvStakingRequest (Example.request 2%N)] in
  exists tr s',
    handleStaking Sample.calm inbound s = (tr, Done (tt, s')) /\
    advances (txTracker s) (txTracker s').
Proof.
  intros s inbound.
  destruct (handleStaking Sample.calm inbound s) as [tr r] eqn:Hrun.
  evaluate Hrun.
  eexists _, _. split; [exact Hrun |].
  exact (handleStaking_advances _ _ _ _ _ Hrun).
Defined.

(** ** Waiting for confirmations *)

Lemma firedBy_mono W t t' : t <= t' -> firedBy W t = true -> firedBy W t' = true.
Proof.
  unfold firedBy. destruct (quitAt W) as [q|]; [| done].
  intros Hle Hq. apply Z.leb_le in Hq. apply Z.leb_le. lia.
Qed.

Lemma firedBy_quit W q t : quitAt W = Some q -> firedBy W t = (q <=? t).
Proof. unfold firedBy. by intros ->. Qed.

(** The [select] of a task that waits for a confirmation or for [quit]. *)
Lemma select_confirmed_or_quit (W : World) (ev : ConfirmationEvent) (s : AppState) :
  let r := select W [(ConfirmedAt ev, SelConfirmed); (quitAt W, SelQuitting)] s in
  (ConfirmedAt ev = None /\ quitAt W = None /\ r = ([], Blocked)) \/
  (exists c, ConfirmedAt ev = Some c /\
     (forall q, quitAt W = Some q -> Z.max c (now s) <= Z.max q (now s)) /\
     r = ([], Done (SelConfirmed, setNow (Z.max c (now s)) s))) \/
  (exists q, quitAt W = Some q /\
     (forall c, ConfirmedAt ev = Some c -> Z.max q (now s) <= Z.max c (now s)) /\
     r = ([], Done (SelQuitting, setNow (Z.max q (now s)) s))).
Proof.
  intros r. subst r.
  destruct (select_spec W [(ConfirmedAt ev, SelConfirmed); (quitAt W, SelQuitting)] s)
    as [[Hall Hr] | (c & m & Hc & Hf & Hmin & Hsel)].
  - left. split; [| split; [| done]].
    + apply (Hall (ConfirmedAt ev, SelConfirmed)). apply elem_of_cons. auto.
    + apply (Hall (quitAt W, SelQuitting)). apply elem_of_cons. right.
      apply elem_of_cons. auto.
  - right. apply elem_of_cons in Hc as [-> | Hc].
    + left. simpl in Hf. destruct (ConfirmedAt ev) as [c|]; [| discriminate].
      simpl in Hf. injection Hf as <-. exists c. split; [done |]. split; [| done].
      intros q Hq. apply (Hmin (quitAt W, SelQuitting)).
      * apply elem_of_cons. right. apply elem_of_cons. auto.
      * simpl. by rewrite Hq.
    + apply elem_of_cons in Hc as [-> | Hc]; [| by apply elem_of_nil in Hc].
      right. simpl in Hf. destruct (quitAt W) as [q|]; [| discriminate].
      simpl in Hf. injection Hf as <-. exists q. split; [done |]. split; [| done].
      intros c Hc. apply (Hmin (ConfirmedAt ev, SelConfirmed)).
      * apply elem_of_cons. auto.
      * simpl. by rewrite Hc.
Qed.

Lemma Cancel_run ev s : Cancel ev s = ([NtfnCancel (EvId ev)], Done (tt, s)).
Proof. reflexivity. Qed.

Ltac step_select H :=
  cbv zeta in H;
  first [ erewrite bind_pure by exact H | unfold bind; rewrite H ]; cbv beta iota.

(** X9: [waitForStakingTxConfirmation] never writes the store, and when it
    returns it has either only cancelled the watch, or pushed one confirmation
    event, built from the notifier's confirmation and the requested depth, and
    then cancelled the watch.  It delivers the event when the confirmation
    arrives while [quit] is not closed, and only cancels the watch when [quit]
    is closed before any confirmation. *)
Theorem waitForStakingTxConfirmation_spec (W : World) (h : Hash) (depth : Z)
    (ev : ConfirmationEvent) (s : AppState) :
  (forall tr s', waitForStakingTxConfirmation W h depth ev s = (tr, Done (tt, s')) ->
     txTracker s' = txTracker s /\
     (tr = [NtfnCancel (EvId ev)] \/
      tr = [Push (stakingConfirmed depth ev); NtfnCancel (EvId ev)])) /\
  (forall c, ConfirmedAt ev = Some c -> firedBy W (Z.max c (now s)) = false ->
     waitForStakingTxConfirmation W h depth ev s
     = ([Push (stakingConfirmed depth ev); NtfnCancel (EvId ev)],
        Done (tt, setNow (Z.max c (now s)) s))) /\
  (forall q, quitAt W = Some q -> (forall c, ConfirmedAt ev = Some c -> q < c) ->
     waitForStakingTxConfirmation W h depth ev s
     = ([NtfnCancel (EvId ev)], Done (tt, setNow (Z.max q (now s)) s))).
Proof.
  unfold waitForStakingTxConfirmation. pure_step.
  split; [| split].
  - intros tr s'. destruct (firedBy W (now s)).
    { rewrite Cancel_run. intros [= <- <-]. auto. }
    destruct (select_confirmed_or_quit W ev s)
      as [(_ & _ & Hsel) | [(c & _ & _ & Hsel) | (q & _ & _ & Hsel)]]; step_select Hsel.
    + discriminate.
    + unfold bind, pushEvent. simpl. destruct (_ && _); [discriminate |].
      intros [= <- <-]. auto.
    + rewrite Cancel_run. intros [= <- <-]. auto.
  - intros c Hc Hq.
    assert (Hq0 : firedBy W (now s) = false).
    { destruct (firedBy W (now s)) eqn:Hf; [| done].
      rewrite (firedBy_mono W (now s) (Z.max c (now s))) in Hq; [done | lia | done]. }
    rewrite Hq0.
    destruct (select_confirmed_or_quit W ev s)
      as [(Hn & _ & _) | [(c' & Hc' & _ & Hsel) | (q & Hqa & Hmin & _)]].
    + congruence.
    + assert (c' = c) as -> by congruence. step_select Hsel.
      unfold bind, pushEvent. simpl. rewrite Hq. reflexivity.
    + specialize (Hmin c Hc). rewrite (firedBy_quit W q) in Hq, Hq0 by done.
      apply Z.leb_gt in Hq, Hq0. lia.
  - intros q Hqa Hlt.
    destruct (firedBy W (now s)) eqn:Hq0.
    { rewrite Cancel_run. rewrite (firedBy_quit W q) in Hq0 by done.
      apply Z.leb_le in Hq0. replace (Z.max q (now s)) with (now s) by lia.
      by rewrite setNow_now. }
    destruct (select_confirmed_or_quit W ev s)
      as [(_ & Hn & _) | [(c & Hc & Hmin & _) | (q' & Hq' & _ & Hsel)]].
    + congruence.
    + specialize (Hmin q Hqa). specialize (Hlt c Hc).
      rewrite (firedBy_quit W q) in Hq0 by done. apply Z.leb_gt in Hq0. lia.
    + assert (q' = q) as -> by congruence. step_select Hsel. reflexivity.
Qed.

Lemma waitForStakingTxConfirmation_spec_witness :
  let ev := Sample.event 1%N (Some 5) in
  let s := Sample.empty in
  ConfirmedAt ev = Some 5 /\
  firedBy Sample.calm (Z.max 5 (now s)) = false /\
  waitForStakingTxConfirmation Sample.calm 1%N 6 ev s
  = ([Push (stakingConfirmed 6 ev); NtfnCancel (EvId ev)],
     Done (tt, setNow (Z.max 5 (now s)) s)).
Proof.
  intros ev s. split; [reflexivity |]. split; [reflexivity |].
  exact (proj1 (proj2 (waitForStakingTxConfirmation_spec Sample.calm 1%N 6 ev s))
           5 eq_refl eq_refl).
Defined.

(** X10: [waitForUnbondingTxConfirmationWithWg], given the unbonding data,
    never writes the store and returns only after cancelling the watch, having
    pushed before that at most the unbonding confirmation of the staking
    transaction.  It stays parked for ever exactly when the transaction is
    never confirmed and [quit] never closed.  It delivers the confirmation
    when that arrives while [quit] is not closed. *)
Theorem waitForUnbondingTxConfirmation_spec (W : World) (waitEv : ConfirmationEvent)
    (d : UnbondingStoreData) (h : Hash) (s : AppState) :
  let r := waitForUnbondingTxConfirmationWithWg W waitEv (Some d) h s in
  (forall tr s', r = (tr, Done (tt, s')) ->
     txTracker s' = txTracker s /\
     (tr = [NtfnCancel (EvId waitEv)] \/
      tr = [Push (unbondingConfirmed h waitEv); NtfnCancel (EvId waitEv)])) /\
  (ConfirmedAt waitEv = None /\ quitAt W = None <-> r = ([], Blocked)) /\
  (forall c, ConfirmedAt waitEv = Some c -> firedBy W (Z.max c (now s)) = false ->
     r = ([Push (unbondingConfirmed h waitEv); NtfnCancel (EvId waitEv)],
          Done (tt, setNow (Z.max c (now s)) s))).
Proof.
  intros r. subst r.
  unfold waitForUnbondingTxConfirmationWithWg, waitForUnbondingTxConfirmation.
  cbv beta iota.
  split; [| split].
  - intros tr s'.
    destruct (select_confirmed_or_quit W waitEv s)
      as [(_ & _ & Hsel) | [(c & _ & _ & Hsel) | (q & _ & _ & Hsel)]]; step_select Hsel.
    + discriminate.
    + unfold bind, PushOrQuit. simpl. destruct (_ && _); intros [= <- <-]; auto.
    + rewrite Cancel_run. intros [= <- <-]. auto.
  - destruct (select_confirmed_or_quit W waitEv s)
      as [(Hc & Hq & Hsel) | [(c & Hc & _ & Hsel) | (q & Hq & _ & Hsel)]];
      step_select Hsel.
    + split; auto.
    + unfold bind, PushOrQuit. simpl. split; [intros [? _]; congruence |].
      destruct (_ && _); discriminate.
    + split; [intros [_ ?]; congruence | discriminate].
  - intros c Hc Hq.
    destruct (select_confirmed_or_quit W waitEv s)
      as [(Hn & _ & _) | [(c' & Hc' & _ & Hsel) | (q & Hqa & Hmin & _)]].
    + congruence.
    + assert (c' = c) as -> by congruence. step_select Hsel.
      unfold bind, PushOrQuit. simpl. rewrite Hq. reflexivity.
    + specialize (Hmin c Hc). rewrite (firedBy_quit W q) in Hq by done.
      apply Z.leb_gt in Hq. lia.
Qed.

Lemma waitForUnbondingTxConfirmation_spec_witness :
  let waitEv := Sample.event 44%N (Some 5) in
  let s := Sample.empty in
  ConfirmedAt waitEv = Some 5 /\
  firedBy Sample.calm (Z.max 5 (now s)) = false /\
  waitForUnbondingTxConfirmationWithWg Sample.calm waitEv (Some Sample.unbonding) 3%N s
  = ([Push (unbondingConfirmed 3%N waitEv); NtfnCancel (EvId waitEv)],
     Done (tt, setNow (Z.max 5 (now s)) s)).
Proof.
  intros waitEv s. split; [reflexivity |]. split; [reflexivity |].
  exact (proj2 (proj2 (waitForUnbondingTxConfirmation_spec Sample.calm waitEv
                         Sample.unbonding 3%N s)) 5 eq_refl eq_refl).
Defined.

(** ** From a staking request to its confirmation *)

Lemma waitForStakingTxConfirmation_returns (W : World) (h : Hash) (depth : Z)
    (ev : ConfirmationEvent) (s : AppState) tr s' :
  waitForStakingTxConfirmation W h depth ev s = (tr, Done (tt, s')) ->
  txTracker s' = txTracker s /\
  (tr = [NtfnCancel (EvId ev)] \/
   tr = [Push (stakingConfirmed depth ev); NtfnCancel (EvId ev)]).
Proof.
  unfold waitForStakingTxConfirmation. pure_step.
  destruct (firedBy W (now s)).
  { rewrite Cancel_run. intros [= <- <-]. auto. }
  destruct (select_confirmed_or_quit W ev s)
    as [(_ & _ & Hsel) | [(c & _ & _ & Hsel) | (q & _ & _ & Hsel)]]; step_select Hsel.
  - discriminate.
  - unfold bind, pushEvent. simpl. destruct (_ && _); [discriminate |].
    intros [= <- <-]. auto.
  - rewrite Cancel_run. intros [= <- <-]. auto.
Qed.

(** X11: a staking request and its confirmation compose.  When the event
    loop has accepted a request, the waiting task it started has returned
    and pushed an event, and the confirmed transaction is the requested one,
    then handling that event writes [CONFIRMED_ON_BTC], hands the delegation,
    with the inclusion data of the confirmation and the depth of the request,
    to the delegation sender, and leaves under the hash the record of the
    request with its state and inclusion block set and nothing else changed. *)
Theorem staking_request_then_confirmation (W : World) (req : stakingRequest)
    (s s1 s2 : AppState) (tr1 tr2 : list Action) (ev : ConfirmationEvent) (e : Event) :
  let h := TxHash (rq_stakingTx req) in
  let depth := rq_requiredDepthOnBtcChain req in
  let conf := Confirmation ev in
  handleStakingEvent W (EvStakingRequest req) s = (tr1, Done (tt, s1)) ->
  TaskWaitForStakingTxConfirmation h depth ev ∈ spawned tr1 ->
  waitForStakingTxConfirmation W h depth ev s1 = (tr2, Done (tt, s2)) ->
  e ∈ pushes tr2 ->
  TxHash (ConfTx conf) = h ->
  exists s3,
    handleStakingEvent W e s2
    = ([StoreWrite h CONFIRMED_ON_BTC;
        CallSendDelegationWithTxToBabylon
          (mkSendDelegationRequest h (TxIndex conf) (Block conf) depth)],
       Done (tt, s3)) /\
    txTracker s3 !! h
    = Some (withState CONFIRMED_ON_BTC
              (withInclusion (BlockHash conf, BlockHeight conf) (newRecord req))).
Proof.
  intros h depth conf Hreq Hspawn Hwait Hpush Hconf.
  apply handleStakingEvent_request in Hreq.
  assert (Hs1 : txTracker s1 = <[h := newRecord req]> (txTracker s)).
  { destruct Hreq as [ev' Hev Hl | err Hw Hsend | old Hl | err Hev Hl]; [done | | |];
      exfalso; revert Hspawn; unfold broadcastOf, watchOf;
      destruct (isWatched req); simpl; intros Hin; by apply elem_of_nil in Hin. }
  apply waitForStakingTxConfirmation_returns in Hwait as [Hs2 [-> | ->]].
  { simpl in Hpush. by apply elem_of_nil in Hpush. }
  simpl in Hpush. apply list_elem_of_singleton in Hpush as ->.
  unfold stakingConfirmed. fold conf. rewrite Hconf.
  cbn [handleStakingEvent sc_txHash sc_blockHash sc_blockHeight sc_txIndex
       sc_inlusionBlock sc_blockDepth].
  assert (Hl : txTracker s2 !! h = Some (newRecord req)).
  { rewrite Hs2, Hs1. apply lookup_insert_eq. }
  eexists. split.
  - unfold SetTxConfirmed, storeUpdate, Store.setConfirmed, Store.transition, bind.
    rewrite Hl. simpl. reflexivity.
  - simpl. apply lookup_insert_eq.
Qed.

Lemma staking_request_then_confirmation_witness :
  let W := Example.confirming in
  let req := Example.request 1%N in
  let ev := Sample.event 1%N (Some 5) in
  exists tr1 s1 tr2 s2 s3,
    handleStakingEvent W (EvStakingRequest req) Sample.empty = (tr1, Done (tt, s1)) /\
    TaskWaitForStakingTxConfirmation 1%N 6 ev ∈ spawned tr1 /\
    waitForStakingTxConfirmation W 1%N 6 ev s1 = (tr2, Done (tt, s2)) /\
    stakingConfirmed 6 ev ∈ pushes tr2 /\
    handleStakingEvent W (stakingConfirmed 6 ev) s2
    = ([StoreWrite 1%N CONFIRMED_ON_BTC;
        CallSendDelegationWithTxToBabylon (mkSendDelegationRequest 1%N 0 None 6)],
       Done (tt, s3)) /\
    txTracker s3 !! 1%N
    = Some (withState CONFIRMED_ON_BTC (withInclusion (77%N, 100) (newRecord req))).
Proof.
  intros W req ev.
  destruct (handleStakingEvent W (EvStakingRequest req) Sample.empty)
    as [tr1 r1] eqn:Hrun1.
  evaluate Hrun1.
  match type of Hrun1 with _ = (_, Done (tt, ?s1)) =>
    destruct (waitForStakingTxConfirmation W 1%N 6 ev s1) as [tr2 r2] eqn:Hrun2
  end.
  evaluate Hrun2.
  match type of Hrun1 with _ = (?tr1, _) =>
    assert (Hsp : TaskWaitForStakingTxConfirmation 1%N 6 ev ∈ spawned tr1) by member
  end.
  match type of Hrun2 with _ = (?tr2, _) =>
    assert (Hpu : stakingConfirmed 6 ev ∈ pushes tr2) by member
  end.
  destruct (staking_request_then_confirmation W req _ _ _ _ _ ev _ Hrun1 Hsp Hrun2 Hpu
              eq_refl) as (s3 & Hrun3 & Hl).
  eexists _, _, _, _, s3.
  split; [exact Hrun1 |]. split; [exact Hsp |]. split; [exact Hrun2 |].
  split; [exact Hpu |]. split; [exact Hrun3 | exact Hl].
Defined.

Lemma traceAll_impl (P Q : Action -> Prop) {A} (m : Prog A) :
  (forall a, P a -> Q a) -> traceAll P m -> traceAll Q m.
Proof. intros H Hm s. eapply Forall_impl; [apply Hm | done]. Qed.

Lemma traceAll_bind_ret P {A B} (a : A) (f : A -> Prog B) :
  traceAll P (f a) -> traceAll P (bind (ret a) f).
Proof. intros H s. erewrite bind_pure by reflexivity. apply H. Qed.

Ltac traces_ret W :=
  repeat first [ solve [auto] | apply traceAll_bind_ret | trace_step W ].

Section UnbondingTask.

Variable W : World.
Variables (h : Hash) (addr : Address) (stored : StoredTransaction).
Variable d : UnbondingStoreData.

Lemma traceAll_task_broadcast :
  traceAll (unbondingTaskAction h addr d)
    (sendUnbondingTxToBtcWithWitness W h addr stored (Some d)).
Proof.
  unfold sendUnbondingTxToBtcWithWitness, stakerPrivateKey, UnlockWallet, DumpPrivateKey,
    SendRawTransaction, deref.
  cbv beta iota. traces_ret W; simpl; eauto.
Qed.

Lemma traceAll_retryOrQuit P : traceAll P (retryOrQuit W).
Proof. unfold retryOrQuit. traces_more W. Qed.

Lemma traceAll_task_send fuel :
  traceAll (unbondingTaskAction h addr d)
    (sendUnbondingTxToBtc_send W fuel h addr stored (Some d)).
Proof.
  pose proof traceAll_task_broadcast. pose proof (traceAll_retryOrQuit).
  induction fuel as [|fuel IH]; simpl; [traces_more W |].
  unfold deref. traces_more W; simpl; auto.
Qed.

Lemma traceAll_task_register fuel script :
  traceAll (unbondingTaskAction h addr d)
    (sendUnbondingTxToBtc_register W fuel (TxHash (UnbondingTx d)) script).
Proof.
  pose proof (traceAll_retryOrQuit).
  induction fuel as [|fuel IH]; simpl; [traces_more W |].
  unfold bestBlockHeight, RegisterConfirmationsNtfn. traces_more W; simpl; auto.
Qed.

Lemma traceAll_task_wait ev :
  traceAll (unbondingTaskAction h addr d)
    (waitForUnbondingTxConfirmation W ev (Some d) h).
Proof.
  unfold waitForUnbondingTxConfirmation, deref, Cancel. traces_more W; simpl; eauto.
Qed.

Lemma traceAll_task fuel :
  traceAll (unbondingTaskAction h addr d)
    (sendUnbondingTxToBtcAndWaitForConfirmation W fuel h addr stored (Some d)).
Proof.
  pose proof traceAll_task_send. pose proof traceAll_task_register.
  pose proof traceAll_task_wait.
  pose proof (traceAll_txOutPkScript (unbondingTaskAction h addr d) W).
  unfold sendUnbondingTxToBtcAndWaitForConfirmation, sendUnbondingTxToBtc, deref.
  cbv beta iota. traces_ret W.
Qed.

Lemma keepsStore_retryOrQuit : keepsStore (retryOrQuit W).
Proof. unfold retryOrQuit. keeps. Qed.

Lemma keepsStore_task_broadcast data :
  keepsStore (sendUnbondingTxToBtcWithWitness W h addr stored data).
Proof.
  pose proof (keepsStore_stakerPrivateKey W).
  destruct (keepsStore_wallet W) as (_ & _ & Hs & _ & _).
  unfold sendUnbondingTxToBtcWithWitness, deref. keeps_more.
Qed.

Lemma keepsStore_task_send fuel data :
  keepsStore (sendUnbondingTxToBtc_send W fuel h addr stored data).
Proof.
  pose proof keepsStore_task_broadcast. pose proof keepsStore_retryOrQuit.
  induction fuel as [|fuel IH]; simpl; [keeps |]. unfold deref. keeps_more.
Qed.

Lemma keepsStore_task_register fuel txh script :
  keepsStore (sendUnbondingTxToBtc_register W fuel txh script).
Proof.
  pose proof keepsStore_retryOrQuit.
  destruct (keepsStore_wallet W) as (_ & _ & _ & _ & Hr).
  induction fuel as [|fuel IH]; simpl; [keeps |]. unfold bestBlockHeight. keeps_more.
Qed.

Lemma keepsStore_task fuel data :
  keepsStore (sendUnbondingTxToBtcAndWaitForConfirmation W fuel h addr stored data).
Proof.
  pose proof keepsStore_task_send. pose proof keepsStore_task_register.
  pose proof keepsStore_txOutPkScript.
  unfold sendUnbondingTxToBtcAndWaitForConfirmation, sendUnbondingTxToBtc,
    waitForUnbondingTxConfirmation, deref, Cancel.
  keeps_more.
Qed.

End UnbondingTask.

(** ** The unbonding task *)

Section UnbondingTaskBound.

Variable W : World.
Variables (h : Hash) (addr : Address) (stored : StoredTransaction).
Variable d : UnbondingStoreData.

Lemma notPush_broadcast :
  traceAll notPush (sendUnbondingTxToBtcWithWitness W h addr stored (Some d)).
Proof.
  unfold sendUnbondingTxToBtcWithWitness, stakerPrivateKey, UnlockWallet, DumpPrivateKey,
    SendRawTransaction, deref.
  cbv beta iota. traces_ret W; reflexivity.
Qed.

Lemma notPush_send fuel :
  traceAll notPush (sendUnbondingTxToBtc_send W fuel h addr stored (Some d)).
Proof.
  pose proof notPush_broadcast. pose proof (traceAll_retryOrQuit W notPush).
  induction fuel as [|fuel IH]; simpl; [traces_more W |].
  unfold deref. traces_more W; reflexivity.
Qed.

Lemma notPush_register fuel txh script :
  traceAll notPush (sendUnbondingTxToBtc_register W fuel txh script).
Proof.
  pose proof (traceAll_retryOrQuit W notPush).
  induction fuel as [|fuel IH]; simpl; [traces_more W |].
  unfold bestBlockHeight, RegisterConfirmationsNtfn. traces_more W; reflexivity.
Qed.

Lemma notPush_sendUnbondingTxToBtc fuel :
  traceAll notPush (sendUnbondingTxToBtc W fuel h addr stored (Some d)).
Proof.
  pose proof notPush_send. pose proof notPush_register.
  pose proof (traceAll_txOutPkScript notPush W).
  unfold sendUnbondingTxToBtc, deref. cbv beta iota. traces_ret W.
Qed.

Lemma traceBound_PushOrQuit e : traceBound isPush 1 (PushOrQuit W e).
Proof. intros s. unfold PushOrQuit. destruct (_ && _); unfold count; simpl; lia. Qed.

Lemma traceBound_wait ev :
  traceBound isPush 1 (waitForUnbondingTxConfirmation W ev (Some d) h).
Proof.
  assert (Hsilent : forall A (m : Prog A), traceAll notPush m -> traceBound isPush 1 m).
  { intros A m H. apply (traceBound_le _ 0); [lia |]. by apply traceBound_zero. }
  unfold waitForUnbondingTxConfirmation. cbv beta iota.
  apply (traceBound_bind _ 0 1); [apply traceBound_zero; traces_more W |]. intros sel.
  destruct sel; try (apply Hsilent; unfold Cancel; traces_more W; reflexivity).
  apply (traceBound_bind _ 1 0); [apply traceBound_PushOrQuit |]. intros _.
  apply traceBound_zero. unfold Cancel. traces_more W.
Qed.

(** X12: the task that broadcasts an unbonding transaction and waits for its
    confirmation touches only that transaction: every broadcast carries the
    stored unbonding transaction, with a witness; every watch is for its hash
    and for [UnbondingTxConfirmations] confirmations; the wallet is unlocked
    for the default timeout and the key dumped for the staker address only;
    every error log is about the staking transaction; every pushed event is an
    unbonding confirmation of the staking transaction.  The task pushes at
    most one event and never writes the store. *)
Theorem unbonding_task_actions (fuel : nat) :
  let task := sendUnbondingTxToBtcAndWaitForConfirmation W fuel h addr stored (Some d) in
  traceAll (unbondingTaskAction h addr d) task /\
  traceBound isPush 1 task /\
  keepsStore task.
Proof.
  intros task. subst task.
  split; [apply traceAll_task | split; [| apply keepsStore_task]].
  unfold sendUnbondingTxToBtcAndWaitForConfirmation.
  apply (traceBound_bind _ 0 1); [apply traceBound_zero; traces_more W |].
  intros q. destruct q.
  { apply (traceBound_le _ 0); [lia |]. apply traceBound_zero. traces_more W. }
  apply (traceBound_bind _ 0 1);
    [apply traceBound_zero, notPush_sendUnbondingTxToBtc |].
  intros [ev|]; [apply traceBound_wait |].
  apply (traceBound_le _ 0); [lia |]. apply traceBound_zero. traces_more W.
Qed.

End UnbondingTaskBound.

(** ** Access to the private key *)

Lemma dumpsFollowUnlock_weaken b tr :
  dumpsFollowUnlock false tr = true -> dumpsFollowUnlock b tr = true.
Proof. destruct tr as [|a tr]; [done |]. destruct a; simpl; try done. Qed.

Lemma dumpsFollowUnlock_app t1 : forall b t2,
  dumpsFollowUnlock b t1 = true -> dumpsFollowUnlock false t2 = true ->
  dumpsFollowUnlock b (t1 ++ t2) = true.
Proof.
  induction t1 as [|a t1 IH]; intros b t2 H1 H2; simpl.
  - by apply dumpsFollowUnlock_weaken.
  - destruct a; simpl in *; try (by apply IH).
    apply andb_true_iff in H1 as [-> H1]. simpl. by apply IH.
Qed.

Lemma unlockedDumps_app t1 t2 :
  unlockedDumps t1 = true -> unlockedDumps t2 = true -> unlockedDumps (t1 ++ t2) = true.
Proof. apply dumpsFollowUnlock_app. Qed.

Lemma unlockedDumps_notDump tr : Forall notDump tr -> unlockedDumps tr = true.
Proof.
  unfold unlockedDumps. generalize false.
  induction tr as [|a tr IH]; intros b H; [done |].
  apply Forall_cons in H as [Ha H]. destruct a; simpl; try (by apply IH). done.
Qed.

Lemma dumpsGuarded_bind {A B} (m : Prog A) (f : A -> Prog B) :
  dumpsGuarded m -> (forall a, dumpsGuarded (f a)) -> dumpsGuarded (bind m f).
Proof.
  intros Hm Hf s. rewrite trace_bind_eq. apply unlockedDumps_app; [apply Hm |].
  destruct (outcome (m s)) as [[a s']| | | |]; [apply Hf | | | |]; reflexivity.
Qed.

Lemma dumpsGuarded_notDump {A} (m : Prog A) : traceAll notDump m -> dumpsGuarded m.
Proof. intros H s. apply unlockedDumps_notDump, H. Qed.

(** An unlocking followed by the request of the key, and what comes next. *)
Lemma dumpsGuarded_unlock_dump W {A} (addr : Address) (k1 : error -> Prog A)
    (k2 : res PrivateKey -> Prog A) :
  (forall e, dumpsGuarded (k1 e)) -> (forall r, dumpsGuarded (k2 r)) ->
  dumpsGuarded
    (bind (UnlockWallet W defaultWalletUnlockTimeout)
       (fun err => match err with
                   | Some e => k1 e
                   | None => bind (DumpPrivateKey W addr) k2
                   end)).
Proof.
  intros H1 H2 s. rewrite trace_bind_eq, UnlockWallet_run.
  cbn [trace outcome fst snd].
  destruct (wc_UnlockWallet _ _).
  - apply (unlockedDumps_app [_]); [done | apply H1].
  - rewrite trace_bind_eq, DumpPrivateKey_run. cbn [trace outcome fst snd].
    simpl. apply H2.
Qed.

Lemma dumpsGuarded_stakerPrivateKey W addr : dumpsGuarded (stakerPrivateKey W addr).
Proof.
  unfold stakerPrivateKey.
  apply (dumpsGuarded_unlock_dump W addr (fun e => ret (Err e))
           (fun r => match r with Err e => ret (Err e) | Ok k => ret (Ok k) end)).
  - intros e s. reflexivity.
  - intros [k|e] s; reflexivity.
Qed.

Ltac guarded W :=
  repeat first
    [ solve [auto]
    | apply dumpsGuarded_stakerPrivateKey
    | solve [apply dumpsGuarded_notDump; auto]
    | apply dumpsGuarded_bind; [| intros ?]
    | match goal with
      | |- dumpsGuarded (match ?x with _ => _ end) => destruct x
      | |- dumpsGuarded (if ?x then _ else _) => destruct x
      end
    | apply dumpsGuarded_notDump; solve [traces_more W; exact I] ].

Section KeyAccess.

Variable W : World.

Lemma notDump_handleStakingEvent ev : traceAll notDump (handleStakingEvent W ev).
Proof.
  pose proof (traceAll_mustGet notDump W).
  pose proof (fun A => @traceAll_deref notDump W A).
  destruct ev; cbn [handleStakingEvent];
    unfold bestBlockHeight, AddWatchedTransaction, AddTransaction, SendRawTransaction,
      waitForStakingTransactionConfirmation, RegisterConfirmationsNtfn,
      SetTxConfirmed, SetTxSentToBabylon, SetTxSpentOnBtc, SetTxUnbondingStarted,
      SetTxUnbondingSignaturesReceived, SetTxUnbondingConfirmedOnBtc,
      sendDelegationWithTxToBabylon;
    traces_more W; exact I.
Qed.

Lemma notDump_selectReply c1 c2 : traceAll notDump (selectReply W c1 c2).
Proof. unfold selectReply. traces_more W. Qed.

Lemma notDump_sendStakingRequest req : traceAll notDump (sendStakingRequest W req).
Proof.
  pose proof notDump_handleStakingEvent. unfold sendStakingRequest. traces_more W.
Qed.

Lemma notDump_sendUnbondingRequest req : traceAll notDump (sendUnbondingRequest W req).
Proof.
  pose proof notDump_handleStakingEvent. unfold sendUnbondingRequest.
  traces_more W; exact I.
Qed.

Lemma dumpsGuarded_StakeFunds addr amount pk t : dumpsGuarded (StakeFunds W addr amount pk t).
Proof.
  pose proof notDump_sendStakingRequest. pose proof notDump_selectReply.
  unfold StakeFunds.
  apply dumpsGuarded_bind; [guarded W |]. intros q. destruct q; [guarded W |].
  apply dumpsGuarded_bind; [unfold validatorExists; guarded W |].
  intros [e|]; [guarded W |].
  apply dumpsGuarded_bind; [unfold Params; guarded W |].
  intros [p|e]; [| guarded W].
  destruct (_ <=? _); [guarded W |]. destruct (_ <? _); [guarded W |].
  apply (dumpsGuarded_unlock_dump W addr (fun e => ret (None, Some e))).
  { intros e. guarded W. }
  intros r. unfold generatePop, CreateAndSignTx, newOwnedStakingRequest.
  guarded W.
Qed.

Lemma dumpsGuarded_SpendStake h : dumpsGuarded (SpendStake W h).
Proof.
  unfold SpendStake, SendRawTransaction, RegisterConfirmationsNtfn, bestBlockHeight.
  guarded W.
Qed.

Lemma dumpsGuarded_UnbondStaking h feeRate : dumpsGuarded (UnbondStaking W h feeRate).
Proof.
  pose proof notDump_sendUnbondingRequest. pose proof notDump_selectReply.
  unfold UnbondStaking, mustParseScript, newUnbondingRequest, Params.
  guarded W.
Qed.

Lemma dumpsGuarded_broadcast h addr stored data :
  dumpsGuarded (sendUnbondingTxToBtcWithWitness W h addr stored data).
Proof.
  unfold sendUnbondingTxToBtcWithWitness, SendRawTransaction, deref. guarded W.
Qed.

Lemma dumpsGuarded_send fuel h addr stored data :
  dumpsGuarded (sendUnbondingTxToBtc_send W fuel h addr stored data).
Proof.
  pose proof dumpsGuarded_broadcast. pose proof (traceAll_retryOrQuit W notDump).
  induction fuel as [|fuel IH]; simpl; [guarded W |]. unfold deref. guarded W.
Qed.

Lemma notDump_register fuel txh script :
  traceAll notDump (sendUnbondingTxToBtc_register W fuel txh script).
Proof.
  pose proof (traceAll_retryOrQuit W notDump).
  induction fuel as [|fuel IH]; simpl; [traces_more W |].
  unfold bestBlockHeight, RegisterConfirmationsNtfn. traces_more W; exact I.
Qed.

Lemma dumpsGuarded_task fuel h addr stored data :
  dumpsGuarded (sendUnbondingTxToBtcAndWaitForConfirmation W fuel h addr stored data).
Proof.
  pose proof dumpsGuarded_send. pose proof notDump_register.
  pose proof (traceAll_txOutPkScript notDump W).
  unfold sendUnbondingTxToBtcAndWaitForConfirmation, sendUnbondingTxToBtc,
    waitForUnbondingTxConfirmation, deref, Cancel.
  guarded W.
Qed.

End KeyAccess.

(** X13: the private key is only read from a wallet that was just unlocked:
    in every run of [StakeFunds], [UnbondStaking], [SpendStake] and of the
    unbonding task, however it ends, each [DumpPrivateKey] comes directly
    after an [UnlockWallet] with the default timeout. *)
Theorem private_key_only_after_unlock (W : World) :
  (forall addr amount pk t, dumpsGuarded (StakeFunds W addr amount pk t)) /\
  (forall h feeRate, dumpsGuarded (UnbondStaking W h feeRate)) /\
  (forall h, dumpsGuarded (SpendStake W h)) /\
  (forall fuel h addr stored data,
     dumpsGuarded (sendUnbondingTxToBtcAndWaitForConfirmation W fuel h addr stored data)).
Proof.
  repeat split; intros.
  - apply dumpsGuarded_StakeFunds.
  - apply dumpsGuarded_UnbondStaking.
  - apply dumpsGuarded_SpendStake.
  - apply dumpsGuarded_task.
Qed.

(** ** Spending a stake *)




(** ** Staking *)

Lemma selectReply_hash (W : World) (errChan successChan : ChanId) (s s' : AppState)
    (tr : list Action) (h : Hash) (e : option error) :
  selectReply W errChan successChan s = (tr, Done ((Some h, e), s')) ->
  chans s !! successChan = Some (CHash h) /\ e = None /\ tr = [] /\
  txTracker s' = txTracker s.
Proof.
  unfold selectReply. pure_step. intros Hrun.
  apply bind_inv in Hrun as (t1 & sel & s1 & t2 & Hsel & Hrun & ->).
  destruct (select_spec W
    [(chanReady s errChan, SelErrChan); (chanReady s successChan, SelSuccessChan);
     (quitAt W, SelQuitChan)] s) as [[_ Hb] | (c & m & _ & _ & _ & Hd)];
    rewrite Hsel in *; [discriminate |].
  injection Hd as -> Hc ->. clear Hc.
  destruct sel.
  - apply bind_inv in Hrun as (t3 & v & s3 & t4 & _ & Hrun & _).
    destruct v; discriminate.
  - apply bind_inv in Hrun as (t3 & v & s3 & t4 & Hrecv & Hrun & ->).
    unfold chanRecv in Hrecv. cbn [chans setNow] in Hrecv.
    destruct (chans s !! successChan) as [v'|]; [| discriminate].
    injection Hrecv as <- <- <-.
    destruct v'; [discriminate |]. injection Hrun as <- <- <- <-. auto.
  - discriminate.
Qed.

Lemma generatePop_pure (W : World) (k : PrivateKey) (s : AppState) :
  exists r, generatePop W k s = ([], Done (r, s)).
Proof.
  unfold generatePop. pure_step.
  destruct (bc_Sign _ _); [| by eexists].
  destruct (schnorr_Sign _ _ _); [| by eexists].
  destruct (cl_NewBabylonPop _ _ _); by eexists.
Qed.

Lemma CreateAndSignTx_run W outs feeRate a s :
  CreateAndSignTx W outs feeRate a s
  = ([WcCreateAndSignTx outs feeRate a],
     Done (wc_CreateAndSignTx (envAt W (now s)) outs feeRate a, s)).
Proof. reflexivity. Qed.

(** X15: a hash returned by [StakeFunds], the reply channels handed out from
    now on being empty, comes with a nil error and means that the amount
    exceeded the slashing fee and the staking time reached the minimum, that
    the transaction of that hash was broadcast and is watched for the
    confirmation time plus one confirmations, and that the store gained, under
    a hash it did not hold, a record of that transaction with output index 0,
    for the given staker address, in [SENT_TO_BTC] and not watched. *)
Theorem StakeFunds_success (W : World) (stakerAddress : Address) (stakingAmount : Z)
    (validatorPk : PublicKey) (stakingTimeBlocks : Z) (s s' : AppState)
    (tr : list Action) (h : Hash) (e : option error) :
  freshChans s ->
  StakeFunds W stakerAddress stakingAmount validatorPk stakingTimeBlocks s
  = (tr, Done ((Some h, e), s')) ->
  e = None /\
  stakeSucceeded W stakerAddress stakingAmount stakingTimeBlocks s tr h s'.
Proof.
  intros Hfresh. unfold StakeFunds. pure_step.
  destruct (firedBy W (now s)) eqn:Hq; [discriminate |].
  pure_step. destruct (app_validatorExists _ _); [discriminate |].
  pure_step. destruct (bc_Params _) as [p|] eqn:Hp; [| discriminate].
  destruct (Z.leb_spec stakingAmount (getSlashingFee p)); [discriminate |].
  destruct (Z.ltb_spec stakingTimeBlocks (GetMinStakingTime p)); [discriminate |].
  intros Hrun.
  apply bind_inv in Hrun as (t1 & unlock & s1 & t2 & Hunlock & Hrun & ->).
  rewrite UnlockWallet_run in Hunlock. injection Hunlock as <- <- <-.
  destruct (wc_UnlockWallet _ _); [discriminate |].
  apply bind_inv in Hrun as (t3 & key & s3 & t4 & Hkey & Hrun & ->).
  rewrite DumpPrivateKey_run in Hkey. injection Hkey as <- <- <-.
  destruct (wc_DumpPrivateKey _ _) as [stakerPrivKey|]; [| discriminate].
  destruct (generatePop_pure W stakerPrivKey s) as (rpop & Hpop).
  revert Hrun. erewrite bind_pure by exact Hpop.
  destruct rpop as [pop|]; [| discriminate].
  pure_step.
  destruct (staking_BuildStakingOutput _ _ _ _ _ _) as [[output script]|]; [| discriminate].
  intros Hrun.
  apply bind_inv in Hrun as (t5 & signed & s5 & t6 & Hsign & Hrun & ->).
  rewrite CreateAndSignTx_run in Hsign. injection Hsign as <- <- <-.
  destruct (wc_CreateAndSignTx _ _ _ _) as [tx|]; [| discriminate].
  apply bind_inv in Hrun as (t7 & req & s7 & t8 & Hreq & Hrun & ->).
  unfold newOwnedStakingRequest, newChan, bind, ret in Hreq. simpl in Hreq.
  injection Hreq as <- <- <-.
  apply bind_inv in Hrun as (t9 & [] & s9 & t10 & Hsent & Hrun & ->).
  apply selectReply_hash in Hrun as (Hchan & -> & -> & Hs').
  cbn [rq_errChan rq_successChan] in Hchan.
  unfold sendStakingRequest in Hsent. revert Hsent. pure_step.
  cbn [now]. rewrite Hq. cbn [andb]. intros Hsent.
  apply handleStakingEvent_request in Hsent.
  set (s0 := mkAppState (now s) (txTracker s) (chans s) (N.succ (N.succ (nextChan s)))) in *.
  assert (Hsucc : chans s !! N.succ (nextChan s) = None) by (apply Hfresh; lia).
  split; [done |].
  destruct Hsent as [ev Hev Hl | err Hw Hsend | old Hl | err Hev Hl];
    cbn [replied chans setChans setTracker rq_errChan rq_successChan rq_stakingTx
         txTracker] in *;
    try (rewrite lookup_insert_ne in Hchan by lia;
         pose proof (eq_trans (eq_sym Hchan) Hsucc); discriminate).
  rewrite lookup_insert_eq in Hchan. injection Hchan as <-.
  exists p, tx, (newRecord (mkStakingRequest stakerAddress tx 0 (PkScript output) script
                    (ConfirmationTimeBlocks p) (Some pop) None (nextChan s)
                    (N.succ (nextChan s)))).
  rewrite Hs'. unfold watchOf, broadcastOf. cbn.
  repeat split; try done.
  - repeat (apply elem_of_cons; first [left; reflexivity | right]).
  - eexists _, _. repeat (apply elem_of_cons; first [left; reflexivity | right]).
Qed.

Lemma StakeFunds_success_witness :
  let s := Sample.empty in
  freshChans s /\
  exists tr s',
    StakeFunds Sample.calm "staker-address" 100000 7%N 1000 s
    = (tr, Done ((Some 42%N, None), s')) /\
    stakeSucceeded Sample.calm "staker-address" 100000 1000 s tr 42%N s'.
Proof.
  intros s.
  assert (Hf : freshChans s) by apply freshChans_state.
  split; [exact Hf |].
  destruct (StakeFunds Sample.calm "staker-address" 100000 7%N 1000 s)
    as [tr r] eqn:Hrun.
  evaluate Hrun.
  eexists _, _. split; [exact Hrun |].
  exact (proj2 (StakeFunds_success _ _ _ _ _ _ _ _ _ _ Hf Hrun)).
Defined.

(** ** Starting the daemon *)

Lemma startDaemon_inv W b s tr err app' :
  startDaemon W b s = (tr, Done (err, app')) ->
  startOnce app' = true /\
  exists tr',
    checkTransactionsStatus (holdingBestBlockHeight (wrap32 (FirstEpochHeight b)) W) s
    = (tr', Done (err, engine app')) /\
    [NtfnStart; NtfnRegisterBlockEpochNtfn] ++ tr = startedOn b ++ map Reconcile tr'.
Proof.
  unfold startDaemon. cbv zeta.
  destruct (checkTransactionsStatus _ s) as [t [[e s']| | | |]]; try discriminate.
  intros [= <- <- <-]. simpl. eauto.
Qed.

(** X16: [Start] runs once: after a call that returned, with an error or
    without, every later call returns nil without doing anything, whatever the
    notifier would answer; a failed start is not retried. *)
Theorem Start_runs_once (W : World) (notifier notifier' : ChainNotifier)
    (app app' : StakerApp) (tr : list StartAction) (err : option error) :
  Start W notifier app = (tr, Done (err, app')) ->
  Start W notifier' app' = ([], Done (None, app')).
Proof.
  unfold Start at 1. destruct (startOnce app) eqn:Honce.
  { intros [= <- <- <-]. unfold Start. by rewrite Honce. }
  assert (Hdone : forall a, startOnce a = true -> Start W notifier' a = ([], Done (None, a))).
  { intros a Ha. unfold Start. by rewrite Ha. }
  destruct (ntfn_Start notifier); [intros [= <- <- <-]; by apply Hdone |].
  destruct (ntfn_RegisterBlockEpochNtfn notifier) as [ev|];
    [| intros [= <- <- <-]; by apply Hdone].
  destruct (select W _ (engine app)) as [t [[[] s]| | | |]]; try discriminate.
  - destruct (startDaemon W ev s) as [t' r] eqn:Hd. intros [= <- ->].
    apply startDaemon_inv in Hd as [Ha _]. by apply Hdone.
  - intros [= <- <- <-]. by apply Hdone.
Qed.

Lemma Start_runs_once_witness :
  let app := mkStakerApp false Example.sentAndSpent in
  exists tr err app',
    Start Sample.restartLost Example.notifier app = (tr, Done (err, app')) /\
    Start Sample.restartLost Example.notifier app' = ([], Done (None, app')).
Proof.
  intros app.
  destruct (Start Sample.restartLost Example.notifier app) as [tr r] eqn:Hrun.
  evaluate Hrun.
  eexists _, _, _. split; [exact Hrun |].
  exact (Start_runs_once _ _ Example.notifier _ _ _ _ Hrun).
Defined.

(** X17: a first call of [Start] that returns has either failed before the
    first block (the notifier did not start, refused the block registration,
    or [quit] was closed first): then it returns an error, has only called the
    notifier, and the store is as it was; or it has received the first block
    and then, in this order, stored the height of that block, started the
    block handler, the delegation sender and the event loop, and run the
    reconciler, at that instant and with the stored height as the best known
    height; the actions of the reconciler end the trace, and its result and
    final state are those of the call. *)
Theorem Start_goroutines_before_reconciliation (W : World) (notifier : ChainNotifier)
    (app app' : StakerApp) (tr : list StartAction) (err : option error) :
  startOnce app = false ->
  Start W notifier app = (tr, Done (err, app')) ->
  (is_Some err /\ (tr = [NtfnStart] \/ tr = [NtfnStart; NtfnRegisterBlockEpochNtfn]) /\
   txTracker (engine app') = txTracker (engine app)) \/
  (exists b block tr',
     ntfn_Start notifier = None /\
     ntfn_RegisterBlockEpochNtfn notifier = Ok b /\
     FirstEpochAt b = Some block /\
     checkTransactionsStatus (holdingBestBlockHeight (wrap32 (FirstEpochHeight b)) W)
       (setNow (Z.max block (now (engine app))) (engine app))
     = (tr', Done (err, engine app')) /\
     tr = startedOn b ++ map Reconcile tr').
Proof.
  intros Honce. unfold Start. rewrite Honce.
  destruct (ntfn_Start notifier) eqn:Hstart.
  { intros [= <- <- <-]. left. simpl. eauto. }
  destruct (ntfn_RegisterBlockEpochNtfn notifier) as [ev|] eqn:Hreg.
  2: { intros [= <- <- <-]. left. simpl. eauto. }
  destruct (select_spec W [(FirstEpochAt ev, SelBlock); (quitAt W, SelQuitStart)]
              (engine app)) as [[_ ->] | (c & m & Hc & Hf & _ & ->)]; [discriminate |].
  apply elem_of_cons in Hc as [-> | Hc]; cbn [fst snd] in *.
  - destruct (FirstEpochAt ev) as [block|] eqn:Hblock; [| discriminate].
    simpl in Hf. injection Hf as <-.
    destruct (startDaemon W ev _) as [t' r] eqn:Hd. intros [= <- ->].
    apply startDaemon_inv in Hd as (_ & tr' & Hrec & Htr).
    right. exists ev, block, tr'. repeat split; auto.
  - apply elem_of_cons in Hc as [-> | Hc]; [| by apply elem_of_nil in Hc].
    cbn [fst snd]. intros [= <- <- <-]. left. simpl. eauto.
Qed.

Lemma Start_goroutines_before_reconciliation_witness :
  let app := mkStakerApp false Example.sentToBtc in
  let reconciler :=
    [NtfnRegisterConfirmations 1%N [] 7 103;
     Go (TaskWaitForStakingTxConfirmation 1%N 6 (Sample.event 1%N None))] in
  startOnce app = false /\
  currentBestBlockHeight (envAt Sample.restart 3) = 110 /\
  exists app',
    Start Sample.restart Example.notifier app
    = (startedOn Example.firstBlock ++ map Reconcile reconciler, Done (None, app')) /\
    checkTransactionsStatus (holdingBestBlockHeight 103 Sample.restart)
      (setNow 3 Example.sentToBtc)
    = (reconciler, Done (None, engine app')).
Proof.
  intros app reconciler. split; [reflexivity |]. split; [reflexivity |].
  destruct (Start Sample.restart Example.notifier app) as [tr r] eqn:Hrun.
  evaluate Hrun.
  eexists. split; [exact Hrun |].
  destruct (Start_goroutines_before_reconciliation _ _ app _ _ _ eq_refl Hrun)
    as [(_ & [Htr | Htr] & _) | (b & block & tr' & _ & Hb & Hat & Hc & Htr)];
    try discriminate Htr.
  injection Hb as <-. injection Hat as <-.
  unfold startedOn in Htr. simpl in Htr. injection Htr as Htr.
  destruct tr' as [|x [|y [|z tr']]]; try discriminate Htr.
  injection Htr as <- <-. exact Hc.
Defined.

(** ** Resuming an unbonding at start-up *)

(** X18: what the reconciler does with a record whose unbonding signatures
    were received, once the wallet has answered about its unbonding
    transaction.  Not found, the transaction is handed to the task that
    broadcasts it.  Found in the mempool or in the chain, its confirmation is
    watched for [UnbondingTxConfirmations] confirmations, from the inclusion
    height when it is in the chain and from the best known height otherwise,
    and the waiting task is started; a registration the notifier refuses ends
    the reconciliation with the wrapped error.  An answer that reports the
    transaction found but carries no details is a nil dereference. *)
Theorem checkOnBabylon_signatures_received (W : World) (s : AppState) (h : Hash)
    (stored : StoredTransaction) (addr : Address) (d : UnbondingStoreData) (o : TxOut)
    (found : option TxConfirmation * TxStatus) :
  txTracker s !! h = Some stored ->
  btcutil_DecodeAddress (envAt W (now s)) (StakerAddress stored) = Ok addr ->
  UnbondingTxData stored = Some d ->
  TxOuts (UnbondingTx d) !! 0%nat = Some o ->
  wc_TxDetails (envAt W (now s)) (TxHash (UnbondingTx d)) (PkScript o) = Ok found ->
  checkOnBabylon W (mkStakingDbInfo h UNBONDING_SIGNATURES_RECEIVED) s
  = resumeUnbonding W h addr stored d o s found.
Proof.
  intros Hl Haddr Hd Ho Hfound.
  unfold checkOnBabylon. cbn [stakingTxState stakingTxHash].
  erewrite bind_pure; cycle 1.
  { unfold mustGetTransactionAndStakerAddress. pure_step.
    unfold Store.get. rewrite Hl. pure_step. rewrite Haddr. reflexivity. }
  cbv beta iota. rewrite Hd. erewrite bind_pure by reflexivity.
  erewrite bind_pure
    by (unfold txOutPkScript; change (Z.to_nat 0) with 0%nat; rewrite Ho; reflexivity).
  erewrite bind_pure by (unfold TxDetails; pure_step; reflexivity).
  rewrite Hfound. unfold resumeUnbonding.
  destruct found as [[details|] status]; destruct status; try reflexivity;
    erewrite bind_pure by reflexivity; pure_step;
    erewrite bind_done by apply RegisterConfirmationsNtfn_run;
    destruct (ntfn_RegisterConfirmationsNtfn _ _ _ _ _); reflexivity.
Qed.

Lemma checkOnBabylon_signatures_received_witness :
  let s := Sample.state 0 [Sample.unbondingRecord] in
  let o := mkTxOut 98000 [] in
  let found := (Some (Sample.conf 44%N), TxInChain) in
  txTracker s !! 3%N = Some Sample.unbondingRecord /\
  wc_TxDetails (envAt Sample.restart (now s)) 44%N (PkScript o) = Ok found /\
  checkOnBabylon Sample.restart (mkStakingDbInfo 3%N UNBONDING_SIGNATURES_RECEIVED) s
  = resumeUnbonding Sample.restart 3%N "staker-address" Sample.unbondingRecord
      Sample.unbonding o s found.
Proof.
  intros s o found.
  assert (Hl : txTracker s !! 3%N = Some Sample.unbondingRecord)
    by (vm_compute; reflexivity).
  split; [exact Hl |]. split; [reflexivity |].
  exact (checkOnBabylon_signatures_received Sample.restart s 3%N Sample.unbondingRecord
           "staker-address" Sample.unbonding o found Hl eq_refl eq_refl eq_refl eq_refl).
Defined.

(** ** From the unbonding signatures to the confirmation *)

Section UnbondingFlow.

Variable W : World.

Lemma send_None_never_returns fuel h addr stored s tr b s' :
  sendUnbondingTxToBtc_send W fuel h addr stored None s <> (tr, Done (b, s')).
Proof.
  destruct fuel as [|fuel]; [discriminate |]. cbn [sendUnbondingTxToBtc_send].
  intros Hrun.
  apply bind_inv in Hrun as (t1 & err & s1 & t2 & Hsend & Hrun & _).
  destruct err as [err|].
  - apply bind_inv in Hrun as (t3 & x & s3 & t4 & Hd & _ & _). discriminate.
  - unfold sendUnbondingTxToBtcWithWitness in Hsend.
    apply bind_inv in Hsend as (t3 & key & s3 & t4 & _ & Hsend & _).
    destruct key as [key|e].
    + revert Hsend. pure_step. destruct (createWitnessToSendUnbondingTx _ _ _ _);
        [| discriminate].
      intros Hsend. apply bind_inv in Hsend as (t5 & x & s5 & t6 & Hd & _ & _).
      discriminate.
    + apply bind_inv in Hsend as (t5 & x & s5 & t6 & _ & Hsend & _). discriminate.
Qed.

Lemma task_None_silent fuel h addr stored s tr s' :
  sendUnbondingTxToBtcAndWaitForConfirmation W fuel h addr stored None s
  = (tr, Done (tt, s')) ->
  tr = [].
Proof.
  unfold sendUnbondingTxToBtcAndWaitForConfirmation. pure_step.
  destruct (firedBy W (now s)); [by intros [= <- <-] |].
  intros Hrun. apply bind_inv in Hrun as (t1 & ev & s1 & t2 & Hsend & _ & _).
  unfold sendUnbondingTxToBtc in Hsend.
  apply bind_inv in Hsend as (t3 & b & s3 & t4 & Hsend & _ & _).
  by apply send_None_never_returns in Hsend.
Qed.

(** X19: the unbonding signatures and the confirmation of the unbonding
    transaction compose.  When the event loop has handled the signatures of a
    record, a task it started has run to its end and pushed an event, then
    that event is the unbonding confirmation of the same staking transaction,
    and handling it writes [UNBONDING_CONFIRMED_ON_BTC] and leaves the record
    in that state, holding the received signatures and the block of the
    confirmation. *)
Theorem unbonding_signatures_then_confirmation (c : unbondingSignaturesConfirmed)
    (s s1 s2 : AppState) (tr1 tr2 : list Action) (task : Task) (fuel : nat) (e : Event) :
  let h := usc_stakingTxHash c in
  handleStakingEvent W (EvUnbondingSignaturesConfirmed c) s = (tr1, Done (tt, s1)) ->
  task ∈ spawned tr1 ->
  runTask W fuel task s1 = (tr2, Done (tt, s2)) ->
  e ∈ pushes tr2 ->
  exists waitEv s3 stored,
    e = unbondingConfirmed h waitEv /\
    handleStakingEvent W e s2
    = ([StoreWrite h UNBONDING_CONFIRMED_ON_BTC], Done (tt, s3)) /\
    txTracker s3 !! h = Some stored /\
    unbondingRecorded stored
      (usc_validatorUnbondingSignature c, usc_juryUnbondingSignature c)
      (Confirmation waitEv).
Proof.
  intros h Hev Htask Hrun Hpush.
  cbn [handleStakingEvent] in Hev.
  apply bind_inv in Hev as (t1 & err & s0 & t2 & Hset & Hev & ->).
  apply storeUpdate_inv in Hset as [(m & Hm & -> & -> & ->) | (e0 & _ & _ & -> & _)];
    [| discriminate].
  unfold Store.setUnbondingSignaturesReceived, Store.transition in Hm. fold h in Hm.
  destruct (txTracker s !! h) as [tx0|] eqn:Hl; [| discriminate].
  case_bool_decide; [| discriminate]. injection Hm as <-.
  apply bind_inv in Hev as (t3 & [stored addr] & s3 & t4 & Hget & Hev & ->).
  unfold mustGetTransactionAndStakerAddress in Hget. revert Hget. pure_step.
  unfold Store.get. cbn [txTracker setTracker]. fold h. rewrite lookup_insert_eq.
  pure_step. destruct (btcutil_DecodeAddress _ _); [| discriminate].
  intros [= <- <- <- <-]. injection Hev as <- <-.
  simpl in Htask. apply list_elem_of_singleton in Htask as ->.
  cbn [runTask] in Hrun. fold h in Hrun.
  destruct (UnbondingTxData tx0) as [u|] eqn:Hu.
  2: { cbn [withState UnbondingTxData] in Hrun. rewrite Hu in Hrun.
       apply task_None_silent in Hrun as ->. by apply elem_of_nil in Hpush. }
  cbn [withState withUnbonding UnbondingTxData] in Hrun.
  match type of Hrun with
  | sendUnbondingTxToBtcAndWaitForConfirmation _ _ _ _ ?r (Some ?d) ?st = _ =>
      pose proof (keepsStore_task W h a r fuel (Some d) _ _ _ _ Hrun) as Hs2;
      pose proof (traceAll_task W h a r d fuel st) as Hall;
      set (r1 := r) in *
  end.
  rewrite Hrun in Hall. cbn [trace fst] in Hall.
  assert (Hconf : exists waitEv, e = unbondingConfirmed h waitEv).
  { clear -Hall Hpush. induction tr2 as [|x tr2 IH]; [by apply elem_of_nil in Hpush |].
    apply Forall_cons in Hall as [Hx Hall].
    destruct x; simpl in Hpush; try (by apply IH).
    apply elem_of_cons in Hpush as [-> | Hpush]; [exact Hx | by apply IH]. }
  destruct Hconf as (waitEv & ->). exists waitEv.
  assert (Hl2 : txTracker s2 !! h = Some r1).
  { rewrite Hs2. apply lookup_insert_eq. }
  eexists _, _. split; [done |].
  unfold unbondingConfirmed. cbn [handleStakingEvent uc_stakingTxHash uc_blockHash
                                   uc_blockHeight].
  unfold SetTxUnbondingConfirmedOnBtc, storeUpdate, Store.setUnbondingConfirmedOnBtc,
    Store.transition, bind.
  rewrite Hl2. simpl.
  split; [reflexivity |]. split; [apply lookup_insert_eq |].
  split; [reflexivity |]. eexists. split; [reflexivity |]. by split.
Qed.

End UnbondingFlow.

Lemma unbonding_signatures_then_confirmation_witness :
  let W := Example.confirming in
  let c := mkUnbondingSignaturesConfirmed 3%N [] [] in
  exists tr1 s1 task tr2 s2 e waitEv s3 stored,
    handleStakingEvent W (EvUnbondingSignaturesConfirmed c) Example.unbondingStarted
    = (tr1, Done (tt, s1)) /\
    task ∈ spawned tr1 /\
    runTask W 3 task s1 = (tr2, Done (tt, s2)) /\
    e ∈ pushes tr2 /\
    e = unbondingConfirmed 3%N waitEv /\
    handleStakingEvent W e s2
    = ([StoreWrite 3%N UNBONDING_CONFIRMED_ON_BTC], Done (tt, s3)) /\
    txTracker s3 !! 3%N = Some stored /\
    unbondingRecorded stored ([], []) (Confirmation waitEv).
Proof.
  intros W c.
  destruct (handleStakingEvent W (EvUnbondingSignaturesConfirmed c)
              Example.unbondingStarted) as [tr1 r1] eqn:Hrun1.
  evaluate Hrun1.
  match type of Hrun1 with _ = (?tr1, Done (tt, ?s1)) =>
    let t := eval vm_compute in (spawned tr1) in
    match t with ?task :: _ =>
      assert (Hsp : task ∈ spawned tr1) by member;
      destruct (runTask W 3 task s1) as [tr2 r2] eqn:Hrun2
    end
  end.
  evaluate Hrun2.
  match type of Hrun2 with _ = (?tr2, _) =>
    let t := eval vm_compute in (pushes tr2) in
    match t with ?e :: _ => assert (Hpu : e ∈ pushes tr2) by member end
  end.
  destruct (unbonding_signatures_then_confirmation W c _ _ _ _ _ _ _ _ Hrun1 Hsp Hrun2 Hpu)
    as (waitEv & s3 & stored & He & Hrun3 & Hl & Hrec).
  eexists _, _, _, _, _, _, waitEv, s3, stored.
  split; [exact Hrun1 |]. split; [exact Hsp |]. split; [exact Hrun2 |].
  split; [exact Hpu |]. split; [exact He |]. split; [exact Hrun3 |].
  split; [exact Hl | exact Hrec].
Defined.

(** ** Watching a stake *)

(** X20: a hash returned by [WatchStaking], the reply channels handed out
    from now on being empty, comes with a nil error and means that the request
    was parsed against the current parameters, that its validator exists, that
    the hash is the hash of the parsed staking transaction, and that the store
    gained, under a hash it did not hold, a record of that transaction in
    [SENT_TO_BTC], watched as the parsed request says.  The wallet was not
    unlocked and no key was read; the only broadcast is the one the event loop
    makes for a request that is not watched. *)
Theorem WatchStaking_success (W : World) (stakingTx : MsgTx) (stakingscript : Bytes)
    (slashingTx : MsgTx) (slashingTxSig : Bytes) (stakerBabylonPk : PublicKey)
    (stakerAddress : Address) (pop : option BabylonPop) (s s' : AppState)
    (tr : list Action) (h : Hash) (e : option error) :
  freshChans s ->
  WatchStaking W stakingTx stakingscript slashingTx slashingTxSig stakerBabylonPk
    stakerAddress pop s = (tr, Done ((Some h, e), s')) ->
  e = None /\
  watchSucceeded W stakingTx stakingscript slashingTx slashingTxSig stakerBabylonPk
    stakerAddress pop s tr h s'.
Proof.
  intros Hfresh. unfold WatchStaking. pure_step.
  destruct (bc_Params _) as [p|] eqn:Hp; [| discriminate].
  pure_step.
  destruct (parseWatchStakingRequest _ _ _ _ _ _ _ _ _) as [[parsed scriptData]|] eqn:Hparse;
    [| discriminate].
  intros Hrun.
  apply bind_inv in Hrun as (t1 & req & s1 & t2 & Hreq & Hrun & ->).
  unfold withFreshChans, newChan, bind, ret in Hreq. simpl in Hreq.
  injection Hreq as <- <- <-.
  revert Hrun. pure_step. cbn [now].
  destruct (app_validatorExists _ _) eqn:Hval; [discriminate |].
  intros Hrun.
  apply bind_inv in Hrun as (t3 & sc & s3 & t4 & Hsc & Hrun & ->).
  assert (t3 = [] /\ s3 = mkAppState (now s) (txTracker s) (chans s)
                            (N.succ (N.succ (nextChan s)))) as [-> ->].
  { unfold txOutPkScript in Hsc. destruct (_ !! _); [| discriminate].
    destruct (_ <=? _); [| discriminate]. by injection Hsc as <- <- <-. }
  apply bind_inv in Hrun as (t5 & [] & s5 & t6 & Hsent & Hrun & ->).
  apply selectReply_hash in Hrun as (Hchan & -> & -> & Hs').
  cbn [rq_errChan rq_successChan] in Hchan.
  unfold sendStakingRequest in Hsent. revert Hsent. pure_step. cbn [now].
  destruct (firedBy W (now s) && negb (lateServe W (now s))); [discriminate |].
  intros Hsent. apply handleStakingEvent_request in Hsent.
  assert (Hsucc : chans s !! N.succ (nextChan s) = None) by (apply Hfresh; lia).
  split; [done |].
  set (req := mkStakingRequest _ _ _ _ _ _ _ _ _ _) in *.
  assert (Hw : isWatched req = isWatched parsed) by reflexivity.
  assert (Hb : broadcastOf req = broadcastOf parsed) by reflexivity.
  destruct Hsent as [ev Hev Hl | err Hw' Hsend | old Hl | err Hev Hl];
    cbn [replied chans setChans setTracker rq_errChan rq_successChan rq_stakingTx
         txTracker req] in *;
    try (rewrite lookup_insert_ne in Hchan by lia;
         pose proof (eq_trans (eq_sym Hchan) Hsucc); discriminate).
  rewrite lookup_insert_eq in Hchan. injection Hchan as <-.
  exists p, parsed, scriptData, (newRecord req).
  rewrite Hs'. repeat split; try done.
  rewrite app_nil_r. cbn [app]. rewrite <- Hb. unfold watchOf, broadcastOf.
  destruct (isWatched req); reflexivity.
Qed.

Lemma WatchStaking_success_witness :
  let s := Sample.empty in
  let slashingTx := mkMsgTx 45%N [mkTxOut 99500 []] None in
  freshChans s /\
  exists tr s',
    WatchStaking Sample.calm (Sample.tx 1%N) [] slashingTx [] 5%N "staker-address" None s
    = (tr, Done ((Some 1%N, None), s')) /\
    watchSucceeded Sample.calm (Sample.tx 1%N) [] slashingTx [] 5%N "staker-address"
      None s tr 1%N s'.
Proof.
  intros s slashingTx.
  assert (Hf : freshChans s) by apply freshChans_state.
  split; [exact Hf |].
  destruct (WatchStaking Sample.calm (Sample.tx 1%N) [] slashingTx [] 5%N
              "staker-address" None s) as [tr r] eqn:Hrun.
  evaluate Hrun.
  eexists _, _. split; [exact Hrun |].
  exact (proj2 (WatchStaking_success _ _ _ _ _ _ _ _ _ _ _ _ _ Hf Hrun)).
Defined.

(** ** Delegations found on the coordinator at start-up *)

Lemma pushes_app t1 t2 : pushes (t1 ++ t2) = pushes t1 ++ pushes t2.
Proof.
  induction t1 as [|a t1 IH]; [reflexivity |]. destruct a; simpl; by rewrite ?IH.
Qed.

Lemma checkConfirmedOnBtc_delegated (W : World) (p : StakingParams) (s : AppState)
    (h : Hash) :
  firedBy W (now s) = false ->
  bc_IsTxAlreadyPartOfDelegation (envAt W (now s)) h = Ok true ->
  checkConfirmedOnBtc W p h s = ([Push (delegationFound h)], Done (Next, s)).
Proof.
  intros Hq Hd. unfold checkConfirmedOnBtc.
  erewrite bind_pure by (unfold IsTxAlreadyPartOfDelegation; pure_step; reflexivity).
  rewrite Hd. unfold bind, pushEvent. rewrite Hq. reflexivity.
Qed.

Lemma handleStaking_delegations (W : World) (s : AppState) (l : list Hash) :
  NoDup l ->
  forall m,
    (forall h, h ∈ l -> exists tx, m !! h = Some tx /\ State tx = CONFIRMED_ON_BTC) ->
    exists tr m',
      handleStaking W (map delegationFound l) (setTracker m s)
      = (tr, Done (tt, setTracker m' s)) /\
      (forall h tx, m !! h = Some tx ->
         m' !! h = Some (if bool_decide (h ∈ l) then withState SENT_TO_BABYLON tx else tx)).
Proof.
  induction 1 as [|h l Hnotin Hnodup IH]; intros m Hall.
  - exists [], m. split; [reflexivity |]. intros h tx Hl.
    rewrite bool_decide_eq_false_2; [done |]. apply not_elem_of_nil.
  - destruct (Hall h) as (tx & Hl & Hst); [apply elem_of_cons; auto |].
    set (m1 := <[h := withState SENT_TO_BABYLON tx]> m).
    destruct (IH m1) as (tr & m' & Hrun & Hm').
    { intros h' Hin. destruct (Hall h') as (tx' & Hl' & Hst');
        [apply elem_of_cons; auto |].
      exists tx'. split; [| done]. unfold m1. rewrite lookup_insert_ne; [done |].
      intros ->. done. }
    exists ([StoreWrite h SENT_TO_BABYLON] ++ tr), m'. split.
    + cbn [map handleStaking]. erewrite bind_done; cycle 1.
      { unfold delegationFound. cbn [handleStakingEvent sr_err sr_txHash].
        unfold SetTxSentToBabylon, storeUpdate, Store.setSentToBabylon, Store.transition,
          bind.
        cbn [txTracker setTracker]. rewrite Hl, Hst. simpl. reflexivity. }
      cbn [setTracker txTracker now chans nextChan].
      change (setTracker _ (setTracker m s)) with (setTracker m1 s).
      rewrite Hrun. reflexivity.
    + intros h' tx' Hl'. destruct (decide (h' = h)) as [-> | Hne].
      * assert (tx' = tx) as -> by (pose proof (eq_trans (eq_sym Hl') Hl) as E; by injection E).
        rewrite bool_decide_eq_true_2 by (apply elem_of_cons; auto).
        rewrite (Hm' h (withState SENT_TO_BABYLON tx)) by apply lookup_insert_eq.
        by rewrite bool_decide_eq_false_2.
      * rewrite (Hm' h' tx') by (unfold m1; by rewrite lookup_insert_ne).
        f_equal. destruct (decide (h' ∈ l)) as [Hin | Hnin].
        -- rewrite !bool_decide_eq_true_2; [done | apply elem_of_cons; auto | done].
        -- rewrite !bool_decide_eq_false_2; [done | | done].
           intros Hin. apply elem_of_cons in Hin as [? | ?]; done.
Qed.

Lemma setTracker_same s : setTracker (txTracker s) s = s.
Proof. by destruct s. Qed.

Lemma hashes_of_filtered (P : StoredTransaction -> Prop) `{!forall x, Decision (P x)}
    (L : list (N * StoredTransaction)) :
  (forall h tx, (h, tx) ∈ L -> P tx -> txid tx = h) ->
  map txid (filter P (L.*2)) = (filter (fun x => P x.2) L).*1.
Proof.
  induction L as [|[h tx] L IH]; intros Hkey; [reflexivity |].
  cbn [fmap list_fmap snd]. 
  assert (IH' : map txid (filter P L.*2) = (filter (fun x => P x.2) L).*1).
  { apply IH. intros h' tx' Hin. apply Hkey. apply elem_of_cons. auto. }
  destruct (decide (P tx)) as [Hp | Hp].
  - rewrite filter_cons_True by done. rewrite (filter_cons_True (fun x => P x.2)) by done.
    cbn [map fmap list_fmap fst]. f_equal; [| exact IH'].
    apply Hkey; [apply elem_of_cons; auto | done].
  - rewrite filter_cons_False by done. rewrite (filter_cons_False (fun x => P x.2)) by done.
    exact IH'.
Qed.

(** X21: the restart repairs the delegations the store has missed.  With
    the daemon running and every record either settled or confirmed on Bitcoin
    with its delegation already on the coordinator, the reconciler returns
    nil, leaving the state as it was, after pushing one delegation response
    per such record; and the event loop, handling what was pushed, moves
    exactly the records confirmed on Bitcoin to [SENT_TO_BABYLON] and leaves
    the others as they were. *)
Theorem reconciler_repairs_delegations (W : World) (s : AppState) (p : StakingParams) :
  firedBy W (now s) = false ->
  bc_Params (envAt W (now s)) = Ok p ->
  (forall h tx, txTracker s !! h = Some tx ->
     settled (envAt W (now s)) tx \/ delegatedBehind (envAt W (now s)) h tx) ->
  exists tr tr' s',
    checkTransactionsStatus W s = (tr, Done (None, s)) /\
    handleStaking W (pushes tr) s = (tr', Done (tt, s')) /\
    forall h tx, txTracker s !! h = Some tx ->
      txTracker s' !! h
      = Some (if bool_decide (State tx = CONFIRMED_ON_BTC)
              then withState SENT_TO_BABYLON tx else tx).
Proof.
  intros Hq Hp Hall.
  set (e := envAt W (now s)) in *.
  set (txs := Store.scan (txTracker s)).
  set (conf := map txid (filter (stateIn [CONFIRMED_ON_BTC]) txs)).
  assert (Htx : forall tx, tx ∈ txs ->
            exists h, txTracker s !! h = Some tx /\
              (settled e tx \/ delegatedBehind e h tx)).
  { intros tx Hin. apply scan_lookup in Hin as (h & Hl). eauto. }
  assert (Hknown : Forall knownState txs).
  { apply Forall_forall. intros tx Hin tag Hst.
    destruct (Htx tx Hin) as (h & _ & [[H | [H | [H _]]] | [H _]]); congruence. }
  assert (Hsent : filter (stateIn [SENT_TO_BTC]) txs = []).
  { apply filter_none. intros tx Hin Hst. unfold stateIn in Hst.
    apply list_elem_of_singleton in Hst.
    destruct (Htx tx Hin) as (h & _ & [[H | [H | [H _]]] | [H _]]); congruence. }
  assert (Hconf : forall h, h ∈ conf <->
            exists tx, txTracker s !! h = Some tx /\ State tx = CONFIRMED_ON_BTC).
  { intros h. unfold conf. rewrite list_elem_of_fmap. split.
    - intros (tx & -> & Hin). apply list_elem_of_filter in Hin as [Hst Hin].
      unfold stateIn in Hst. apply list_elem_of_singleton in Hst.
      destruct (Htx tx Hin) as (h & Hl & [[H | [H | [H _]]] | (_ & Hid & _)]);
        try congruence.
      rewrite Hid. eauto.
    - intros (tx & Hl & Hst). exists tx.
      destruct (Hall h tx Hl) as [[H | [H | [H _]]] | (_ & Hid & _)]; try congruence.
      split; [done |]. apply list_elem_of_filter. split.
      + unfold stateIn. rewrite Hst. apply list_elem_of_singleton. reflexivity.
      + apply scan_lookup. eauto. }
  assert (Hnodup : NoDup conf).
  { unfold conf, txs, Store.scan. rewrite hashes_of_filtered.
    - eapply sublist_NoDup; [apply (NoDup_fst_map_to_list (txTracker s)) |].
      apply fmap_sublist, sublist_filter.
    - intros h tx Hin Hst. apply elem_of_map_to_list in Hin.
      unfold stateIn in Hst. apply list_elem_of_singleton in Hst.
      destruct (Hall h tx Hin) as [[H | [H | [H _]]] | (_ & Hid & _)]; congruence. }
  assert (Hrun : checkTransactionsStatus W s
                 = (map (fun h => Push (delegationFound h)) conf, Done (None, s))).
  { unfold checkTransactionsStatus. pure_step. fold e. rewrite Hp.
    erewrite bind_pure by apply ScanTrackedTransactions_run.
    fold txs. rewrite scanFold_worklists by done. simpl. rewrite Hsent. simpl.
    erewrite bind_pure by reflexivity. cbv beta iota.
    erewrite bind_done; cycle 1.
    { apply (forRange_run _ (fun h => [Push (delegationFound h)])). intros h Hh.
      apply Hconf in Hh as (tx & Hl & Hst).
      destruct (Hall h tx Hl) as [[H | [H | [H _]]] | (_ & _ & Hd)]; try congruence.
      by apply checkConfirmedOnBtc_delegated. }
    simpl.
    erewrite bind_done; cycle 1.
    { apply (forRange_run _ (fun _ => [])). intros i Hi.
      apply list_elem_of_fmap in Hi as (tx & -> & Hin).
      apply list_elem_of_filter in Hin as [Hst Hin]. unfold stateIn in Hst.
      destruct (Htx tx Hin) as (h & Hl & [[H | [H | [H (info & Hqi & Hu)]]] | [H _]]);
        try (rewrite H in Hst; exfalso; revert Hst; state_mem).
      rewrite H. by apply checkOnBabylon_in_sync with info. }
    assert (Hnil : forall (l : list stakingDbInfo),
              concat (map (fun _ => @nil Action) l) = []).
    { induction l; [reflexivity | done]. }
    assert (Hmap : forall l : list Hash,
              concat (map (fun h => [Push (delegationFound h)]) l)
              = map (fun h => Push (delegationFound h)) l).
    { induction l as [|x l IH]; [reflexivity |]. simpl. by rewrite IH. }
    simpl. fold conf. rewrite Hmap, Hnil, app_nil_r. reflexivity. }
  destruct (handleStaking_delegations W s conf Hnodup (txTracker s))
    as (tr' & m' & Hloop & Hm').
  { intros h Hh. by apply Hconf. }
  rewrite setTracker_same in Hloop.
  exists (map (fun h => Push (delegationFound h)) conf), tr', (setTracker m' s).
  split; [exact Hrun |]. split.
  - assert (Hp' : forall l : list Hash,
              pushes (map (fun h => Push (delegationFound h)) l) = map delegationFound l).
    { induction l as [|x l IH]; [reflexivity |]. simpl. by rewrite IH. }
    by rewrite Hp'.
  - intros h tx Hl. cbn [txTracker setTracker]. rewrite (Hm' h tx Hl). f_equal.
    destruct (decide (State tx = CONFIRMED_ON_BTC)) as [Hst | Hst].
    + rewrite !bool_decide_eq_true_2; [done | done |]. apply Hconf. eauto.
    + rewrite !bool_decide_eq_false_2; [done | done |].
      intros Hin. apply Hconf in Hin as (tx' & Hl' & Hst').
      pose proof (eq_trans (eq_sym Hl') Hl) as E. injection E as ->. done.
Qed.

Lemma reconciler_repairs_delegations_witness :
  let W := Example.restartDelegated in
  let s := Example.confirmedAndSpent in
  let e := envAt W (now s) in
  firedBy W (now s) = false /\
  bc_Params e = Ok Sample.params /\
  (forall h tx, txTracker s !! h = Some tx -> settled e tx \/ delegatedBehind e h tx) /\
  exists tr tr' s',
    checkTransactionsStatus W s = (tr, Done (None, s)) /\
    handleStaking W (pushes tr) s = (tr', Done (tt, s')) /\
    forall h tx, txTracker s !! h = Some tx ->
      txTracker s' !! h
      = Some (if bool_decide (State tx = CONFIRMED_ON_BTC)
              then withState SENT_TO_BABYLON tx else tx).
Proof.
  intros W s e.
  assert (Hall : forall h tx, txTracker s !! h = Some tx ->
            settled e tx \/ delegatedBehind e h tx).
  { intros h tx Hl. apply state_lookup in Hl. cbn [map] in Hl.
    apply elem_of_cons in Hl as [Hl | Hl]; [| apply list_elem_of_singleton in Hl];
      injection Hl as -> ->.
    - right. split; [reflexivity |]. split; reflexivity.
    - left. right. left. reflexivity. }
  split; [reflexivity |]. split; [reflexivity |]. split; [exact Hall |].
  exact (reconciler_repairs_delegations W s Sample.params eq_refl eq_refl Hall).
Defined.
